(** * sw_timer: a software timer scheduler multiplexed on one physical timer

    Shallow embedding of [sw_timer.c] / [sw_timer.h].

    - Timer records live in caller-owned storage; the model keeps them in a
      store [mem : gmap addr sw_timer_t], and a C pointer is an [option addr]
      ([None] is [NULL]).  Because the pending chain is built from raw
      [next]/[prev] pointers into that store, aliasing, dangling links and
      cycles are all representable, as they are in C.
    - [uint32_t] values are [Z] with the wrap-around written out ([wrap32]).
    - The two adapter function pointers are functions over an abstract
      hardware state [H]: [set_physical_timer : Z -> H -> H] and
      [get_physical_sw_timer_counter : H -> Z]; an unregistered pointer is
      [None].  Reading the counter does not change the hardware, and time
      does not advance inside one call.
    - Callbacks are opaque code pointers: firing one is recorded in the
      [fired] log, it does not re-enter the API.
    - Every function of the C file is a computation in a state-and-fault
      monad.  Dereferencing [NULL], dereferencing an address that holds no
      record, calling a [NULL] function pointer and [assert(0)] are faults.
      Loops take fuel; running out of it is the fault [OutOfFuel]. *)

From Stdlib Require Import ZArith Lia List.
From stdpp Require Import base option gmap list.

Local Open Scope Z_scope.

(** ** Machine integers *)

Definition wrap32 (z : Z) : Z := z mod 2 ^ 32.

(** C's [a && b] on integers: 1 when both operands are non-zero, else 0. *)
Definition logical_and (a b : Z) : Z :=
  if negb (a =? 0) && negb (b =? 0) then 1 else 0.

(** C's [a & b] on unsigned integers. *)
Definition bitwise_and (a b : Z) : Z := Z.land a b.

(** ** Data model *)

Definition addr := positive.
Definition ptr := option addr.

Inductive sw_timer_mode_t :=
| SW_TIMER_MODE_SINGLE_SHOT
| SW_TIMER_MODE_REPEATING.

Definition mode_value (m : sw_timer_mode_t) : Z :=
  match m with
  | SW_TIMER_MODE_SINGLE_SHOT => 0
  | SW_TIMER_MODE_REPEATING => 1
  end.

Inductive sw_timer_status_t :=
| SW_TIMER_STATUS_OK
| SW_TIMER_STATUS_ERROR_PHYSICAL_TIMER_CALLBACKS_NOT_REGISTERED
| SW_TIMER_STATUS_ERROR_TIMER_NOT_EXIST.

(** [struct SW_TIMER] *)
Record sw_timer_t := mk_timer {
  time : Z;
  period : Z;
  mode : Z;
  callback : ptr;
  arg : ptr;
  next : ptr;
  prev : ptr
}.

Definition set_time (v : Z) (r : sw_timer_t) : sw_timer_t :=
  mk_timer v (period r) (mode r) (callback r) (arg r) (next r) (prev r).
Definition set_period (v : Z) (r : sw_timer_t) : sw_timer_t :=
  mk_timer (time r) v (mode r) (callback r) (arg r) (next r) (prev r).
Definition set_mode (v : Z) (r : sw_timer_t) : sw_timer_t :=
  mk_timer (time r) (period r) v (callback r) (arg r) (next r) (prev r).
Definition set_callback (v : ptr) (r : sw_timer_t) : sw_timer_t :=
  mk_timer (time r) (period r) (mode r) v (arg r) (next r) (prev r).
Definition set_arg (v : ptr) (r : sw_timer_t) : sw_timer_t :=
  mk_timer (time r) (period r) (mode r) (callback r) v (next r) (prev r).
Definition set_next (v : ptr) (r : sw_timer_t) : sw_timer_t :=
  mk_timer (time r) (period r) (mode r) (callback r) (arg r) v (prev r).
Definition set_prev (v : ptr) (r : sw_timer_t) : sw_timer_t :=
  mk_timer (time r) (period r) (mode r) (callback r) (arg r) (next r) v.

Inductive fault :=
| NullDeref      (* a field of the NULL pointer was read or written *)
| BadAddress     (* a non-NULL pointer that holds no timer record *)
| NullCall       (* a NULL function pointer was called *)
| AssertFailed   (* assert(0) *)
| OutOfFuel.     (* a loop did not finish within the fuel *)

Section Machine.

Context {H : Type}.

(** [struct PRIVATE_MEMBERS] *)
Record sw_timer_private_members_t := mk_private {
  head : ptr;
  set_physical_timer : option (Z -> H -> H);
  get_physical_sw_timer_counter : option (H -> Z)
}.

(** The whole machine: the singleton registry [this], the timer records in
    caller-owned storage, the hardware behind the adapter, and the callbacks
    run so far (oldest first), each with the argument it was given. *)
Record state := mk_state {
  this : sw_timer_private_members_t;
  mem : gmap addr sw_timer_t;
  hw : H;
  fired : list (addr * ptr)
}.

Inductive result (A : Type) :=
| Done (a : A) (s : state)
| Fault (f : fault).
Global Arguments Done {A} a s.
Global Arguments Fault {A} f.

Definition M (A : Type) : Type := state -> result A.

Definition ret {A} (a : A) : M A := fun s => Done a s.
Definition bind {A B} (c : M A) (k : A -> M B) : M B :=
  fun s => match c s with
           | Done a s' => k a s'
           | Fault f => Fault f
           end.
Definition fail {A} (f : fault) : M A := fun _ => Fault f.

End Machine.

Global Arguments sw_timer_private_members_t H : clear implicits.
Global Arguments state H : clear implicits.
Global Arguments result H A : clear implicits.
Global Arguments M H A : clear implicits.

Notation "'let*' x := c 'in' k" := (bind c (fun x => k))
  (at level 10, x name, c at level 100, k at level 200).
Notation "c ;;; k" := (bind c (fun _ => k))
  (at level 100, k at level 200, right associativity).

Section Program.

Context {H : Type}.

Abbreviation M := (M H).
Abbreviation state := (state H).

(** *** Memory and registry access *)

Definition get_head : M ptr := fun s => Done (head (this s)) s.

Definition set_head (p : ptr) : M unit := fun s =>
  Done tt (mk_state
             (mk_private p (set_physical_timer (this s))
                (get_physical_sw_timer_counter (this s)))
             (mem s) (hw s) (fired s)).

(** [p->fld] *)
Definition rd {X} (p : ptr) (fld : sw_timer_t -> X) : M X := fun s =>
  match p with
  | None => Fault NullDeref
  | Some a => match mem s !! a with
              | Some r => Done (fld r) s
              | None => Fault BadAddress
              end
  end.

(** [p->fld = v], as the field update [upd] *)
Definition wr (p : ptr) (upd : sw_timer_t -> sw_timer_t) : M unit := fun s =>
  match p with
  | None => Fault NullDeref
  | Some a => match mem s !! a with
              | Some r => Done tt (mk_state (this s) (<[a := upd r]> (mem s))
                                     (hw s) (fired s))
              | None => Fault BadAddress
              end
  end.

(** [this->set_physical_timer(v)] *)
Definition call_set_physical_timer (v : Z) : M unit := fun s =>
  match set_physical_timer (this s) with
  | Some f => Done tt (mk_state (this s) (mem s) (f v (hw s)) (fired s))
  | None => Fault NullCall
  end.

(** [this->get_physical_sw_timer_counter()] *)
Definition call_get_physical_sw_timer_counter : M Z := fun s =>
  match get_physical_sw_timer_counter (this s) with
  | Some f => Done (wrap32 (f (hw s))) s
  | None => Fault NullCall
  end.

(** [callback(arg)] *)
Definition call_callback (cb : addr) (a : ptr) : M unit := fun s =>
  Done tt (mk_state (this s) (mem s) (hw s) (fired s ++ [(cb, a)])).

Definition is_null {X} (p : option X) : bool :=
  match p with None => true | Some _ => false end.

(** *** [sw_timer_register_physical_sw_timer_callbacks] *)

Definition sw_timer_register_physical_sw_timer_callbacks
    (set_fn : option (Z -> H -> H)) (get_fn : option (H -> Z)) : M unit :=
  fun s => Done tt (mk_state (mk_private (head (this s)) set_fn get_fn)
                      (mem s) (hw s) (fired s)).

(** *** [sw_timer_create]: the buffer becomes a stopped record *)

Definition sw_timer_create (p : Z) (m : sw_timer_mode_t) (cb a : ptr)
    (buffer : ptr) : M ptr := fun s =>
  match buffer with
  | None => Fault NullDeref
  | Some b =>
      Done buffer
        (mk_state (this s)
           (<[b := mk_timer 0 p (mode_value m) cb a None None]> (mem s))
           (hw s) (fired s))
  end.

(** *** [sw_timer_update_relative_time] *)

(** [while (_timer) { _timer->time -= shift_time; _timer = _timer->next; }] *)
Fixpoint rebase_loop (fuel : nat) (_timer : ptr) (shift_time : Z) : M unit :=
  match _timer with
  | None => ret tt
  | Some _ =>
      match fuel with
      | O => fail OutOfFuel
      | S fuel' =>
          wr _timer (fun r => set_time (wrap32 (time r - shift_time)) r);;;
          let* n := rd _timer next in
          rebase_loop fuel' n shift_time
      end
  end.

Definition sw_timer_update_relative_time (fuel : nat) (timer : ptr)
    (delta : Z) : M unit :=
  let* t := rd timer time in
  (* if (((timer->time + delta) && 0x80000000) != 0) *)
  (if negb (logical_and (wrap32 (t + delta)) 0x80000000 =? 0) then
     (* _timer = this->head;
        shift_time = _timer->time - this->get_physical_sw_timer_counter(); *)
     let* _timer := get_head in
     let* ht := rd _timer time in
     let* c := call_get_physical_sw_timer_counter in
     rebase_loop fuel _timer (wrap32 (ht - c))
   else ret tt);;;
  (* timer->time += delta; *)
  wr timer (fun r => set_time (wrap32 (time r + delta)) r).

(** *** [sw_timer_insert] *)

Fixpoint sw_timer_insert (fuel : nat) (timer new_timer : ptr) : M unit :=
  match timer with
  | None => ret tt                      (* while (timer) *)
  | Some _ =>
      match fuel with
      | O => fail OutOfFuel
      | S fuel' =>
          let* nt := rd new_timer time in
          let* tt' := rd timer time in
          if nt <? tt' then             (* new_timer->time < timer->time *)
            wr new_timer (set_next timer);;;
            let* tp := rd timer prev in
            wr new_timer (set_prev tp);;;
            let* tp' := rd timer prev in
            wr tp' (set_next new_timer);;;   (* timer->prev->next = new_timer *)
            wr timer (set_prev new_timer)
          else
            let* tn := rd timer next in
            if is_null tn then          (* timer->next == NULL *)
              wr timer (set_next new_timer);;;
              wr new_timer (set_next None);;;
              wr new_timer (set_prev timer)
            else sw_timer_insert fuel' tn new_timer
      end
  end.

(** *** [sw_timer_start] *)

Definition sw_timer_start (fuel : nat) (timer : ptr) : M sw_timer_status_t :=
  if is_null timer then ret SW_TIMER_STATUS_ERROR_TIMER_NOT_EXIST
  else
    let* h := get_head in
    if is_null h then
      (* this->head = timer; this->head->time = this->head->period; *)
      set_head timer;;;
      let* h := get_head in
      let* p := rd h period in
      wr h (set_time p);;;
      fun s =>
        (* if (this->set_physical_timer != NULL) *)
        if negb (is_null (set_physical_timer (this s))) then
          (let* h := get_head in
           let* p := rd h period in
           call_set_physical_timer p;;;
           ret SW_TIMER_STATUS_OK) s
        else
          ret SW_TIMER_STATUS_ERROR_PHYSICAL_TIMER_CALLBACKS_NOT_REGISTERED s
    else
      fun s =>
        (* if ((this->set_physical_timer != NULL)
               && (this->get_physical_sw_timer_counter != NULL)) *)
        if negb (is_null (set_physical_timer (this s)))
           && negb (is_null (get_physical_sw_timer_counter (this s)))
        then
          ((let* h := get_head in
            let* ht := rd h time in
            let* c := call_get_physical_sw_timer_counter in
            let* p := rd timer period in
            sw_timer_update_relative_time fuel timer (wrap32 (ht - c + p));;;
            let* tt' := rd timer time in
            let* h := get_head in
            let* ht := rd h time in
            if tt' <? ht then           (* timer->time < this->head->time *)
              let* c := call_get_physical_sw_timer_counter in
              call_set_physical_timer (wrap32 (tt' - wrap32 (ht - c)));;;
              let* h := get_head in
              wr timer (set_next h);;;
              wr h (set_prev timer);;;
              set_head timer
            else
              (* sw_timer_insert(this->head->next, timer); *)
              let* hn := rd h next in
              sw_timer_insert fuel hn timer);;;
           ret SW_TIMER_STATUS_OK) s
        else
          ret SW_TIMER_STATUS_ERROR_PHYSICAL_TIMER_CALLBACKS_NOT_REGISTERED s.

(** *** [sw_timer_stop] *)

Definition sw_timer_stop (timer : ptr) : M sw_timer_status_t :=
  if is_null timer then ret SW_TIMER_STATUS_ERROR_TIMER_NOT_EXIST
  else
    let* h := get_head in
    (if is_null h then ret tt           (* if (this->head) *)
     else if bool_decide (h = timer) then
       let* hn := rd h next in
       if negb (is_null hn) then        (* this->head->next != NULL *)
         let* nt := rd hn time in
         let* ht := rd h time in
         let* c := call_get_physical_sw_timer_counter in
         call_set_physical_timer (wrap32 (nt - wrap32 (ht - c)));;;
         set_head hn;;;
         wr hn (set_prev None);;;
         wr timer (set_time 0);;;
         wr timer (set_next None)
       else
         wr h (set_time 0);;;
         set_head None;;;
         call_set_physical_timer 0
     else
       wr timer (set_time 0);;;
       let* tn := rd timer next in
       if negb (is_null tn) then        (* timer->next != NULL *)
         let* tp := rd timer prev in
         wr tn (set_prev tp);;;         (* timer->next->prev = timer->prev *)
         let* tp := rd timer prev in
         let* tn := rd timer next in
         wr tp (set_next tn);;;         (* timer->prev->next = timer->next *)
         wr timer (set_prev None);;;
         wr timer (set_next None)
       else
         let* tp := rd timer prev in
         wr tp (set_next None);;;       (* timer->prev->next = NULL *)
         wr timer (set_prev None));;;
    ret SW_TIMER_STATUS_OK.

(** *** [sw_timer_update] *)

(** The four assignments to [period], [mode], [callback] and [arg]. *)
Definition replace_fields (timer : ptr) (p : Z) (m : sw_timer_mode_t)
    (cb a : ptr) : M unit :=
  wr timer (set_period p);;;
  wr timer (set_mode (mode_value m));;;
  wr timer (set_callback cb);;;
  wr timer (set_arg a).

Definition sw_timer_update (fuel : nat) (timer : ptr) (p : Z)
    (m : sw_timer_mode_t) (cb a : ptr) : M sw_timer_status_t :=
  if negb (is_null timer) then
    let* t := rd timer time in
    (if t =? 0 then                     (* timer->time == 0 *)
       replace_fields timer p m cb a
     else
       sw_timer_stop timer;;;
       replace_fields timer p m cb a;;;
       sw_timer_start fuel timer;;;
       ret tt);;;
    ret SW_TIMER_STATUS_OK
  else ret SW_TIMER_STATUS_ERROR_TIMER_NOT_EXIST.

(** *** [sw_timer_interrupt_handler] *)

(** One pass through the body of the [while] loop; [time0] is the local
    [time] captured at entry. *)
Definition handler_body (fuel : nat) (time0 : Z) : M unit :=
  let* h := get_head in
  let* cb := rd h callback in
  let* a := rd h arg in
  let* m := rd h mode in
  (if m =? mode_value SW_TIMER_MODE_SINGLE_SHOT then
     wr h (set_time 0);;;
     let* hn := rd h next in
     if negb (is_null hn) then          (* this->head->next != NULL *)
       wr h (set_next None);;;
       set_head hn;;;
       wr hn (set_prev None)
     else set_head None
   else if m =? mode_value SW_TIMER_MODE_REPEATING then
     let* p := rd h period in
     sw_timer_update_relative_time fuel h p;;;
     let* hn := rd h next in
     (* (this->head->next != NULL)
        && (this->head->time > this->head->next->time) *)
     let* go :=
       (if negb (is_null hn) then
          let* ht := rd h time in
          let* nt := rd hn time in
          ret (nt <? ht)
        else ret false) in
     if (go : bool) then
       (* this->head = this->head->next;
          sw_timer_insert(this->head, this->head->prev);
          this->head->prev = NULL; *)
       set_head hn;;;
       let* hp := rd hn prev in
       sw_timer_insert fuel hn hp;;;
       let* h' := get_head in
       wr h' (set_prev None)
     else ret tt
   else fail AssertFailed);;;           (* assert(0) *)
  let* h' := get_head in
  (if negb (is_null h') then            (* if (this->head) *)
     let* ht := rd h' time in
     if negb (ht =? time0) then call_set_physical_timer (wrap32 (ht - time0))
     else ret tt
   else call_set_physical_timer 0);;;
  match cb with                         (* if (callback != NULL) *)
  | Some f => call_callback f a
  | None => ret tt
  end.

(** [while (this->head && (this->head->time == time)) { ... }]; [fuel] bounds
    the number of passes, [n] is the fuel handed to the inner loops. *)
Fixpoint handler_loop (n fuel : nat) (time0 : Z) : M unit :=
  let* h := get_head in
  let* continue :=
    (if negb (is_null h) then
       let* ht := rd h time in ret (ht =? time0)
     else ret false) in
  if (continue : bool) then
    match fuel with
    | O => fail OutOfFuel
    | S fuel' => handler_body n time0;;; handler_loop n fuel' time0
    end
  else ret tt.

(** [uint32_t time = this->head->time;] comes first, then the loop. *)
Definition sw_timer_interrupt_handler (fuel : nat) : M unit :=
  let* h := get_head in
  let* time0 := rd h time in
  handler_loop fuel fuel time0.

(** *** The contract of Update, in the documentation's words

    "If a timer had not been started yet, this API function update timer's
    parameters; but if the timer had already been started, than this API
    function first call the sw_timer_stop() API function, than update
    timer's parameters, and finally call the sw_timer_start() API function."
    Replacing the parameters is one step here: period, mode, callback and
    argument change, relative time and links stay. *)

Definition replace_parameters (t : addr) (p : Z) (m : sw_timer_mode_t)
    (cb a : ptr) : M unit := fun s =>
  match mem s !! t with
  | Some r =>
      Done tt
        (mk_state (this s)
           (<[t := mk_timer (time r) p (mode_value m) cb a (next r) (prev r)]>
              (mem s))
           (hw s) (fired s))
  | None => Fault BadAddress
  end.

Definition stop_replace_start (fuel : nat) (t : addr) (p : Z)
    (m : sw_timer_mode_t) (cb a : ptr) : M sw_timer_status_t :=
  sw_timer_stop (Some t);;;
  replace_parameters t p m cb a;;;
  sw_timer_start fuel (Some t);;;
  ret SW_TIMER_STATUS_OK.

End Program.

(** ** A down-counting physical timer

    The adapter the scheduler is written for: arming loads the counter, the
    counter then runs down to 0, where the interrupt is raised, and reading it
    gives the ticks that remain of the current arm.  [armed] logs every value
    passed to [arm], most recent first. *)

Record down_counter := mk_hw {
  remaining : Z;
  armed : list Z
}.

Definition dc_arm (v : Z) (h : down_counter) : down_counter :=
  mk_hw v (v :: armed h).
Definition dc_now (h : down_counter) : Z := remaining h.
Definition dc_elapse (k : Z) (h : down_counter) : down_counter :=
  mk_hw (remaining h - k) (armed h).

(** Time passes: [k] ticks of the current arm elapse. *)
Definition elapse (k : Z) (s : state down_counter) : state down_counter :=
  mk_state (this s) (mem s) (dc_elapse k (hw s)) (fired s).

(** The program's initial state: [private_members = { NULL, NULL, NULL }],
    no record created, the hardware idle. *)
Definition initial : state down_counter :=
  mk_state (mk_private None None None) ∅ (mk_hw 0 []) [].

(** Running a computation for its final state. *)
Definition exec {H A} (c : M H A) (s : state H) : option (state H) :=
  match c s with
  | Done _ s' => Some s'
  | Fault _ => None
  end.

(** The chain as a traversal sees it: at most [n] records, following [next]
    from [p]. *)
Fixpoint chain_from (n : nat) (m : gmap addr sw_timer_t) (p : ptr)
    : list (addr * sw_timer_t) :=
  match n, p with
  | S n', Some a =>
      match m !! a with
      | Some r => (a, r) :: chain_from n' m (next r)
      | None => []
      end
  | _, _ => []
  end.

Definition chain_times {H} (n : nat) (s : state H) : list Z :=
  map (fun x => time (snd x)) (chain_from n (mem s) (head (this s))).

(** The pending chain as a list of addresses: following [next] from [p]
    visits exactly [l] and ends at [NULL]. *)
Inductive chain (m : gmap addr sw_timer_t) : ptr -> list addr -> Prop :=
| chain_nil : chain m None []
| chain_cons a r l :
    m !! a = Some r -> chain m (next r) l -> chain m (Some a) (a :: l).

(** What the handler's loop reads of a record it has not reached yet:
    everything but [prev]. *)
Definition view (m : gmap addr sw_timer_t) (a : addr)
    : option (Z * Z * ptr * ptr * ptr) :=
  (fun r => (time r, mode r, callback r, arg r, next r)) <$> m !! a.

(** The callback invocation a record gives rise to when it expires. *)
Definition invocation (r : sw_timer_t) : list (addr * ptr) :=
  match callback r with
  | Some f => [(f, arg r)]
  | None => []
  end.

Definition invocations (m : gmap addr sw_timer_t) (l : list addr)
    : list (addr * ptr) :=
  flat_map (fun a => match m !! a with
                     | Some r => invocation r
                     | None => []
                     end) l.

(** [a] is a SingleShot record due at [deadline]. *)
Definition due_single_shot (m : gmap addr sw_timer_t) (deadline : Z)
    (a : addr) : Prop :=
  exists r, m !! a = Some r /\ time r = deadline
            /\ mode r = mode_value SW_TIMER_MODE_SINGLE_SHOT.

(** The rest of the chain is empty or starts with a record due later. *)
Definition later (m : gmap addr sw_timer_t) (deadline : Z)
    (rest : list addr) : Prop :=
  match rest with
  | [] => True
  | b :: _ => exists r, m !! b = Some r /\ time r <> deadline
  end.

(** The hardware after the last due record has been served. *)
Definition rearmed {H} (arm : Z -> H -> H) (m : gmap addr sw_timer_t)
    (deadline : Z) (rest : list addr) (h : H) : H :=
  match rest with
  | [] => arm 0 h
  | b :: _ => match m !! b with
              | Some r => arm (wrap32 (time r - deadline)) h
              | None => h
              end
  end.

(** ** Scripts: the API driven from the initial state

    A call sequence as a test bench would issue it against the down-counting
    timer.  [Elapse k] lets [k] ticks pass between two calls. *)

Inductive call :=
| Register
| Create (buffer : addr) (p : Z) (m : sw_timer_mode_t) (cb : ptr)
| Start (t : addr)
| Stop (t : addr)
| Update (t : addr) (p : Z) (m : sw_timer_mode_t) (cb : ptr)
| Interrupt
| Elapse (k : Z).

Definition do_call (fuel : nat) (c : call) : M down_counter unit :=
  match c with
  | Register =>
      sw_timer_register_physical_sw_timer_callbacks (Some dc_arm) (Some dc_now)
  | Create b p m cb => sw_timer_create p m cb None (Some b);;; ret tt
  | Start t => sw_timer_start fuel (Some t);;; ret tt
  | Stop t => sw_timer_stop (Some t);;; ret tt
  | Update t p m cb => sw_timer_update fuel (Some t) p m cb None;;; ret tt
  | Interrupt => sw_timer_interrupt_handler fuel
  | Elapse k => fun s => Done tt (elapse k s)
  end.

Fixpoint run (fuel : nat) (cs : list call) : M down_counter unit :=
  match cs with
  | [] => ret tt
  | c :: cs' => do_call fuel c;;; run fuel cs'
  end.

Fixpoint nondecreasing (l : list Z) : bool :=
  match l with
  | x :: (y :: _) as l' => (x <=? y) && nondecreasing l'
  | _ => true
  end.

(** What a test observes after a script: the chain's relative times, head
    first, and the values the hardware was armed with, oldest first. *)
Definition observe (fuel : nat) (cs : list call)
    : option (list Z * list Z) :=
  match exec (run fuel cs) initial with
  | Some s => Some (chain_times fuel s, rev (armed (hw s)))
  | None => None
  end.

(** ** Concrete registries used as test inputs *)

Definition repeating (t p : Z) (cb : ptr) : sw_timer_t :=
  mk_timer t p (mode_value SW_TIMER_MODE_REPEATING) cb None None None.

Definition down_counter_registry (h : ptr)
    : sw_timer_private_members_t down_counter :=
  mk_private h (Some dc_arm) (Some dc_now).

(** Record 1 is pending alone with period [pa] and the counter shows [rem]
    remaining ticks; record 2, period [pb], has been created and never
    started. *)
Definition one_pending_one_stopped (pa pb rem : Z) : state down_counter :=
  mk_state (down_counter_registry (Some 1%positive))
    (<[2%positive := repeating 0 pb (Some 12%positive)]>
       (<[1%positive := repeating pa pa (Some 11%positive)]> ∅))
    (mk_hw rem [pa]) [].

Definition one_pending_one_stopped_script (pa pb rem : Z) : list call :=
  [Register;
   Create 1%positive pa SW_TIMER_MODE_REPEATING (Some 11%positive);
   Create 2%positive pb SW_TIMER_MODE_REPEATING (Some 12%positive);
   Start 1%positive;
   Elapse (pa - rem)].

(** One record created, nothing registered, nothing started. *)
Definition created_unregistered : state down_counter :=
  mk_state (mk_private None None None)
    (<[1%positive := mk_timer 0 50 0 None None None None]> ∅)
    (mk_hw 0 []) [].

(** A lone Repeating timer of period 30 whose deadline has just been
    reached: the counter has run down to 0.  [log] is the callbacks run so
    far. *)
Definition lone_repeating_due (log : list (addr * ptr)) : state down_counter :=
  mk_state (down_counter_registry (Some 1%positive))
    (<[1%positive := repeating 30 30 (Some 11%positive)]> ∅)
    (mk_hw 0 [30]) log.

Definition lone_repeating_script : list call :=
  [Register;
   Create 1%positive 30 SW_TIMER_MODE_REPEATING (Some 11%positive);
   Start 1%positive;
   Elapse 30].

(** The same timer after a first interrupt served with the counter reading
    the armed 30. *)
Definition lone_repeating_reloaded : state down_counter :=
  mk_state (down_counter_registry (Some 1%positive))
    (<[1%positive := repeating 60 30 (Some 11%positive)]> ∅)
    (mk_hw 30 [30; 30]) [(11%positive, None)].

Definition lone_repeating_reloaded_script : list call :=
  [Register;
   Create 1%positive 30 SW_TIMER_MODE_REPEATING (Some 11%positive);
   Start 1%positive;
   Interrupt].

(** Scenario 2 of the specification: two Repeating timers, periods 50 and
    30, started in that order with no tick elapsed in between. *)
Definition two_repeating_script : list call :=
  [Register;
   Create 1%positive 50 SW_TIMER_MODE_REPEATING (Some 11%positive);
   Create 2%positive 30 SW_TIMER_MODE_REPEATING (Some 12%positive);
   Start 1%positive;
   Start 2%positive].

(** ... then the 30 ticks of the arm elapse, the interrupt is served, and a
    third timer is started right away. *)
Definition third_timer_script : list call :=
  two_repeating_script ++
  [Elapse 30;
   Interrupt;
   Create 3%positive 40 SW_TIMER_MODE_SINGLE_SHOT (Some 13%positive);
   Start 3%positive].

(** Four timers started back to back, periods 50 (Repeating), 30
    (SingleShot), 40 (Repeating) and 30 (SingleShot), and the 30 armed ticks
    elapsed: records 2 and 4 share the deadline. *)
Definition shared_deadline_script : list call :=
  [Register;
   Create 1%positive 50 SW_TIMER_MODE_REPEATING (Some 11%positive);
   Create 2%positive 30 SW_TIMER_MODE_SINGLE_SHOT (Some 12%positive);
   Create 3%positive 40 SW_TIMER_MODE_REPEATING (Some 13%positive);
   Create 4%positive 30 SW_TIMER_MODE_SINGLE_SHOT (Some 14%positive);
   Start 1%positive; Start 2%positive; Start 3%positive; Start 4%positive;
   Elapse 30].

Definition shared_deadline : state down_counter :=
  mk_state (down_counter_registry (Some 2%positive))
    (<[1%positive :=
         mk_timer 50 50 1 (Some 11%positive) None None (Some 3%positive)]>
       (<[3%positive :=
            mk_timer 40 40 1 (Some 13%positive) None
              (Some 1%positive) (Some 4%positive)]>
          (<[4%positive :=
               mk_timer 30 30 0 (Some 14%positive) None
                 (Some 3%positive) (Some 2%positive)]>
             (<[2%positive :=
                  mk_timer 30 30 0 (Some 12%positive) None
                    (Some 4%positive) None]> ∅))))
    (mk_hw 0 [30; 50]) [].

(** ** Well-formed chains

    The doubly-linked chain: following [next] from [p] visits exactly [l]
    and ends at [NULL], the first record's [prev] is [q], and every later
    record's [prev] is the record before it.  The registry invariant is
    [dchain (mem s) None (head (this s)) l]. *)
Inductive dchain (m : gmap addr sw_timer_t) : ptr -> ptr -> list addr -> Prop :=
| dchain_nil q : dchain m q None []
| dchain_cons q a r l :
    m !! a = Some r ->
    prev r = q ->
    dchain m (Some a) (next r) l ->
    dchain m q (Some a) (a :: l).

(** The store after the rebase pass over the records [l]: each has
    [shift_time] subtracted from its relative time, modulo 2^32. *)
Fixpoint rebased (shift_time : Z) (l : list addr) (m : gmap addr sw_timer_t)
    : gmap addr sw_timer_t :=
  match l with
  | [] => m
  | a :: l' =>
      match m !! a with
      | Some r =>
          rebased shift_time l'
            (<[a := set_time (wrap32 (time r - shift_time)) r]> m)
      | None => m
      end
  end.

(** The relative times of the records [l], in order (0 for an address that
    holds no record). *)
Definition times (m : gmap addr sw_timer_t) (l : list addr) : list Z :=
  map (fun a => match m !! a with Some r => time r | None => 0 end) l.

(** Everything in a record but its two links. *)
Definition payload (r : sw_timer_t) : Z * Z * Z * ptr * ptr :=
  (time r, period r, mode r, callback r, arg r).

(** ** Further registries used as test inputs *)

(** Four timers pending as in [shared_deadline_script] - the chain is
    2, 4, 3, 1 with relative times 30, 30, 40, 50 - and the counter showing
    [rem] remaining ticks.  Record 5 (Repeating, period 45) is not linked;
    [t5] is its relative time, 0 while it is stopped.  Record 6
    (SingleShot, period 10) is stopped. *)
Definition four_pending (t5 rem : Z) : state down_counter :=
  mk_state (down_counter_registry (Some 2%positive))
    (<[6%positive := mk_timer 0 10 0 (Some 16%positive) None None None]>
       (<[5%positive := mk_timer t5 45 1 (Some 15%positive) None None None]>
          (mem shared_deadline)))
    (mk_hw rem [30; 50]) [].

Definition four_pending_script (rem : Z) : list call :=
  [Register;
   Create 1%positive 50 SW_TIMER_MODE_REPEATING (Some 11%positive);
   Create 2%positive 30 SW_TIMER_MODE_SINGLE_SHOT (Some 12%positive);
   Create 3%positive 40 SW_TIMER_MODE_REPEATING (Some 13%positive);
   Create 4%positive 30 SW_TIMER_MODE_SINGLE_SHOT (Some 14%positive);
   Create 5%positive 45 SW_TIMER_MODE_REPEATING (Some 15%positive);
   Create 6%positive 10 SW_TIMER_MODE_SINGLE_SHOT (Some 16%positive);
   Start 1%positive; Start 2%positive; Start 3%positive; Start 4%positive;
   Elapse (30 - rem)].

(** Two Repeating timers pending, record 2 (period [p2]) in front of
    record 1 (period [p1]), each with its period as relative time, and the
    counter showing [rem] remaining ticks. *)
Definition pending_pair (p1 p2 rem : Z) : state down_counter :=
  mk_state (down_counter_registry (Some 2%positive))
    (<[2%positive :=
         mk_timer p2 p2 1 (Some 12%positive) None (Some 1%positive) None]>
       (<[1%positive :=
            mk_timer p1 p1 1 (Some 11%positive) None None
              (Some 2%positive)]> ∅))
    (mk_hw rem [p2; p1]) [].

Definition pending_pair_script (p1 p2 rem : Z) : list call :=
  [Register;
   Create 1%positive p1 SW_TIMER_MODE_REPEATING (Some 11%positive);
   Create 2%positive p2 SW_TIMER_MODE_REPEATING (Some 12%positive);
   Start 1%positive; Start 2%positive;
   Elapse (p2 - rem)].

(** The adapters registered, one record created, nothing started. *)
Definition created_registered : state down_counter :=
  mk_state (down_counter_registry None)
    (<[1%positive := repeating 0 30 (Some 11%positive)]> ∅)
    (mk_hw 0 []) [].

(** Nothing registered, and record 1 (SingleShot, period 50) started all
    the same: Start has reported the error and made it the head. *)
Definition started_unregistered : state down_counter :=
  mk_state (mk_private (Some 1%positive) None None)
    (<[1%positive := mk_timer 50 50 0 None None None None]> ∅)
    (mk_hw 0 []) [].

(** * Properties *)

(** Symbolic execution of straight-line code: unfold the monad, then feed the
    known facts about the registry and the store to the reads as they come
    up. *)
Ltac unfold_monad :=
  unfold bind, ret, fail, get_head, set_head, rd, wr,
    call_set_physical_timer, call_get_physical_sw_timer_counter,
    call_callback.

Ltac feed :=
  repeat (simpl;
    match goal with
    | |- context [<[?k := _]> _ !! ?k] => rewrite lookup_insert_eq
    | Hne : ?a <> ?b |- context [<[?a := _]> _ !! ?b] =>
        rewrite (lookup_insert_ne _ a b) by exact Hne
    | Hne : ?b <> ?a |- context [<[?a := _]> _ !! ?b] =>
        rewrite (lookup_insert_ne _ a b) by (apply not_eq_sym; exact Hne)
    | Hm : ?m !! ?k = _ |- context [?m !! ?k] => rewrite Hm
    | Hh : head ?x = _ |- context [head ?x] => rewrite Hh
    | Ha : set_physical_timer ?x = _ |- context [set_physical_timer ?x] =>
        rewrite Ha
    | Ha : get_physical_sw_timer_counter ?x = _
      |- context [get_physical_sw_timer_counter ?x] => rewrite Ha
    | Hn : next ?r = _ |- context [next ?r] => rewrite Hn
    | Hp : prev ?r = _ |- context [prev ?r] => rewrite Hp
    | Ht : time ?r = _ |- context [time ?r] => rewrite Ht
    end);
  simpl.

Ltac sym_exec := repeat (progress (unfold_monad; feed)).

Section Properties.

Context {H : Type}.
Implicit Types (s : state H) (t h : addr) (r : sw_timer_t).

(** ** The relative-time update *)

(** The guard [((timer->time + delta) && 0x80000000) != 0] uses the logical
    conjunction: it holds as soon as the 32-bit sum is not zero. *)
Lemma rebase_guard x :
  negb (logical_and x 0x80000000 =? 0) = negb (x =? 0).
Proof. unfold logical_and. destruct (x =? 0); reflexivity. Qed.

(** The guard the header comment describes ("greater or equal to
    0x80000000") is the bit test, and the two differ on every non-zero sum
    below 2^31. *)
Lemma rebase_guard_differs x :
  0 < x < 2 ^ 31 ->
  negb (logical_and x 0x80000000 =? 0) = true
  /\ negb (bitwise_and x 0x80000000 =? 0) = false.
Proof.
  intros Hx. rewrite rebase_guard. split.
  - apply negb_true_iff, Z.eqb_neq. lia.
  - apply negb_false_iff, Z.eqb_eq. unfold bitwise_and.
    change 0x80000000 with (2 ^ 31).
    apply Z.bits_inj'. intros n Hn.
    rewrite Z.land_spec, Z.bits_0, Z.pow2_bits_eqb by lia.
    destruct (Z.eqb_spec 31 n) as [<-|]; [|apply andb_false_r].
    rewrite andb_true_r. apply Z.bits_above_log2; [lia|].
    apply Z.log2_lt_pow2; lia.
Qed.

(** No rebase happens only when the 32-bit sum is exactly 0. *)
Lemma sw_timer_update_relative_time_zero_sum s fuel t r delta :
  mem s !! t = Some r ->
  wrap32 (time r + delta) = 0 ->
  sw_timer_update_relative_time fuel (Some t) delta s =
    Done tt (mk_state (this s) (<[t := set_time 0 r]> (mem s))
               (hw s) (fired s)).
Proof.
  intros Hm Hz.
  unfold sw_timer_update_relative_time; unfold_monad; feed.
  rewrite rebase_guard, Hz; feed. rewrite Hz. reflexivity.
Qed.

(** With a one-record chain and a target outside of it, any non-zero 32-bit
    sum rebases the head by [head.time - now()] before the target's time is
    advanced. *)
Lemma sw_timer_update_relative_time_rebases s fuel h rh t r delta
    (now : H -> Z) :
  head (this s) = Some h ->
  mem s !! h = Some rh ->
  next rh = None ->
  h <> t ->
  mem s !! t = Some r ->
  get_physical_sw_timer_counter (this s) = Some now ->
  wrap32 (time r + delta) <> 0 ->
  sw_timer_update_relative_time (S fuel) (Some t) delta s =
    Done tt
      (mk_state (this s)
         (<[t := set_time (wrap32 (time r + delta)) r]>
            (<[h := set_time
                      (wrap32
                         (time rh - wrap32 (time rh - wrap32 (now (hw s)))))
                      rh]> (mem s)))
         (hw s) (fired s)).
Proof.
  intros Hh Hmh Hn Hne Hmt Hnow Hnz.
  unfold sw_timer_update_relative_time; unfold_monad; feed.
  rewrite rebase_guard.
  apply Z.eqb_neq in Hnz. rewrite Hnz. feed.
  destruct fuel; sym_exec; reflexivity.
Qed.

(** C2.  The rebase is not reserved to sums that reach 0x80000000.  With a
    one-record chain and a target outside of it, every delta that brings
    the target's time to a sum strictly between 0 and 2^31 makes the code
    rebase the chain first: the head's time is replaced by its time minus
    [head.time - now()], and only then is the target advanced by the
    delta. *)
Theorem sw_timer_update_relative_time_rebases_below_threshold s fuel h rh
    t r delta (now : H -> Z) :
  head (this s) = Some h ->
  mem s !! h = Some rh ->
  next rh = None ->
  h <> t ->
  mem s !! t = Some r ->
  get_physical_sw_timer_counter (this s) = Some now ->
  0 < time r + delta < 2 ^ 31 ->
  sw_timer_update_relative_time (S fuel) (Some t) delta s =
    Done tt
      (mk_state (this s)
         (<[t := set_time (time r + delta) r]>
            (<[h := set_time
                      (wrap32
                         (time rh - wrap32 (time rh - wrap32 (now (hw s)))))
                      rh]> (mem s)))
         (hw s) (fired s)).
Proof.
  intros Hh Hmh Hn Hne Hmt Hnow Hsum.
  assert (Hw : wrap32 (time r + delta) = time r + delta).
  { unfold wrap32. apply Z.mod_small. lia. }
  rewrite (sw_timer_update_relative_time_rebases s fuel h rh t r delta now)
    by (try assumption; rewrite Hw; lia).
  rewrite Hw. reflexivity.
Qed.

(** ** Stop *)

(** With the arm adapter registered, stopping the sole pending timer (it is
    the head and has no successor) empties the chain, resets the record's
    relative time to 0 and leaves its other fields alone, and calls the
    hardware exactly once, as [arm(0)]: the hardware state afterwards is
    [arm 0] of the one before. *)
Theorem sw_timer_stop_sole_pending s t r (arm : Z -> H -> H) :
  head (this s) = Some t ->
  mem s !! t = Some r ->
  next r = None ->
  set_physical_timer (this s) = Some arm ->
  sw_timer_stop (Some t) s =
    Done SW_TIMER_STATUS_OK
      (mk_state
         (mk_private None (Some arm) (get_physical_sw_timer_counter (this s)))
         (<[t := set_time 0 r]> (mem s))
         (arm 0 (hw s))
         (fired s)).
Proof.
  intros Hh Hm Hn Ha.
  unfold sw_timer_stop; unfold_monad; feed.
  rewrite bool_decide_eq_true_2 by reflexivity.
  feed. reflexivity.
Qed.

(** C9.  Stopping the sole pending timer (it is the head and has no
    successor) when no arm adapter is registered: the branch
    [this->head->time = 0; this->head = NULL; this->set_physical_timer(0);]
    calls the adapter without the test Start makes, so the call goes
    through the NULL function pointer and Stop returns no status. *)
Theorem sw_timer_stop_sole_pending_unregistered s t r :
  head (this s) = Some t ->
  mem s !! t = Some r ->
  next r = None ->
  set_physical_timer (this s) = None ->
  sw_timer_stop (Some t) s = Fault NullCall.
Proof.
  intros Hh Hm Hn Ha.
  unfold sw_timer_stop; unfold_monad; feed.
  rewrite bool_decide_eq_true_2 by reflexivity.
  feed. reflexivity.
Qed.

(** A handle that is [NULL] is rejected before anything is read. *)
Lemma sw_timer_stop_null s :
  sw_timer_stop None s = Done SW_TIMER_STATUS_ERROR_TIMER_NOT_EXIST s.
Proof. reflexivity. Qed.

(** With an empty chain, Stop does nothing and reports Ok. *)
Lemma sw_timer_stop_empty_chain s (timer : ptr) :
  head (this s) = None ->
  timer <> None ->
  sw_timer_stop timer s = Done SW_TIMER_STATUS_OK s.
Proof.
  intros Hh Ht. destruct timer as [t|]; [|congruence].
  unfold sw_timer_stop, bind, get_head; simpl. rewrite Hh. reflexivity.
Qed.

(** C7.  Stop on a record that is not in the chain (relative time 0, both
    links cleared), while another record is the head: the non-head path
    takes the [else] branch for [timer->next == NULL] and writes through
    [timer->prev], which is [NULL].  The call does not return Ok, it
    faults. *)
Theorem sw_timer_stop_not_pending_faults s h t r :
  head (this s) = Some h ->
  h <> t ->
  mem s !! t = Some r ->
  time r = 0 ->
  next r = None ->
  prev r = None ->
  sw_timer_stop (Some t) s = Fault NullDeref.
Proof.
  intros Hh Hne Hm _ Hn Hp.
  unfold sw_timer_stop; unfold_monad; feed.
  rewrite bool_decide_eq_false_2 by congruence.
  feed. reflexivity.
Qed.

(** ** Start *)

Lemma sw_timer_start_null s fuel :
  sw_timer_start fuel None s = Done SW_TIMER_STATUS_ERROR_TIMER_NOT_EXIST s.
Proof. reflexivity. Qed.

(** On a non-empty chain both adapter operations are checked before any
    record is touched: a missing one leaves the state as it was. *)
Lemma sw_timer_start_unregistered_nonempty s fuel t h :
  head (this s) = Some h ->
  set_physical_timer (this s) = None
    \/ get_physical_sw_timer_counter (this s) = None ->
  sw_timer_start fuel (Some t) s =
    Done SW_TIMER_STATUS_ERROR_PHYSICAL_TIMER_CALLBACKS_NOT_REGISTERED s.
Proof.
  intros Hh Hreg.
  unfold sw_timer_start, bind, get_head; simpl. rewrite Hh; simpl.
  destruct Hreg as [-> | ->]; simpl; [reflexivity|].
  rewrite andb_false_r. reflexivity.
Qed.

(** C3.  On an empty chain the record is installed as head and its relative
    time is set to its period before the arm adapter is looked at: with the
    adapter missing the call reports the error and the registry head and the
    record have changed all the same. *)
Theorem sw_timer_start_unregistered_empty_mutates s fuel t r :
  head (this s) = None ->
  set_physical_timer (this s) = None ->
  mem s !! t = Some r ->
  sw_timer_start fuel (Some t) s =
    Done SW_TIMER_STATUS_ERROR_PHYSICAL_TIMER_CALLBACKS_NOT_REGISTERED
      (mk_state
         (mk_private (Some t) None (get_physical_sw_timer_counter (this s)))
         (<[t := set_time (period r) r]> (mem s))
         (hw s) (fired s)).
Proof.
  intros Hh Ha Hm.
  unfold sw_timer_start; unfold_monad; feed. reflexivity.
Qed.

(** The counterpart with the adapter registered: the record becomes the
    head with its period as relative time and the hardware is armed once,
    for the period. *)
Lemma sw_timer_start_empty_chain s fuel t r (arm : Z -> H -> H) :
  head (this s) = None ->
  set_physical_timer (this s) = Some arm ->
  mem s !! t = Some r ->
  sw_timer_start fuel (Some t) s =
    Done SW_TIMER_STATUS_OK
      (mk_state
         (mk_private (Some t) (Some arm)
            (get_physical_sw_timer_counter (this s)))
         (<[t := set_time (period r) r]> (mem s))
         (arm (period r) (hw s)) (fired s)).
Proof.
  intros Hh Ha Hm.
  unfold sw_timer_start; unfold_monad; feed. reflexivity.
Qed.

(** C1.  A second timer started behind a sole head is dropped.  The chain
    holds exactly the head [h] (no successor), the record [t] is another one,
    both adapter operations are registered, and the relative time computed
    for [t] is not below the head's: Start returns Ok, yet the ordered
    insertion is entered at [head->next], which is [NULL], so its loop body
    never runs.  Afterwards the registry is as before (head [h], hardware not
    re-armed), [h] and [t] have only their times changed, and so the chain
    from the head is still [h] alone while [t] carries a non-zero time and
    no link. *)
Theorem sw_timer_start_behind_sole_head_drops s fuel h rh t r
    (arm : Z -> H -> H) (now : H -> Z) :
  head (this s) = Some h ->
  mem s !! h = Some rh ->
  next rh = None ->
  h <> t ->
  mem s !! t = Some r ->
  set_physical_timer (this s) = Some arm ->
  get_physical_sw_timer_counter (this s) = Some now ->
  let c := wrap32 (now (hw s)) in
  let new_t := wrap32 (time r + wrap32 (time rh - c + period r)) in
  let new_h := wrap32 (time rh - wrap32 (time rh - c)) in
  new_t <> 0 ->
  new_h <= new_t ->
  sw_timer_start (S fuel) (Some t) s =
    Done SW_TIMER_STATUS_OK
      (mk_state (this s)
         (<[t := set_time new_t r]> (<[h := set_time new_h rh]> (mem s)))
         (hw s) (fired s)).
Proof.
  intros Hh Hmh Hn Hne Hmt Harm Hnow c new_t new_h Hnz Hge.
  unfold sw_timer_start; simpl.
  unfold bind at 1, get_head at 1. rewrite Hh; simpl.
  rewrite Harm, Hnow; simpl.
  unfold bind at 1. unfold bind at 1, get_head at 1. rewrite Hh.
  unfold bind at 1, rd at 1. rewrite Hmh.
  unfold bind at 1, call_get_physical_sw_timer_counter at 1. rewrite Hnow.
  unfold bind at 1, rd at 1. rewrite Hmt.
  unfold bind at 1.
  rewrite (sw_timer_update_relative_time_rebases s fuel h rh t r _ now)
    by assumption.
  fold c new_t new_h.
  sym_exec.
  apply Z.ltb_ge in Hge. rewrite Hge.
  sym_exec. destruct fuel; reflexivity.
Qed.

(** Ordered insertion into the empty list does nothing: the loop body is
    never entered, so the new record is linked nowhere. *)
Lemma sw_timer_insert_null s fuel (new_timer : ptr) :
  sw_timer_insert fuel None new_timer s = Done tt s.
Proof. destruct fuel; reflexivity. Qed.

(** Entered at a record that is the last of its list and whose time is not
    above the new record's, the insertion does append: the same call made
    with the head itself instead of [head->next] would have linked the new
    record behind a sole head. *)
Lemma sw_timer_insert_append s fuel a ra t r :
  mem s !! a = Some ra ->
  next ra = None ->
  a <> t ->
  mem s !! t = Some r ->
  time ra <= time r ->
  sw_timer_insert (S fuel) (Some a) (Some t) s =
    Done tt
      (mk_state (this s)
         (<[t := set_prev (Some a) (set_next None r)]>
            (<[a := set_next (Some t) ra]> (mem s)))
         (hw s) (fired s)).
Proof.
  intros Hma Hn Hne Hmt Hle.
  unfold sw_timer_insert; sym_exec.
  apply Z.ltb_ge in Hle. rewrite Hle. sym_exec.
  rewrite insert_insert_eq. reflexivity.
Qed.

(** ** Update *)

Lemma replace_fields_one_step s t p m cb a :
  replace_fields (Some t) p m cb a s = replace_parameters t p m cb a s.
Proof.
  unfold replace_fields, replace_parameters; unfold_monad; simpl.
  destruct (mem s !! t) as [r|] eqn:Hm; [|reflexivity].
  feed. rewrite !insert_insert_eq. reflexivity.
Qed.

(** C8.  Update on a created record [t]:
    - a [NULL] handle is refused with TimerNotExist and nothing changes;
    - a stopped record (relative time 0) gets the new period, mode, callback
      and argument in place, its relative time and links are kept, and the
      registry, every other record and the hardware are untouched;
    - a pending record is handled exactly as Stop, then the replacement of
      the four parameters, then Start would: same final state, same fault
      if one of the three faults, and Ok returned whatever Stop and Start
      reported. *)
Theorem sw_timer_update_contract s fuel t r p m cb a :
  mem s !! t = Some r ->
  sw_timer_update fuel None p m cb a s =
    Done SW_TIMER_STATUS_ERROR_TIMER_NOT_EXIST s
  /\ (time r = 0 ->
      sw_timer_update fuel (Some t) p m cb a s =
        Done SW_TIMER_STATUS_OK
          (mk_state (this s)
             (<[t := mk_timer 0 p (mode_value m) cb a (next r) (prev r)]>
                (mem s))
             (hw s) (fired s)))
  /\ (time r <> 0 ->
      sw_timer_update fuel (Some t) p m cb a s =
        stop_replace_start fuel t p m cb a s).
Proof.
  intros Hm. split; [reflexivity|]. split; intros Ht.
  - unfold sw_timer_update; simpl.
    unfold bind at 1. unfold rd at 1. rewrite Hm, Ht; simpl.
    unfold bind at 1. rewrite replace_fields_one_step.
    unfold replace_parameters. rewrite Hm, Ht. reflexivity.
  - unfold sw_timer_update, stop_replace_start; simpl.
    unfold bind at 1. unfold rd at 1. rewrite Hm.
    apply Z.eqb_neq in Ht. rewrite Ht.
    unfold bind.
    destruct (sw_timer_stop (Some t) s) as [x s1|f]; [|reflexivity].
    rewrite replace_fields_one_step.
    destruct (replace_parameters t p m cb a s1) as [y s2|f]; [|reflexivity].
    destruct (sw_timer_start fuel (Some t) s2); reflexivity.
Qed.

(** ** The interrupt handler *)

(** The handler's first statement reads [this->head->time]. *)
Lemma sw_timer_interrupt_handler_entry s fuel :
  sw_timer_interrupt_handler fuel s =
    match head (this s) with
    | None => Fault NullDeref
    | Some h =>
        match mem s !! h with
        | Some r => handler_loop fuel fuel (time r) s
        | None => Fault BadAddress
        end
    end.
Proof.
  unfold sw_timer_interrupt_handler, bind, get_head, rd; simpl.
  destruct (head (this s)) as [h|]; [|reflexivity].
  destruct (mem s !! h); reflexivity.
Qed.

(** The loop condition [this->head && this->head->time == time]: the loop is
    left as soon as there is no head, or the head's relative time differs
    from the captured deadline; otherwise one more pass is made. *)
Lemma handler_loop_exit_empty s n fuel time0 :
  head (this s) = None ->
  handler_loop n fuel time0 s = Done tt s.
Proof.
  intros Hh. destruct fuel; unfold handler_loop; sym_exec; reflexivity.
Qed.

Lemma handler_loop_exit_differs s n fuel time0 h r :
  head (this s) = Some h ->
  mem s !! h = Some r ->
  time r <> time0 ->
  handler_loop n fuel time0 s = Done tt s.
Proof.
  intros Hh Hm Hne. apply Z.eqb_neq in Hne.
  destruct fuel; unfold handler_loop; sym_exec; rewrite Hne; reflexivity.
Qed.

Lemma handler_loop_pass s n fuel time0 h r :
  head (this s) = Some h ->
  mem s !! h = Some r ->
  time r = time0 ->
  handler_loop n (S fuel) time0 s =
    (handler_body n time0;;; handler_loop n fuel time0) s.
Proof.
  intros Hh Hm He.
  unfold handler_loop; fold (@handler_loop H).
  unfold bind at 1, get_head at 1. rewrite Hh; simpl.
  unfold bind at 1. unfold bind at 1, rd at 1. rewrite Hm.
  unfold ret at 1. rewrite He, Z.eqb_refl. reflexivity.
Qed.

Lemma handler_loop_out_of_fuel s n time0 h r :
  head (this s) = Some h ->
  mem s !! h = Some r ->
  time r = time0 ->
  handler_loop n 0 time0 s = Fault OutOfFuel.
Proof.
  intros Hh Hm <-. unfold handler_loop; sym_exec.
  rewrite Z.eqb_refl. reflexivity.
Qed.

(** The handler on a sole SingleShot head: one pass, after which the chain is
    empty, the record is stopped, the hardware is disarmed and the callback
    has run once. *)
Lemma sw_timer_interrupt_handler_sole_single_shot s fuel h r
    (arm : Z -> H -> H) (cb : addr) :
  head (this s) = Some h ->
  mem s !! h = Some r ->
  mode r = mode_value SW_TIMER_MODE_SINGLE_SHOT ->
  next r = None ->
  callback r = Some cb ->
  set_physical_timer (this s) = Some arm ->
  sw_timer_interrupt_handler (S fuel) s =
    Done tt
      (mk_state
         (mk_private None (Some arm) (get_physical_sw_timer_counter (this s)))
         (<[h := set_time 0 r]> (mem s))
         (arm 0 (hw s))
         (fired s ++ [(cb, arg r)])).
Proof.
  intros Hh Hm Hmode Hn Hcb Harm.
  rewrite sw_timer_interrupt_handler_entry, Hh, Hm.
  rewrite (handler_loop_pass s (S fuel) fuel (time r) h r) by auto.
  unfold bind at 1.
  assert (Hbody : handler_body (S fuel) (time r) s =
    Done tt
      (mk_state
         (mk_private None (Some arm) (get_physical_sw_timer_counter (this s)))
         (<[h := set_time 0 r]> (mem s))
         (arm 0 (hw s))
         (fired s ++ [(cb, arg r)]))).
  { unfold handler_body; sym_exec. rewrite Hmode, Hcb; sym_exec. reflexivity. }
  rewrite Hbody. apply handler_loop_exit_empty. reflexivity.
Qed.

(** *** Deadlines shared by SingleShot records *)

Lemma handler_body_single_shot_last s n deadline a ra (arm : Z -> H -> H) :
  head (this s) = Some a ->
  mem s !! a = Some ra ->
  mode ra = mode_value SW_TIMER_MODE_SINGLE_SHOT ->
  next ra = None ->
  set_physical_timer (this s) = Some arm ->
  handler_body n deadline s =
    Done tt
      (mk_state
         (mk_private None (Some arm) (get_physical_sw_timer_counter (this s)))
         (<[a := set_time 0 ra]> (mem s))
         (arm 0 (hw s))
         (fired s ++ invocation ra)).
Proof.
  intros Hh Hm Hmode Hn Harm.
  unfold handler_body, invocation; sym_exec. rewrite Hmode; sym_exec.
  destruct (callback ra); sym_exec; [reflexivity|].
  rewrite app_nil_r. reflexivity.
Qed.

Lemma handler_body_single_shot_next s n deadline a ra b rb
    (arm : Z -> H -> H) :
  head (this s) = Some a ->
  mem s !! a = Some ra ->
  mode ra = mode_value SW_TIMER_MODE_SINGLE_SHOT ->
  next ra = Some b ->
  a <> b ->
  mem s !! b = Some rb ->
  set_physical_timer (this s) = Some arm ->
  handler_body n deadline s =
    Done tt
      (mk_state
         (mk_private (Some b) (Some arm)
            (get_physical_sw_timer_counter (this s)))
         (<[b := set_prev None rb]>
            (<[a := set_next None (set_time 0 ra)]> (mem s)))
         (if time rb =? deadline then hw s
          else arm (wrap32 (time rb - deadline)) (hw s))
         (fired s ++ invocation ra)).
Proof.
  intros Hh Hm Hmode Hn Hne Hmb Harm.
  unfold handler_body, invocation; sym_exec. rewrite Hmode; sym_exec.
  rewrite insert_insert_eq.
  destruct (time rb =? deadline); sym_exec;
    destruct (callback ra); sym_exec; rewrite ?app_nil_r; reflexivity.
Qed.

Lemma view_eq m m' x r :
  view m' x = view m x ->
  m !! x = Some r ->
  exists r', m' !! x = Some r' /\ time r' = time r /\ mode r' = mode r
             /\ callback r' = callback r /\ arg r' = arg r
             /\ next r' = next r.
Proof.
  unfold view. intros Hv Hm. rewrite Hm in Hv; simpl in Hv.
  destruct (m' !! x) as [r'|]; simpl in Hv; [|discriminate].
  exists r'. injection Hv as -> -> -> -> ->. auto 10.
Qed.

Lemma view_after_pass (m : gmap addr sw_timer_t) a ra' b rb x :
  m !! b = Some rb ->
  x <> a ->
  view (<[b := set_prev None rb]> (<[a := ra']> m)) x = view m x.
Proof.
  intros Hb Hx. unfold view.
  destruct (decide (x = b)) as [->|Hxb].
  - rewrite lookup_insert_eq, Hb. reflexivity.
  - rewrite !lookup_insert_ne by congruence. reflexivity.
Qed.

Lemma chain_view m m' p l :
  (forall x, x ∈ l -> view m' x = view m x) ->
  chain m p l -> chain m' p l.
Proof.
  intros Hv Hc. induction Hc as [|a r l Hm Hc IH]; [constructor|].
  destruct (view_eq m m' a r) as (r' & Hm' & _ & _ & _ & _ & Hn);
    [apply Hv; left | exact Hm |].
  apply (chain_cons m' a r' l Hm'). rewrite Hn.
  apply IH. intros x Hx. apply Hv. right. exact Hx.
Qed.

Lemma due_single_shot_view m m' deadline x :
  view m' x = view m x ->
  due_single_shot m deadline x -> due_single_shot m' deadline x.
Proof.
  intros Hv (r & Hm & Ht & Hmode).
  destruct (view_eq m m' x r Hv Hm) as (r' & Hm' & Ht' & Hmode' & _).
  exists r'. split; [exact Hm'|]. split; congruence.
Qed.

Lemma later_view m m' deadline rest :
  (forall x, x ∈ rest -> view m' x = view m x) ->
  later m deadline rest -> later m' deadline rest.
Proof.
  destruct rest as [|b rest]; [auto|]. intros Hv (r & Hm & Ht).
  destruct (view_eq m m' b r) as (r' & Hm' & Ht' & _);
    [apply Hv; left | exact Hm |].
  exists r'. split; [exact Hm'|]. congruence.
Qed.

Lemma invocations_view m m' l :
  (forall x, x ∈ l -> view m' x = view m x) ->
  invocations m' l = invocations m l.
Proof.
  induction l as [|a l IH]; intros Hv; [reflexivity|].
  unfold invocations; simpl. fold (invocations m' l) (invocations m l).
  rewrite IH by (intros x Hx; apply Hv; right; exact Hx).
  f_equal.
  assert (Ha : view m' a = view m a) by (apply Hv; left).
  unfold view in Ha.
  destruct (m !! a) as [r|], (m' !! a) as [r'|]; simpl in Ha;
    try discriminate; [|reflexivity].
  unfold invocation. injection Ha as _ _ -> -> _. reflexivity.
Qed.

Lemma rearmed_view (arm : Z -> H -> H) m m' deadline rest (x : H) :
  (forall a, a ∈ rest -> view m' a = view m a) ->
  rearmed arm m' deadline rest x = rearmed arm m deadline rest x.
Proof.
  destruct rest as [|b rest]; [reflexivity|]. intros Hv.
  assert (Hb : view m' b = view m b) by (apply Hv; left).
  unfold view in Hb. simpl.
  destruct (m !! b) as [r|], (m' !! b) as [r'|]; simpl in Hb;
    try discriminate; [|reflexivity].
  injection Hb as -> _ _ _ _. reflexivity.
Qed.

(** The loop over a run of SingleShot records due at the captured deadline:
    it makes one pass per record and stops in front of [rest]. *)
Lemma handler_loop_single_shots n (arm : Z -> H -> H) deadline rest :
  forall due s fuel,
    set_physical_timer (this s) = Some arm ->
    (length due <= fuel)%nat ->
    chain (mem s) (head (this s)) (due ++ rest) ->
    NoDup (due ++ rest) ->
    Forall (due_single_shot (mem s) deadline) due ->
    later (mem s) deadline rest ->
    exists s',
      handler_loop n fuel deadline s = Done tt s'
      /\ head (this s') = hd_error rest
      /\ fired s' = fired s ++ invocations (mem s) due
      /\ hw s' = match due with
                 | [] => hw s
                 | _ => rearmed arm (mem s) deadline rest (hw s)
                 end.
Proof.
  induction due as [|a due IH]; intros s fuel Harm Hfuel Hc Hnd Hdue Hlater.
  - exists s. simpl in Hc. rewrite app_nil_r.
    inversion Hc as [Hp|b r l Hm Hc' Hp]; subst.
    + split; [apply handler_loop_exit_empty; congruence|].
      split; [simpl; congruence|]. split; reflexivity.
    + destruct Hlater as (r' & Hm' & Ht).
      split; [apply (handler_loop_exit_differs s n fuel deadline b r');
              congruence|].
      split; [simpl; congruence|]. split; reflexivity.
  - destruct fuel as [|fuel]; [simpl in Hfuel; lia|].
    simpl in Hfuel. apply le_S_n in Hfuel.
    simpl in Hc. inversion Hc as [|a' ra l Hma Hc' Hp]; subst.
    apply Forall_cons in Hdue as [(ra' & Hma' & Ht & Hmode) Hdue].
    rewrite Hma in Hma'. injection Hma' as <-.
    simpl in Hnd. apply NoDup_cons in Hnd as [Hnotin Hnd].
    rewrite (handler_loop_pass s n fuel deadline a ra) by congruence.
    unfold bind at 1.
    assert (Hinv : invocations (mem s) (a :: due) =
                   invocation ra ++ invocations (mem s) due).
    { unfold invocations; simpl. rewrite Hma. reflexivity. }
    destruct (next ra) as [b|] eqn:Hn.
    + (* a successor: it is the head of [due ++ rest] *)
      inversion Hc' as [|b' rb l' Hmb Hc'' Hp' Hl]; subst.
      assert (Hab : a <> b).
      { intros ->. apply Hnotin. rewrite <- Hl. left. }
      rewrite (handler_body_single_shot_next s n _ a ra b rb arm)
        by congruence.
      set (m1 := <[b := set_prev None rb]>
                   (<[a := set_next None (set_time 0 ra)]> (mem s))).
      assert (Hv : forall x, x ∈ due ++ rest -> view m1 x = view (mem s) x).
      { intros x Hx. apply view_after_pass; [exact Hmb|].
        intros ->. exact (Hnotin Hx). }
      match goal with
      | |- context [handler_loop n fuel _ ?st] => set (s1 := st)
      end.
      destruct (IH s1 fuel) as (s' & Hrun & Hhead & Hfired & Hhw).
      * reflexivity.
      * exact Hfuel.
      * simpl. rewrite <- Hl. apply (chain_view (mem s)).
        -- intros x Hx. apply Hv. rewrite <- Hl. exact Hx.
        -- apply (chain_cons (mem s) b rb l' Hmb Hc'').
      * exact Hnd.
      * apply Forall_forall. intros x Hx.
        apply (due_single_shot_view (mem s)).
        -- apply Hv. apply elem_of_app. left. exact Hx.
        -- revert x Hx. apply Forall_forall. exact Hdue.
      * apply (later_view (mem s)); [|exact Hlater].
        intros x Hx. apply Hv. apply elem_of_app. right. exact Hx.
      * exists s'. split; [exact Hrun|]. split; [exact Hhead|].
        split.
        -- rewrite Hfired, Hinv. simpl.
           rewrite (invocations_view (mem s) m1)
             by (intros x Hx; apply Hv; apply elem_of_app; left; exact Hx).
           rewrite app_assoc. reflexivity.
        -- rewrite Hhw. simpl.
           rewrite (rearmed_view arm (mem s) m1)
             by (intros x Hx; apply Hv; apply elem_of_app; right; exact Hx).
           destruct due as [|d due].
           ++ simpl in Hl. destruct rest as [|b0 rest]; [discriminate|].
              injection Hl as <- _.
              destruct Hlater as (rb' & Hmb' & Htb).
              rewrite Hmb in Hmb'. injection Hmb' as <-.
              apply Z.eqb_neq in Htb. rewrite Htb. simpl. rewrite Hmb.
              reflexivity.
           ++ simpl in Hl. injection Hl as <- _.
              apply Forall_cons in Hdue as [(rb' & Hmb' & Htb & _) _].
              rewrite Hmb in Hmb'. injection Hmb' as <-.
              apply Z.eqb_eq in Htb. rewrite Htb. reflexivity.
    + (* no successor: [a] was the whole chain *)
      inversion Hc' as [Hp' Hl|]; subst.
      symmetry in Hl. apply app_eq_nil in Hl as [-> ->].
      rewrite (handler_body_single_shot_last s n _ a ra arm)
        by congruence.
      eexists. split; [apply handler_loop_exit_empty; reflexivity|].
      split; [reflexivity|]. split; [|reflexivity].
      rewrite Hinv. unfold invocations; simpl. rewrite app_nil_r.
      reflexivity.
Qed.

(** On a chain of distinct records that begins with a run [due] of
    SingleShot records sharing the head's deadline, followed by [rest] due
    later, the handler returns as soon as it has fuel for one pass per due
    record.  It has then run exactly the callbacks of [due], in chain order,
    made the first record of [rest] the head, and called the hardware once:
    armed for the new head's distance to the deadline, or disarmed if nothing
    is left.  No rebase is involved on this path. *)
Lemma sw_timer_interrupt_handler_single_shots s fuel (arm : Z -> H -> H)
    deadline due rest :
  set_physical_timer (this s) = Some arm ->
  due <> [] ->
  (length due <= fuel)%nat ->
  chain (mem s) (head (this s)) (due ++ rest) ->
  NoDup (due ++ rest) ->
  Forall (due_single_shot (mem s) deadline) due ->
  later (mem s) deadline rest ->
  exists s',
    sw_timer_interrupt_handler fuel s = Done tt s'
    /\ head (this s') = hd_error rest
    /\ fired s' = fired s ++ invocations (mem s) due
    /\ hw s' = rearmed arm (mem s) deadline rest (hw s).
Proof.
  intros Harm Hne Hfuel Hc Hnd Hdue Hlater.
  destruct due as [|a due]; [congruence|].
  rewrite sw_timer_interrupt_handler_entry.
  pose proof Hc as Hc0. pose proof Hdue as Hdue0.
  simpl in Hc0. inversion Hc0 as [|a' ra l Hma Hc' Hp].
  apply Forall_cons in Hdue0 as [(ra' & Hma' & Ht & _) _].
  rewrite Hma in Hma'. injection Hma' as <-.
  rewrite Hma, Ht.
  destruct (handler_loop_single_shots fuel arm deadline rest (a :: due)
              s fuel Harm Hfuel Hc Hnd Hdue Hlater)
    as (s' & Hrun & Hhead & Hfired & Hhw).
  exists s'. auto.
Qed.

(** *** A lone Repeating record *)

Lemma wrap32_small z : 0 <= z < 2 ^ 32 -> wrap32 z = z.
Proof. intros Hz. unfold wrap32. apply Z.mod_small. exact Hz. Qed.

Lemma wrap32_range z : 0 <= wrap32 z < 2 ^ 32.
Proof. unfold wrap32. apply Z.mod_pos_bound. reflexivity. Qed.

Lemma set_time_same r : set_time (time r) r = r.
Proof. destruct r; reflexivity. Qed.

Lemma set_time_twice v w r : set_time v (set_time w r) = set_time v r.
Proof. reflexivity. Qed.

Lemma handler_body_lone_repeating s n h r (arm : Z -> H -> H) (now : H -> Z) :
  head (this s) = Some h ->
  mem s !! h = Some r ->
  mode r = mode_value SW_TIMER_MODE_REPEATING ->
  next r = None ->
  set_physical_timer (this s) = Some arm ->
  get_physical_sw_timer_counter (this s) = Some now ->
  0 < period r ->
  wrap32 (now (hw s)) + period r = time r ->
  time r + period r < 2 ^ 32 ->
  handler_body (S n) (time r) s =
    Done tt (mk_state (this s) (mem s) (hw s) (fired s ++ invocation r)).
Proof.
  intros Hh Hm Hmode Hn Harm Hnow Hp Ht Hlt.
  pose proof (wrap32_range (now (hw s))) as Hc.
  assert (Hsum : (wrap32 (time r + period r) =? 0) = false).
  { apply Z.eqb_neq. rewrite wrap32_small; lia. }
  assert (Hshift : wrap32 (time r - wrap32 (now (hw s))) = period r).
  { rewrite <- Ht. replace (wrap32 (now (hw s)) + period r
                            - wrap32 (now (hw s))) with (period r) by lia.
    apply wrap32_small. lia. }
  assert (Hback : wrap32 (wrap32 (time r - period r) + period r) = time r).
  { rewrite (wrap32_small (time r - period r)) by lia.
    replace (time r - period r + period r) with (time r) by lia.
    apply wrap32_small. lia. }
  unfold handler_body, sw_timer_update_relative_time; sym_exec.
  rewrite Hmode; sym_exec. rewrite rebase_guard, Hsum; sym_exec.
  rewrite Hshift.
  destruct n; sym_exec; rewrite Hback, Z.eqb_refl; sym_exec;
    rewrite !insert_insert_eq, set_time_twice, set_time_same,
      (insert_id _ _ _ Hm);
    unfold invocation; destruct (callback r); sym_exec;
    rewrite ?app_nil_r; destruct s as [[? ? ?] ? ? ?]; simpl in *;
    subst; reflexivity.
Qed.

Lemma handler_body_lone_repeating_no_fuel s h r (now : H -> Z) :
  head (this s) = Some h ->
  mem s !! h = Some r ->
  mode r = mode_value SW_TIMER_MODE_REPEATING ->
  get_physical_sw_timer_counter (this s) = Some now ->
  0 < time r + period r < 2 ^ 32 ->
  handler_body 0 (time r) s = Fault OutOfFuel.
Proof.
  intros Hh Hm Hmode Hnow Hsum.
  unfold handler_body, sw_timer_update_relative_time; sym_exec.
  rewrite Hmode; sym_exec. rewrite rebase_guard.
  replace (wrap32 (time r + period r) =? 0) with false
    by (symmetry; apply Z.eqb_neq; rewrite wrap32_small; lia).
  sym_exec. reflexivity.
Qed.

Lemma handler_loop_lone_repeating s n fuel h r (arm : Z -> H -> H)
    (now : H -> Z) :
  head (this s) = Some h ->
  mem s !! h = Some r ->
  mode r = mode_value SW_TIMER_MODE_REPEATING ->
  next r = None ->
  set_physical_timer (this s) = Some arm ->
  get_physical_sw_timer_counter (this s) = Some now ->
  0 < period r ->
  wrap32 (now (hw s)) + period r = time r ->
  time r + period r < 2 ^ 32 ->
  forall log,
    handler_loop n fuel (time r) (mk_state (this s) (mem s) (hw s) log) =
      Fault OutOfFuel.
Proof.
  intros Hh Hm Hmode Hn Harm Hnow Hp Ht Hlt.
  pose proof (wrap32_range (now (hw s))) as Hc.
  induction fuel as [|fuel IH]; intros log.
  - apply (handler_loop_out_of_fuel _ n (time r) h r); auto.
  - rewrite (handler_loop_pass _ n fuel (time r) h r) by auto.
    unfold bind. destruct n as [|n].
    + rewrite (handler_body_lone_repeating_no_fuel _ h r now);
        [reflexivity | auto .. | simpl; lia].
    + rewrite (handler_body_lone_repeating _ n h r arm now) by auto.
      apply IH.
Qed.

(** C4.  A lone Repeating record whose relative time equals the counter
    reading plus its period when the handler is entered.  Each pass of the
    loop rebases the head by [time - now()], which is the period, adds the
    period back, finds the head's time equal to the captured deadline, leaves
    the hardware alone and runs the callback; the registry is then as it was
    before the pass.  The handler is still looping when the fuel is spent,
    whatever the fuel.  On the down-counting timer this is the very first
    expiry of a freshly started timer: relative time = period, counter run
    down to 0. *)
Theorem sw_timer_interrupt_handler_lone_repeating_diverges s fuel h r
    (arm : Z -> H -> H) (now : H -> Z) :
  head (this s) = Some h ->
  mem s !! h = Some r ->
  mode r = mode_value SW_TIMER_MODE_REPEATING ->
  next r = None ->
  set_physical_timer (this s) = Some arm ->
  get_physical_sw_timer_counter (this s) = Some now ->
  0 < period r ->
  wrap32 (now (hw s)) + period r = time r ->
  time r + period r < 2 ^ 32 ->
  sw_timer_interrupt_handler fuel s = Fault OutOfFuel.
Proof.
  intros Hh Hm Hmode Hn Harm Hnow Hp Ht Hlt.
  rewrite sw_timer_interrupt_handler_entry, Hh, Hm.
  destruct s as [th m hws log].
  apply (handler_loop_lone_repeating (mk_state th m hws log) fuel fuel h r
           arm now); assumption.
Qed.

(** C10.  With no pending timer the handler's very first access is a read
    through the [NULL] head: it faults whatever the fuel, before the loop
    condition [this->head && ...] is ever evaluated. *)
Theorem sw_timer_interrupt_handler_empty_chain s fuel :
  head (this s) = None ->
  sw_timer_interrupt_handler fuel s = Fault NullDeref.
Proof.
  intros Hh. rewrite sw_timer_interrupt_handler_entry, Hh. reflexivity.
Qed.

End Properties.

(** ** The test inputs are reachable from the initial state *)

Lemma one_pending_one_stopped_reached_30_50 :
  exec (run 10 (one_pending_one_stopped_script 30 50 30)) initial =
    Some (one_pending_one_stopped 30 50 30).
Proof. vm_compute. reflexivity. Qed.

Lemma one_pending_one_stopped_reached_50_30 :
  exec (run 10 (one_pending_one_stopped_script 50 30 45)) initial =
    Some (one_pending_one_stopped 50 30 45).
Proof. vm_compute. reflexivity. Qed.

Lemma created_unregistered_reached :
  exec (run 10 [Create 1%positive 50 SW_TIMER_MODE_SINGLE_SHOT None]) initial =
    Some created_unregistered.
Proof. vm_compute. reflexivity. Qed.

Lemma lone_repeating_due_reached :
  exec (run 10 lone_repeating_script) initial = Some (lone_repeating_due []).
Proof. vm_compute. reflexivity. Qed.

(** ** Witnesses on concrete registries *)

(** Record 1 is pending with relative time 50 and 5 of its ticks have
    elapsed (the counter reads 45); record 2 is stopped.  Adding the delta 35
    to record 2 gives the sum 35, far below 2^31, and the chain is rebased
    all the same: record 1 goes from 50 to 45. *)
Lemma sw_timer_update_relative_time_rebases_below_threshold_witness :
  (0 + 35 < 2 ^ 31)%Z
  /\ sw_timer_update_relative_time 10 (Some 2%positive) 35
       (one_pending_one_stopped 50 30 45) =
     Done tt
       (mk_state (down_counter_registry (Some 1%positive))
          (<[2%positive := repeating 35 30 (Some 12%positive)]>
             (<[1%positive := repeating 45 50 (Some 11%positive)]>
                (mem (one_pending_one_stopped 50 30 45))))
          (mk_hw 45 [50]) []).
Proof.
  split; [reflexivity|].
  apply (sw_timer_update_relative_time_rebases_below_threshold
           (one_pending_one_stopped 50 30 45) 9 1%positive
           (repeating 50 50 (Some 11%positive)) 2%positive
           (repeating 0 30 (Some 12%positive)) 35 dc_now);
    first [reflexivity | discriminate | split; reflexivity].
Defined.

(** Start of record 2 (period 50) behind the sole head, record 1 (relative
    time 30, counter at 30): Ok is returned, the chain read from the head is
    still record 1 alone, and record 2 is left with relative time 50 and no
    links. *)
Lemma sw_timer_start_behind_sole_head_drops_witness :
  let s := one_pending_one_stopped 30 50 30 in
  head (this s) = Some 1%positive
  /\ (next <$> mem s !! 1%positive) = Some None
  /\ exists s',
      sw_timer_start 10 (Some 2%positive) s = Done SW_TIMER_STATUS_OK s'
      /\ map fst (chain_from 10 (mem s') (head (this s'))) = [1%positive]
      /\ mem s' !! 2%positive = Some (repeating 50 50 (Some 12%positive)).
Proof.
  intros s. split; [reflexivity|]. split; [reflexivity|].
  eexists. split.
  - apply (sw_timer_start_behind_sole_head_drops s 9 1%positive
             (repeating 30 30 (Some 11%positive)) 2%positive
             (repeating 0 50 (Some 12%positive)) dc_arm dc_now);
      first [reflexivity | discriminate | vm_compute; discriminate].
  - split; vm_compute; reflexivity.
Defined.

(** Start of record 1 with nothing registered: the error is reported, and
    record 1 is the head with relative time 50 afterwards. *)
Lemma sw_timer_start_unregistered_empty_mutates_witness :
  let s := created_unregistered in
  head (this s) = None
  /\ set_physical_timer (this s) = None
  /\ exists s',
      sw_timer_start 10 (Some 1%positive) s =
        Done SW_TIMER_STATUS_ERROR_PHYSICAL_TIMER_CALLBACKS_NOT_REGISTERED s'
      /\ head (this s') = Some 1%positive
      /\ (time <$> mem s !! 1%positive) = Some 0
      /\ (time <$> mem s' !! 1%positive) = Some 50.
Proof.
  intros s. split; [reflexivity|]. split; [reflexivity|].
  eexists. split.
  - apply (sw_timer_start_unregistered_empty_mutates s 10 1%positive
             (mk_timer 0 50 0 None None None None)); reflexivity.
  - split; [|split]; vm_compute; reflexivity.
Defined.

(** Stop of the never-started record 2 while record 1 is pending. *)
Lemma sw_timer_stop_not_pending_faults_witness :
  let s := one_pending_one_stopped 50 30 45 in
  head (this s) = Some 1%positive
  /\ mem s !! 2%positive = Some (repeating 0 30 (Some 12%positive))
  /\ sw_timer_stop (Some 2%positive) s = Fault NullDeref.
Proof.
  intros s. split; [reflexivity|]. split; [reflexivity|].
  apply (sw_timer_stop_not_pending_faults s 1%positive 2%positive
           (repeating 0 30 (Some 12%positive)));
    first [reflexivity | discriminate].
Defined.

(** Stop of record 1, pending alone: the chain is empty, the record is
    stopped and the arm log has gained exactly one entry, 0. *)
Lemma sw_timer_stop_sole_pending_witness :
  let s := one_pending_one_stopped 50 30 45 in
  exists s',
    sw_timer_stop (Some 1%positive) s = Done SW_TIMER_STATUS_OK s'
    /\ head (this s') = None
    /\ (time <$> mem s' !! 1%positive) = Some 0
    /\ armed (hw s') = 0 :: armed (hw s).
Proof.
  intros s. eexists. split.
  - apply (sw_timer_stop_sole_pending s 1%positive
             (repeating 50 50 (Some 11%positive)) dc_arm); reflexivity.
  - split; [|split]; vm_compute; reflexivity.
Defined.

(** Record 1 created and started with nothing registered: Start reports
    the error and leaves record 1 as the sole pending timer; Stop of it
    then calls through the NULL arm pointer. *)
Lemma sw_timer_stop_sole_pending_unregistered_witness :
  exec (run 10 [Create 1%positive 50 SW_TIMER_MODE_SINGLE_SHOT None;
                Start 1%positive]) initial = Some started_unregistered
  /\ head (this started_unregistered) = Some 1%positive
  /\ (next <$> mem started_unregistered !! 1%positive) = Some None
  /\ sw_timer_stop (Some 1%positive) started_unregistered = Fault NullCall.
Proof.
  split; [vm_compute; reflexivity|].
  split; [reflexivity|]. split; [reflexivity|].
  apply (sw_timer_stop_sole_pending_unregistered started_unregistered
           1%positive (mk_timer 50 50 0 None None None None)); reflexivity.
Defined.

(** The handler called in the initial state. *)
Lemma sw_timer_interrupt_handler_empty_chain_witness :
  head (this initial) = None
  /\ sw_timer_interrupt_handler 10 initial = Fault NullDeref.
Proof.
  split; [reflexivity|].
  apply (sw_timer_interrupt_handler_empty_chain initial 10). reflexivity.
Defined.

(** Update of the stopped record 2 and of the pending record 1. *)
Lemma sw_timer_update_contract_witness :
  let s := one_pending_one_stopped 50 30 45 in
  (sw_timer_update 10 (Some 2%positive) 70 SW_TIMER_MODE_SINGLE_SHOT
     (Some 14%positive) None s =
   Done SW_TIMER_STATUS_OK
     (mk_state (this s)
        (<[2%positive :=
             mk_timer 0 70 0 (Some 14%positive) None None None]> (mem s))
        (hw s) (fired s)))
  /\ sw_timer_update 10 (Some 1%positive) 70 SW_TIMER_MODE_SINGLE_SHOT
       (Some 14%positive) None s =
     stop_replace_start 10 1%positive 70 SW_TIMER_MODE_SINGLE_SHOT
       (Some 14%positive) None s.
Proof.
  intros s. split.
  - apply (sw_timer_update_contract s 10 2%positive
             (repeating 0 30 (Some 12%positive)) 70
             SW_TIMER_MODE_SINGLE_SHOT (Some 14%positive) None);
      reflexivity.
  - apply (sw_timer_update_contract s 10 1%positive
             (repeating 50 50 (Some 11%positive)) 70
             SW_TIMER_MODE_SINGLE_SHOT (Some 14%positive) None);
      [reflexivity | discriminate].
Defined.

(** ** Two SingleShot timers sharing a deadline *)

Lemma shared_deadline_reached :
  exec (run 10 shared_deadline_script) initial = Some shared_deadline.
Proof. vm_compute. reflexivity. Qed.

(** Records 2 and 4 fire in chain order within one call, record 3 becomes
    the head and the hardware is armed for the 10 ticks left to it. *)
Lemma sw_timer_interrupt_handler_single_shots_example :
  exists s',
    sw_timer_interrupt_handler 10 shared_deadline = Done tt s'
    /\ head (this s') = Some 3%positive
    /\ fired s' = [(12%positive, None); (14%positive, None)]
    /\ armed (hw s') = [10; 30; 50].
Proof.
  destruct (sw_timer_interrupt_handler_single_shots shared_deadline 10
              dc_arm 30 [2%positive; 4%positive] [3%positive; 1%positive])
    as (s' & Hrun & Hhead & Hfired & Hhw).
  - reflexivity.
  - discriminate.
  - simpl. lia.
  - repeat (eapply chain_cons; [reflexivity|]). apply chain_nil.
  - apply (bool_decide_eq_true_1
             (NoDup ([2%positive; 4%positive] ++ [3%positive; 1%positive]))).
    reflexivity.
  - repeat (apply Forall_cons; split;
              [eexists; split; [reflexivity|]; split; reflexivity|]).
    apply Forall_nil. exact I.
  - eexists. split; [reflexivity|]. discriminate.
  - exists s'. split; [exact Hrun|]. split; [exact Hhead|].
    split; [exact Hfired|]. rewrite Hhw. reflexivity.
Qed.

(** ** A lone Repeating timer at its deadline *)

(** Record 1, Repeating with period 30, started on the empty registry; the
    30 armed ticks have elapsed and the counter reads 0. *)
Lemma sw_timer_interrupt_handler_lone_repeating_diverges_witness :
  let s := lone_repeating_due [] in
  head (this s) = Some 1%positive
  /\ mem s !! 1%positive = Some (repeating 30 30 (Some 11%positive))
  /\ dc_now (hw s) = 0
  /\ forall fuel, sw_timer_interrupt_handler fuel s = Fault OutOfFuel.
Proof.
  intros s. split; [reflexivity|]. split; [reflexivity|].
  split; [reflexivity|]. intros fuel.
  apply (sw_timer_interrupt_handler_lone_repeating_diverges s fuel
           1%positive (repeating 30 30 (Some 11%positive)) dc_arm dc_now);
    reflexivity.
Defined.

(** The same with a counter that is reloaded at expiry, so that it reads
    the armed 30 again when the handler runs: the first interrupt is served
    (relative time 60, armed for 30), the second one never returns. *)
Lemma lone_repeating_reloaded_reached :
  exec (run 10 lone_repeating_reloaded_script) initial =
    Some lone_repeating_reloaded.
Proof. vm_compute. reflexivity. Qed.

Lemma sw_timer_interrupt_handler_reloaded_diverges fuel :
  sw_timer_interrupt_handler fuel lone_repeating_reloaded = Fault OutOfFuel.
Proof.
  apply (sw_timer_interrupt_handler_lone_repeating_diverges
           lone_repeating_reloaded fuel 1%positive
           (repeating 60 30 (Some 11%positive)) dc_arm dc_now);
    reflexivity.
Qed.

(** ** Scenario 1 *)

(** A SingleShot timer of period 100 on the empty registry: armed for 100;
    at the deadline the handler runs the callback once, empties the chain
    and disarms the hardware. *)
Lemma scenario_single_shot_observed :
  exists s,
    exec (run 10 [Register;
                  Create 1%positive 100 SW_TIMER_MODE_SINGLE_SHOT
                    (Some 11%positive);
                  Start 1%positive; Elapse 100; Interrupt]) initial = Some s
    /\ chain_times 10 s = []
    /\ rev (armed (hw s)) = [100; 0]
    /\ fired s = [(11%positive, None)].
Proof.
  eexists. split; [vm_compute; reflexivity|].
  split; [|split]; vm_compute; reflexivity.
Qed.

(** ** Scenario 2 *)

(** C6.  Two Repeating timers, periods 50 and 30, on the down-counting
    timer.  After both Start calls the chain reads [30, 50] and the hardware
    was last armed for 30.  After the 30 ticks have elapsed and the interrupt
    is served the chain reads [20, 30], not [50, 60], and the hardware was
    last armed for 4294967286 ticks, not 20. *)
Theorem scenario_two_repeating_observed :
  observe 10 two_repeating_script = Some ([30; 50], [50; 30])
  /\ observe 10 (two_repeating_script ++ [Elapse 30; Interrupt]) =
     Some ([20; 30], [50; 30; 4294967286]).
Proof. split; vm_compute; reflexivity. Qed.

(** The chain [50, 60] and the arm for 20 ticks come out only if the counter
    still reads 30 when the handler runs, that is when the rebase it always
    performs happens to shift by 0. *)
Lemma scenario_two_repeating_counter_at_30 :
  observe 10 (two_repeating_script ++ [Interrupt]) =
    Some ([50; 60], [50; 30; 20]).
Proof. vm_compute. reflexivity. Qed.

(** ** Order of the chain *)

(** C5.  Scenario 2 continued: a third timer (period 40) is started right
    after the interrupt was served.  All four calls return normally and the
    chain, read from the head, is [70, 4294967286, 0]: not non-decreasing. *)
Theorem third_timer_breaks_order :
  exists s,
    exec (run 10 third_timer_script) initial = Some s
    /\ chain_times 10 s = [70; 4294967286; 0]
    /\ nondecreasing (chain_times 10 s) = false.
Proof.
  eexists. split; [vm_compute; reflexivity|].
  split; vm_compute; reflexivity.
Qed.

(** The order is lost as well when the counter reads the armed value in the
    handler (a counter reloaded at expiry): here the second interrupt leaves
    the hardware armed with 30 - 50 wrapped, and the third timer started
    right after it finds the chain rebased across 0. *)
Lemma third_timer_breaks_order_reloaded :
  observe 10 (two_repeating_script ++
              [Interrupt; Interrupt;
               Create 3%positive 40 SW_TIMER_MODE_SINGLE_SHOT
                 (Some 13%positive);
               Start 3%positive]) =
    Some ([90; 4294967276; 20], [50; 30; 20; 4294967276; 90]).
Proof. vm_compute. reflexivity. Qed.

(** * Further properties of the code *)

Section Chains.

Context {H : Type}.
Implicit Types (s : state H) (t h : addr) (r : sw_timer_t)
  (m : gmap addr sw_timer_t).

(** ** Chains and stores *)

Lemma dchain_chain m q p l : dchain m q p l -> chain m p l.
Proof.
  induction 1 as [|q a r l Hm Hp Hd IH]; [constructor|].
  exact (chain_cons m a r l Hm IH).
Qed.

Lemma chain_agree m m' p l :
  (forall x, x ∈ l -> m' !! x = m !! x) ->
  chain m p l -> chain m' p l.
Proof.
  intros Ha. apply chain_view. intros x Hx. unfold view.
  rewrite (Ha x Hx). reflexivity.
Qed.

Lemma dchain_agree m m' q p l :
  (forall x, x ∈ l -> m' !! x = m !! x) ->
  dchain m q p l -> dchain m' q p l.
Proof.
  intros Ha Hd. induction Hd as [|q a r l Hm Hp Hd IH]; [constructor|].
  apply (dchain_cons m' q a r l); [| exact Hp |].
  - rewrite Ha by left. exact Hm.
  - apply IH. intros x Hx. apply Ha. right. exact Hx.
Qed.

Lemma dchain_cons_inv m q p a l :
  dchain m q p (a :: l) ->
  p = Some a /\ exists r, m !! a = Some r /\ prev r = q
                         /\ dchain m (Some a) (next r) l.
Proof. inversion 1; subst. eauto. Qed.

Lemma dchain_head m q p l : dchain m q p l -> p = hd_error l.
Proof. inversion 1; reflexivity. Qed.

Lemma dchain_null_inv m q l : dchain m q None l -> l = [].
Proof. inversion 1; reflexivity. Qed.

(** ** The rebase pass *)

Lemma rebased_notin shift l : forall m x,
  x ∉ l -> rebased shift l m !! x = m !! x.
Proof.
  induction l as [|a l IH]; intros m x Hx; [reflexivity|].
  apply not_elem_of_cons in Hx as [Hxa Hx]. simpl.
  destruct (m !! a) as [r|] eqn:Hm; [|reflexivity].
  rewrite IH by exact Hx. apply lookup_insert_ne. congruence.
Qed.

Lemma rebased_in shift l : forall m x r,
  NoDup l -> x ∈ l -> m !! x = Some r ->
  (forall y, y ∈ l -> is_Some (m !! y)) ->
  rebased shift l m !! x = Some (set_time (wrap32 (time r - shift)) r).
Proof.
  induction l as [|a l IH]; intros m x r Hnd Hx Hm Hall.
  - inversion Hx.
  - apply NoDup_cons in Hnd as [Ha Hnd]. simpl.
    destruct (Hall a) as [ra Hma]; [left|]. rewrite Hma.
    apply elem_of_cons in Hx as [->|Hx].
    + rewrite rebased_notin by exact Ha.
      rewrite lookup_insert_eq. congruence.
    + assert (x <> a) by (intros ->; exact (Ha Hx)).
      apply IH; [exact Hnd | exact Hx | |].
      * rewrite lookup_insert_ne by congruence. exact Hm.
      * intros y Hy. destruct (decide (y = a)) as [->|Hya].
        -- rewrite lookup_insert_eq. eauto.
        -- rewrite lookup_insert_ne by congruence. apply Hall. right.
           exact Hy.
Qed.

Lemma chain_head_next m a r l :
  chain m (Some a) (a :: l) -> m !! a = Some r -> next r = hd_error l.
Proof.
  inversion 1 as [|a' r' l' Hm Hc]; subst. intros Hm'.
  rewrite Hm in Hm'. injection Hm' as <-.
  inversion Hc; reflexivity.
Qed.

Lemma chain_is_Some m p l : chain m p l -> forall y, y ∈ l -> is_Some (m !! y).
Proof.
  induction 1 as [|a r l Hm Hc IH]; intros y Hy; [inversion Hy|].
  apply elem_of_cons in Hy as [->|Hy]; eauto.
Qed.

(** The loop walks the chain once: with fuel for every record it returns,
    and the store is the rebased one. *)
Lemma rebase_loop_chain shift l : forall s p fuel,
  chain (mem s) p l ->
  NoDup l ->
  (length l <= fuel)%nat ->
  rebase_loop fuel p shift s =
    Done tt (mk_state (this s) (rebased shift l (mem s)) (hw s) (fired s)).
Proof.
  induction l as [|a l IH]; intros s p fuel Hc Hnd Hfuel.
  - inversion Hc; subst. destruct fuel, s; reflexivity.
  - inversion Hc as [|a' r l' Hm Hc' Hp]; subst.
    apply NoDup_cons in Hnd as [Ha Hnd].
    destruct fuel as [|fuel]; [simpl in Hfuel; lia|].
    simpl in Hfuel. apply le_S_n in Hfuel.
    simpl. unfold_monad. rewrite Hm. simpl. rewrite lookup_insert_eq. simpl.
    match goal with
    | |- rebase_loop fuel _ shift ?st = _ => rewrite (IH st (next r) fuel)
    end; [reflexivity | | exact Hnd | exact Hfuel].
    simpl. apply (chain_agree (mem s)); [|exact Hc'].
    intros x Hx. apply lookup_insert_ne. intros ->. exact (Ha Hx).
Qed.

Lemma update_relative_time_on_chain s fuel l h rh t r delta
    (now : H -> Z) :
  head (this s) = Some h ->
  chain (mem s) (Some h) l ->
  NoDup l ->
  mem s !! h = Some rh ->
  mem s !! t = Some r ->
  get_physical_sw_timer_counter (this s) = Some now ->
  wrap32 (time r + delta) <> 0 ->
  (length l <= fuel)%nat ->
  let shift := wrap32 (time rh - wrap32 (now (hw s))) in
  let r1 := if decide (t ∈ l) then set_time (wrap32 (time r - shift)) r
            else r in
  sw_timer_update_relative_time fuel (Some t) delta s =
    Done tt
      (mk_state (this s)
         (<[t := set_time (wrap32 (time r1 + delta)) r1]>
            (rebased shift l (mem s)))
         (hw s) (fired s))
  /\ (forall x rx, x ∈ l -> mem s !! x = Some rx ->
        rebased shift l (mem s) !! x =
          Some (set_time (wrap32 (time rx - shift)) rx))
  /\ (forall x, x ∉ l -> rebased shift l (mem s) !! x = mem s !! x).
Proof.
  intros Hh Hc Hnd Hmh Hmt Hnow Hnz Hfuel shift r1.
  assert (Hin : forall x rx, x ∈ l -> mem s !! x = Some rx ->
            rebased shift l (mem s) !! x =
              Some (set_time (wrap32 (time rx - shift)) rx)).
  { intros x rx Hx Hmx. apply rebased_in; [exact Hnd | exact Hx | exact Hmx |].
    exact (chain_is_Some _ _ _ Hc). }
  split; [|split; [exact Hin | intros x Hx; apply rebased_notin; exact Hx]].
  unfold sw_timer_update_relative_time.
  unfold bind at 1, rd at 1. rewrite Hmt.
  rewrite rebase_guard. apply Z.eqb_neq in Hnz. rewrite Hnz. simpl.
  unfold bind at 1. unfold bind at 1, get_head at 1. rewrite Hh.
  unfold bind at 1, rd at 1. rewrite Hmh.
  unfold bind at 1, call_get_physical_sw_timer_counter at 1. rewrite Hnow.
  rewrite (rebase_loop_chain _ l s (Some h) fuel Hc Hnd Hfuel).
  fold shift. unfold wr. simpl.
  assert (Hr1 : rebased shift l (mem s) !! t = Some r1).
  { unfold r1. destruct (decide (t ∈ l)) as [Ht|Ht].
    - apply Hin; assumption.
    - rewrite rebased_notin by exact Ht. exact Hmt. }
  rewrite Hr1. reflexivity.
Qed.

(** ** Ordered insertion *)

Lemma sw_timer_insert_skip s fuel a ra c t rt :
  mem s !! a = Some ra ->
  mem s !! t = Some rt ->
  time ra <= time rt ->
  next ra = Some c ->
  sw_timer_insert (S fuel) (Some a) (Some t) s =
    sw_timer_insert fuel (Some c) (Some t) s.
Proof.
  intros Hma Hmt Hle Hn. apply Z.ltb_ge in Hle.
  simpl. unfold_monad. rewrite Hmt, Hma, Hle, Hma, Hn. reflexivity.
Qed.

Lemma sw_timer_insert_before s fuel q rq b rb t rt :
  mem s !! q = Some rq ->
  mem s !! b = Some rb ->
  mem s !! t = Some rt ->
  prev rb = Some q ->
  time rt < time rb ->
  q <> b -> t <> b -> t <> q ->
  sw_timer_insert (S fuel) (Some b) (Some t) s =
    Done tt
      (mk_state (this s)
         (<[b := set_prev (Some t) rb]>
            (<[q := set_next (Some t) rq]>
               (<[t := set_prev (Some q) (set_next (Some b) rt)]> (mem s))))
         (hw s) (fired s)).
Proof.
  intros Hmq Hmb Hmt Hp Hlt Hqb Htb Htq. apply Z.ltb_lt in Hlt.
  simpl. unfold_monad. rewrite Hmt, Hmb, Hlt, Hmt. simpl.
  feed. rewrite insert_insert_eq. reflexivity.
Qed.

Lemma insert_into_chain t rt : forall l1 l2 s fuel q qq,
  dchain (mem s) qq (Some q) (q :: l1 ++ l2) ->
  l1 ++ l2 <> [] ->
  NoDup (q :: l1 ++ l2) ->
  t ∉ q :: l1 ++ l2 ->
  mem s !! t = Some rt ->
  Forall (fun x => exists rx, mem s !! x = Some rx /\ time rx <= time rt) l1 ->
  match l2 with
  | [] => True
  | b :: _ => exists rb, mem s !! b = Some rb /\ time rt < time rb
  end ->
  (length (l1 ++ l2) <= fuel)%nat ->
  exists s',
    sw_timer_insert fuel (hd_error (l1 ++ l2)) (Some t) s = Done tt s'
    /\ this s' = this s /\ hw s' = hw s /\ fired s' = fired s
    /\ dchain (mem s') qq (Some q) (q :: l1 ++ t :: l2)
    /\ (forall x, payload <$> mem s' !! x = payload <$> mem s !! x)
    /\ (forall x, x ∉ q :: t :: l1 ++ l2 -> mem s' !! x = mem s !! x).
Proof.
  induction l1 as [|a l1 IH]; intros l2 s fuel q qq Hd Hne Hnd Ht Hmt Hl1 Hl2
    Hfuel.
  - (* insertion in front of the entry *)
    destruct l2 as [|b l2]; [exfalso; apply Hne; reflexivity|]. simpl in *.
    destruct Hl2 as (rb & Hmb & Hlt).
    apply dchain_cons_inv in Hd as (_ & rq & Hmq & Hpq & Hd1).
    pose proof (dchain_head _ _ _ _ Hd1) as Hnq. simpl in Hnq.
    apply dchain_cons_inv in Hd1 as (_ & rb' & Hmb' & Hpb & Hd2).
    rewrite Hmb in Hmb'. injection Hmb' as <-.
    apply NoDup_cons in Hnd as [Hq Hnd].
    apply NoDup_cons in Hnd as [Hb Hnd].
    apply not_elem_of_cons in Ht as [Htq Ht].
    apply not_elem_of_cons in Ht as [Htb Ht].
    apply not_elem_of_cons in Hq as [Hqb Hq].
    destruct fuel as [|fuel]; [lia|].
    rewrite (sw_timer_insert_before s fuel q rq b rb t rt) by assumption.
    eexists. split; [reflexivity|]. simpl.
    split; [reflexivity|]. split; [reflexivity|]. split; [reflexivity|].
    split; [|split].
    + apply (dchain_cons _ _ q (set_next (Some t) rq));
        [by rewrite lookup_insert_ne, lookup_insert_eq by congruence
        | exact Hpq |].
      simpl.
      apply (dchain_cons _ _ t (set_prev (Some q) (set_next (Some b) rt)));
        [by rewrite !lookup_insert_ne, lookup_insert_eq by congruence
        | reflexivity |].
      simpl.
      apply (dchain_cons _ _ b (set_prev (Some t) rb));
        [by rewrite lookup_insert_eq | reflexivity |].
      simpl. apply (dchain_agree (mem s)); [|exact Hd2].
      intros x Hx. rewrite !lookup_insert_ne; [reflexivity | | |];
        intros ->; tauto.
    + intros x.
      destruct (decide (x = b)) as [->|Hxb];
        [rewrite lookup_insert_eq, Hmb; reflexivity|].
      rewrite lookup_insert_ne by congruence.
      destruct (decide (x = q)) as [->|Hxq];
        [rewrite lookup_insert_eq, Hmq; reflexivity|].
      rewrite lookup_insert_ne by congruence.
      destruct (decide (x = t)) as [->|Hxt];
        [rewrite lookup_insert_eq, Hmt; reflexivity|].
      rewrite lookup_insert_ne by congruence. reflexivity.
    + intros x Hx.
      apply not_elem_of_cons in Hx as [Hxq Hx].
      apply not_elem_of_cons in Hx as [Hxt Hx].
      apply not_elem_of_cons in Hx as [Hxb Hx].
      rewrite !lookup_insert_ne by congruence. reflexivity.
  - simpl in *.
    apply Forall_cons in Hl1 as [(ra & Hma & Hle) Hl1].
    pose proof Hd as Hd0.
    apply dchain_cons_inv in Hd0 as (_ & rq & Hmq & Hpq & Hd1).
    pose proof (dchain_head _ _ _ _ Hd1) as Hnq. simpl in Hnq.
    rewrite Hnq in Hd1.
    pose proof Hd1 as Hd10.
    apply dchain_cons_inv in Hd10 as (_ & ra' & Hma' & Hpa & Hd2).
    rewrite Hma in Hma'. injection Hma' as <-.
    pose proof Hnd as Hnd0.
    apply NoDup_cons in Hnd0 as [Hq Hnd1].
    pose proof Hnd1 as Hnd2.
    apply NoDup_cons in Hnd2 as [Ha Hnd2].
    pose proof Ht as Ht0.
    apply not_elem_of_cons in Ht0 as [Htq Ht1].
    pose proof Ht1 as Ht2.
    apply not_elem_of_cons in Ht2 as [Hta Ht2].
    pose proof Hq as Hq0.
    apply not_elem_of_cons in Hq0 as [Hqa Hq0].
    destruct fuel as [|fuel]; [lia|]. apply le_S_n in Hfuel.
    destruct (next ra) as [c|] eqn:Hn.
    + (* walk on *)
      pose proof (dchain_head _ _ _ _ Hd2) as Hc.
      rewrite (sw_timer_insert_skip s fuel a ra c t rt) by auto.
      destruct (IH l2 s fuel a (Some q)) as
        (s' & Hrun & Hthis & Hhw & Hfired & Hd' & Hpay & Hframe);
        [exact Hd1 | | exact Hnd1 | exact Ht1 | exact Hmt | exact Hl1
        | exact Hl2 | exact Hfuel |].
      { intros Hnil. rewrite Hnil in Hc. discriminate. }
      rewrite <- Hc in Hrun.
      exists s'. split; [exact Hrun|].
      split; [exact Hthis|]. split; [exact Hhw|]. split; [exact Hfired|].
      split; [|split].
      * apply (dchain_cons _ _ q rq); [| exact Hpq |].
        -- rewrite Hframe; [exact Hmq|].
           intros Hx.
           apply elem_of_cons in Hx as [->|Hx]; [tauto|].
           apply elem_of_cons in Hx as [->|Hx]; [tauto|].
           exact (Hq0 Hx).
        -- rewrite Hnq. exact Hd'.
      * exact Hpay.
      * intros x Hx. apply Hframe.
        apply not_elem_of_cons in Hx as [Hxq Hx].
        apply not_elem_of_cons in Hx as [Hxt Hx].
        apply not_elem_of_cons in Hx as [Hxa Hx].
        intros Hy. apply elem_of_cons in Hy as [->|Hy]; [tauto|].
        apply elem_of_cons in Hy as [->|Hy]; [tauto|]. exact (Hx Hy).
    + (* the entry is the last record: append *)
      apply dchain_null_inv in Hd2.
      apply app_eq_nil in Hd2 as [-> ->].
      rewrite (sw_timer_insert_append s fuel a ra t rt)
        by (auto; congruence).
      eexists. split; [reflexivity|]. simpl.
      split; [reflexivity|]. split; [reflexivity|]. split; [reflexivity|].
      split; [|split].
      * apply (dchain_cons _ _ q rq);
          [by rewrite !lookup_insert_ne by congruence | exact Hpq |].
        rewrite Hnq.
        apply (dchain_cons _ _ a (set_next (Some t) ra));
          [by rewrite lookup_insert_ne, lookup_insert_eq by congruence
          | exact Hpa |].
        simpl.
        apply (dchain_cons _ _ t (set_prev (Some a) (set_next None rt)));
          [by rewrite lookup_insert_eq | reflexivity |].
        simpl. constructor.
      * intros x.
        destruct (decide (x = t)) as [->|Hxt];
          [rewrite lookup_insert_eq, Hmt; reflexivity|].
        rewrite lookup_insert_ne by congruence.
        destruct (decide (x = a)) as [->|Hxa];
          [rewrite lookup_insert_eq, Hma; reflexivity|].
        rewrite lookup_insert_ne by congruence. reflexivity.
      * intros x Hx.
        apply not_elem_of_cons in Hx as [Hxq Hx].
        apply not_elem_of_cons in Hx as [Hxt Hx].
        apply not_elem_of_cons in Hx as [Hxa Hx].
        rewrite !lookup_insert_ne by congruence. reflexivity.
Qed.

(** The insertion entered at a record [q] whose time is not above the new
    record's: the handler's call, where [q] is the new head. *)
Lemma insert_from t rt s fuel q qq rq l1 l2 :
  dchain (mem s) qq (Some q) (q :: l1 ++ l2) ->
  NoDup (q :: l1 ++ l2) ->
  t ∉ q :: l1 ++ l2 ->
  mem s !! t = Some rt ->
  mem s !! q = Some rq ->
  time rq <= time rt ->
  Forall (fun x => exists rx, mem s !! x = Some rx /\ time rx <= time rt) l1 ->
  match l2 with
  | [] => True
  | b :: _ => exists rb, mem s !! b = Some rb /\ time rt < time rb
  end ->
  (length (q :: l1 ++ l2) <= fuel)%nat ->
  exists s',
    sw_timer_insert fuel (Some q) (Some t) s = Done tt s'
    /\ this s' = this s /\ hw s' = hw s /\ fired s' = fired s
    /\ dchain (mem s') qq (Some q) (q :: l1 ++ t :: l2)
    /\ (forall x, payload <$> mem s' !! x = payload <$> mem s !! x)
    /\ (forall x, x ∉ q :: t :: l1 ++ l2 -> mem s' !! x = mem s !! x).
Proof.
  intros Hd Hnd Ht Hmt Hmq Hle Hl1 Hl2 Hfuel.
  destruct fuel as [|fuel]; [simpl in Hfuel; lia|].
  simpl in Hfuel. apply le_S_n in Hfuel.
  pose proof (dchain_cons_inv _ _ _ _ _ Hd) as (_ & rq' & Hmq' & Hpq & Hd1).
  rewrite Hmq in Hmq'. injection Hmq' as <-.
  pose proof (dchain_head _ _ _ _ Hd1) as Hnq.
  destruct (l1 ++ l2) as [|c l] eqn:Hl.
  - apply app_eq_nil in Hl as [-> ->]. simpl in Hnq.
    pose proof Ht as Ht0. apply not_elem_of_cons in Ht0 as [Htq _].
    rewrite (sw_timer_insert_append s fuel q rq t rt)
      by (auto; congruence).
    eexists. split; [reflexivity|]. simpl.
    split; [reflexivity|]. split; [reflexivity|]. split; [reflexivity|].
    split; [|split].
    + apply (dchain_cons _ _ q (set_next (Some t) rq));
        [by rewrite lookup_insert_ne, lookup_insert_eq by congruence
        | exact Hpq |].
      simpl.
      apply (dchain_cons _ _ t (set_prev (Some q) (set_next None rt)));
        [by rewrite lookup_insert_eq | reflexivity |].
      simpl. constructor.
    + intros x.
      destruct (decide (x = t)) as [->|Hxt];
        [rewrite lookup_insert_eq, Hmt; reflexivity|].
      rewrite lookup_insert_ne by congruence.
      destruct (decide (x = q)) as [->|Hxq];
        [rewrite lookup_insert_eq, Hmq; reflexivity|].
      rewrite lookup_insert_ne by congruence. reflexivity.
    + intros x Hx.
      apply not_elem_of_cons in Hx as [Hxq Hx].
      apply not_elem_of_cons in Hx as [Hxt Hx].
      rewrite !lookup_insert_ne by congruence. reflexivity.
  - simpl in Hnq.
    rewrite (sw_timer_insert_skip s fuel q rq c t rt) by auto.
    rewrite <- Hl in *.
    destruct (insert_into_chain t rt l1 l2 s fuel q qq)
      as (s' & Hrun & Hrest); try assumption.
    { rewrite Hl. discriminate. }
    rewrite Hl in Hrun. simpl in Hrun.
    exists s'. split; [exact Hrun | exact Hrest].
Qed.

Lemma dchain_set_prev m q q' b rb l :
  dchain m q (Some b) (b :: l) ->
  NoDup (b :: l) ->
  m !! b = Some rb ->
  dchain (<[b := set_prev q' rb]> m) q' (Some b) (b :: l).
Proof.
  intros Hd Hnd Hmb.
  apply dchain_cons_inv in Hd as (_ & rb' & Hmb' & _ & Hd).
  rewrite Hmb in Hmb'. injection Hmb' as <-.
  apply NoDup_cons in Hnd as [Hb _].
  apply (dchain_cons _ _ b (set_prev q' rb));
    [apply lookup_insert_eq | reflexivity |].
  simpl. apply (dchain_agree m); [|exact Hd].
  intros x Hx. apply lookup_insert_ne. intros ->. exact (Hb Hx).
Qed.

(** ** Stop on a well-formed chain *)

(** The record [t] inside a chain, behind [z]: [z] is its predecessor and
    the rest of the chain hangs on its successor. *)
Lemma dchain_split m t z : forall l0 q p l2,
  dchain m q p ((l0 ++ [z]) ++ t :: l2) ->
  exists rt, m !! t = Some rt /\ prev rt = Some z
             /\ dchain m (Some t) (next rt) l2.
Proof.
  induction l0 as [|a l0 IH]; intros q p l2 Hd; simpl in Hd.
  - apply dchain_cons_inv in Hd as (_ & rz & Hmz & Hpz & Hd).
    apply dchain_cons_inv in Hd as (_ & rt & Hm & Hp & Hd). eauto.
  - apply dchain_cons_inv in Hd as (_ & ra & Hm & Hp & Hd).
    exact (IH _ _ _ Hd).
Qed.

(** Unlinking in the store: the record before [t] takes over [t]'s
    successor, the record after [t] takes over [t]'s predecessor, and the
    chain without [t] is well formed. *)
Lemma dchain_unlink m m' t rt z rz : forall l0 q p l2,
  dchain m q p ((l0 ++ [z]) ++ t :: l2) ->
  NoDup ((l0 ++ [z]) ++ t :: l2) ->
  m !! t = Some rt ->
  m !! z = Some rz ->
  m' !! z = Some (set_next (next rt) rz) ->
  (forall b rb, hd_error l2 = Some b -> m !! b = Some rb ->
     m' !! b = Some (set_prev (Some z) rb)) ->
  (forall x, x ∈ l0 ++ l2 -> hd_error l2 <> Some x -> m' !! x = m !! x) ->
  dchain m' q p ((l0 ++ [z]) ++ l2).
Proof.
  induction l0 as [|a l0 IH]; intros q p l2 Hd Hnd Hmt Hmz Hz Hb Hother;
    simpl in *.
  - apply dchain_cons_inv in Hd as (-> & rz' & Hmz' & Hpz & Hd).
    rewrite Hmz in Hmz'. injection Hmz' as <-.
    apply dchain_cons_inv in Hd as (Hnz & rt' & Hmt' & Hpt & Hd).
    rewrite Hmt in Hmt'. injection Hmt' as <-.
    apply NoDup_cons in Hnd as [Hzn Hnd].
    apply NoDup_cons in Hnd as [Htn Hnd].
    apply (dchain_cons _ _ z (set_next (next rt) rz)); [exact Hz|exact Hpz|].
    simpl. destruct l2 as [|b l2].
    + pose proof (dchain_head _ _ _ _ Hd) as Hn. rewrite Hn. constructor.
    + pose proof (dchain_head _ _ _ _ Hd) as Hn. rewrite Hn in *. simpl in *.
      apply dchain_cons_inv in Hd as (_ & rb & Hmb & Hpb & Hd).
      apply NoDup_cons in Hnd as [Hbn Hnd].
      apply (dchain_cons _ _ b (set_prev (Some z) rb));
        [apply Hb; auto | reflexivity |].
      simpl. apply (dchain_agree m); [|exact Hd].
      intros x Hx. apply Hother; [right; exact Hx|].
      intros Heq. injection Heq as <-. exact (Hbn Hx).
  - apply dchain_cons_inv in Hd as (-> & ra & Hma & Hpa & Hd).
    apply NoDup_cons in Hnd as [Han Hnd].
    apply (dchain_cons _ _ a ra); [| exact Hpa |].
    + rewrite Hother; [exact Hma | left |].
      intros Heq. apply Han.
      destruct l2 as [|b l2]; [discriminate|]. injection Heq as ->.
      apply elem_of_app. right. right. left.
    + apply IH; auto.
      intros x Hx. apply Hother. right. exact Hx.
Qed.

Lemma sw_timer_stop_middle s h t rt z rz b rb :
  head (this s) = Some h ->
  h <> t ->
  mem s !! t = Some rt ->
  prev rt = Some z ->
  next rt = Some b ->
  mem s !! z = Some rz ->
  mem s !! b = Some rb ->
  z <> t -> b <> t -> z <> b ->
  sw_timer_stop (Some t) s =
    Done SW_TIMER_STATUS_OK
      (mk_state (this s)
         (<[t := set_next None (set_prev None (set_time 0 rt))]>
            (<[z := set_next (Some b) rz]>
               (<[b := set_prev (Some z) rb]>
                  (<[t := set_time 0 rt]> (mem s)))))
         (hw s) (fired s)).
Proof.
  intros Hh Hne Hmt Hp Hn Hmz Hmb Hzt Hbt Hzb.
  unfold sw_timer_stop; unfold_monad; simpl. rewrite Hh; simpl.
  rewrite bool_decide_eq_false_2 by congruence.
  rewrite Hmt; simpl. feed. rewrite insert_insert_eq. reflexivity.
Qed.

Lemma sw_timer_stop_last s h t rt z rz :
  head (this s) = Some h ->
  h <> t ->
  mem s !! t = Some rt ->
  prev rt = Some z ->
  next rt = None ->
  mem s !! z = Some rz ->
  z <> t ->
  sw_timer_stop (Some t) s =
    Done SW_TIMER_STATUS_OK
      (mk_state (this s)
         (<[t := set_prev None (set_time 0 rt)]>
            (<[z := set_next None rz]>
               (<[t := set_time 0 rt]> (mem s))))
         (hw s) (fired s)).
Proof.
  intros Hh Hne Hmt Hp Hn Hmz Hzt.
  unfold sw_timer_stop; unfold_monad; simpl. rewrite Hh; simpl.
  rewrite bool_decide_eq_false_2 by congruence.
  rewrite Hmt; simpl. feed. reflexivity.
Qed.

Lemma dchain_is_Some m q p l x :
  dchain m q p l -> x ∈ l -> is_Some (m !! x).
Proof. intros Hd. apply (chain_is_Some m p l). exact (dchain_chain _ _ _ _ Hd). Qed.

(** Stop of a record that is in the chain behind the head. *)
Lemma sw_timer_stop_member s h l0 z t l2 :
  head (this s) = Some h ->
  dchain (mem s) None (Some h) ((l0 ++ [z]) ++ t :: l2) ->
  NoDup ((l0 ++ [z]) ++ t :: l2) ->
  exists s' rt,
    mem s !! t = Some rt
    /\ sw_timer_stop (Some t) s = Done SW_TIMER_STATUS_OK s'
    /\ this s' = this s /\ hw s' = hw s /\ fired s' = fired s
    /\ dchain (mem s') None (Some h) ((l0 ++ [z]) ++ l2)
    /\ mem s' !! t =
         Some (mk_timer 0 (period rt) (mode rt) (callback rt) (arg rt)
                 None None)
    /\ (forall x, x <> t -> payload <$> mem s' !! x = payload <$> mem s !! x)
    /\ (forall x, x ∉ (l0 ++ [z]) ++ t :: l2 -> mem s' !! x = mem s !! x).
Proof.
  intros Hh Hd Hnd.
  destruct (dchain_split _ _ _ _ _ _ _ Hd) as (rt & Hmt & Hpt & Hdt).
  destruct (dchain_is_Some _ _ _ _ z Hd) as [rz Hmz].
  { apply elem_of_app. left. apply elem_of_app. right. left. }
  pose proof Hnd as Hnd0.
  apply NoDup_app in Hnd0 as (Hnd1 & Hdisj & Hnd2).
  apply NoDup_cons in Hnd2 as [Htl2 Hnd2].
  assert (Hzt : z <> t).
  { intros ->. apply (Hdisj t); [|left].
    apply elem_of_app. right. left. }
  assert (Hht : h <> t).
  { intros ->. apply (Hdisj t); [|left].
    pose proof (dchain_head _ _ _ _ Hd) as Hhd.
    destruct l0; simpl in Hhd; injection Hhd as ->; left. }
  exists (mk_state (this s)
            (match next rt with
             | Some b =>
                 match mem s !! b with
                 | Some rb =>
                     <[t := set_next None (set_prev None (set_time 0 rt))]>
                       (<[z := set_next (Some b) rz]>
                          (<[b := set_prev (Some z) rb]>
                             (<[t := set_time 0 rt]> (mem s))))
                 | None => mem s
                 end
             | None =>
                 <[t := set_prev None (set_time 0 rt)]>
                   (<[z := set_next None rz]>
                      (<[t := set_time 0 rt]> (mem s)))
             end) (hw s) (fired s)), rt.
  split; [exact Hmt|]. simpl.
  destruct (next rt) as [b|] eqn:Hn.
  - pose proof (dchain_head _ _ _ _ Hdt) as Hb.
    destruct l2 as [|b' l2]; [discriminate|]. injection Hb as <-.
    apply dchain_cons_inv in Hdt as (_ & rb & Hmb & Hpb & Hdb).
    assert (Hbt : b <> t).
    { intros ->. apply Htl2. left. }
    assert (Hzb : z <> b).
    { intros ->. apply (Hdisj b); [|right; left].
      apply elem_of_app. right. left. }
    rewrite Hmb.
    split; [apply (sw_timer_stop_middle s h t rt z rz b rb); assumption|].
    split; [reflexivity|]. split; [reflexivity|]. split; [reflexivity|].
    split; [|split; [|split]].
    + apply (dchain_unlink (mem s) _ t rt z rz l0 None (Some h) (b :: l2));
        try assumption.
      * rewrite lookup_insert_ne, lookup_insert_eq by congruence.
        rewrite Hn. reflexivity.
      * intros b0 rb0 Hb0 Hmb0. simpl in Hb0. injection Hb0 as <-.
        rewrite Hmb in Hmb0. injection Hmb0 as <-.
        rewrite !lookup_insert_ne, lookup_insert_eq by congruence.
        reflexivity.
      * intros x Hx Hxb. simpl in Hxb.
        assert (x <> b) by congruence.
        assert (x <> t).
        { intros ->. apply elem_of_app in Hx as [Hx|Hx].
          - apply (Hdisj t); [|left]. apply elem_of_app. left. exact Hx.
          - apply Htl2. exact Hx. }
        assert (x <> z).
        { intros ->. apply elem_of_app in Hx as [Hx|Hx].
          - apply NoDup_app in Hnd1 as (_ & Hd1 & _).
            apply (Hd1 z Hx). left.
          - apply (Hdisj z); [|right; exact Hx].
            apply elem_of_app. right. left. }
        rewrite !lookup_insert_ne by congruence. reflexivity.
    + rewrite lookup_insert_eq. reflexivity.
    + intros x Hxt. rewrite lookup_insert_ne by congruence.
      destruct (decide (x = z)) as [->|Hxz];
        [rewrite lookup_insert_eq, Hmz; reflexivity|].
      rewrite lookup_insert_ne by congruence.
      destruct (decide (x = b)) as [->|Hxb];
        [rewrite lookup_insert_eq, Hmb; reflexivity|].
      rewrite !lookup_insert_ne by congruence. reflexivity.
    + intros x Hx.
      assert (x <> t) by (intros ->; apply Hx; apply elem_of_app; right; left).
      assert (x <> z).
      { intros ->. apply Hx. apply elem_of_app. left.
        apply elem_of_app. right. left. }
      assert (x <> b).
      { intros ->. apply Hx. apply elem_of_app. right. right. left. }
      rewrite !lookup_insert_ne by congruence. reflexivity.
  - apply dchain_null_inv in Hdt as ->.
    split; [apply (sw_timer_stop_last s h t rt z rz); assumption|].
    split; [reflexivity|]. split; [reflexivity|]. split; [reflexivity|].
    split; [|split; [|split]].
    + apply (dchain_unlink (mem s) _ t rt z rz l0 None (Some h) []);
        try assumption.
      * rewrite lookup_insert_ne, lookup_insert_eq by congruence.
        rewrite Hn. reflexivity.
      * intros b0 rb0 Hb0. discriminate.
      * intros x Hx _. rewrite app_nil_r in Hx.
        assert (x <> t).
        { intros ->. apply (Hdisj t); [|left]. apply elem_of_app. left.
          exact Hx. }
        assert (x <> z).
        { intros ->. apply NoDup_app in Hnd1 as (_ & Hd1 & _).
          apply (Hd1 z Hx). left. }
        rewrite !lookup_insert_ne by congruence. reflexivity.
    + rewrite lookup_insert_eq. destruct rt; simpl in *. subst.
      reflexivity.
    + intros x Hxt. rewrite lookup_insert_ne by congruence.
      destruct (decide (x = z)) as [->|Hxz];
        [rewrite lookup_insert_eq, Hmz; reflexivity|].
      rewrite !lookup_insert_ne by congruence. reflexivity.
    + intros x Hx.
      assert (x <> t) by (intros ->; apply Hx; apply elem_of_app; right; left).
      assert (x <> z).
      { intros ->. apply Hx. apply elem_of_app. left.
        apply elem_of_app. right. left. }
      rewrite !lookup_insert_ne by congruence. reflexivity.
Qed.

Lemma dchain_links m m' q p l :
  (forall x r, x ∈ l -> m !! x = Some r ->
     exists r', m' !! x = Some r' /\ next r' = next r /\ prev r' = prev r) ->
  dchain m q p l -> dchain m' q p l.
Proof.
  intros Ha Hd. induction Hd as [|q a r l Hm Hp Hd IH]; [constructor|].
  destruct (Ha a r) as (r' & Hm' & Hn & Hp'); [left | exact Hm |].
  apply (dchain_cons m' q a r' l Hm'); [congruence|].
  rewrite Hn. apply IH. intros x rx Hx. apply Ha. right. exact Hx.
Qed.

Lemma payload_time (o1 o2 : option sw_timer_t) :
  payload <$> o1 = payload <$> o2 -> time <$> o1 = time <$> o2.
Proof.
  destruct o1, o2; simpl; try discriminate; [|reflexivity].
  unfold payload. intros Heq. injection Heq as -> _ _ _ _. reflexivity.
Qed.

(** ** Start on a well-formed chain *)

(** Start of a record that is not in the chain, behind the head: where the
    computed time is not below the head's and the head has a successor. *)
Lemma start_behind_head s fuel h rh l1 l2 t rt (arm : Z -> H -> H)
    (now : H -> Z) :
  head (this s) = Some h ->
  set_physical_timer (this s) = Some arm ->
  get_physical_sw_timer_counter (this s) = Some now ->
  dchain (mem s) None (Some h) (h :: l1 ++ l2) ->
  l1 ++ l2 <> [] ->
  NoDup (h :: l1 ++ l2) ->
  t ∉ h :: l1 ++ l2 ->
  mem s !! h = Some rh ->
  mem s !! t = Some rt ->
  let c := wrap32 (now (hw s)) in
  let shift := wrap32 (time rh - c) in
  let new_t := wrap32 (time rt + wrap32 (time rh - c + period rt)) in
  new_t <> 0 ->
  wrap32 (time rh - shift) <= new_t ->
  Forall (fun x => exists rx, mem s !! x = Some rx
                             /\ wrap32 (time rx - shift) <= new_t) l1 ->
  match l2 with
  | [] => True
  | b :: _ => exists rb, mem s !! b = Some rb
                        /\ new_t < wrap32 (time rb - shift)
  end ->
  (length (h :: l1 ++ l2) <= fuel)%nat ->
  exists s',
    sw_timer_start fuel (Some t) s = Done SW_TIMER_STATUS_OK s'
    /\ this s' = this s /\ hw s' = hw s /\ fired s' = fired s
    /\ dchain (mem s') None (Some h) (h :: l1 ++ t :: l2)
    /\ (time <$> mem s' !! t) = Some new_t
    /\ (forall x rx, x ∈ h :: l1 ++ l2 -> mem s !! x = Some rx ->
          (time <$> mem s' !! x) = Some (wrap32 (time rx - shift)))
    /\ (forall x, x ∉ t :: h :: l1 ++ l2 -> mem s' !! x = mem s !! x).
Proof.
  intros Hh Harm Hnow Hd Hne Hnd Ht Hmh Hmt c shift new_t Hnz Hhead Hl1 Hl2
    Hfuel.
  set (l := h :: l1 ++ l2) in *.
  destruct (update_relative_time_on_chain s fuel l h rh t rt
              (wrap32 (time rh - c + period rt)) now)
    as (Hupd & Hin & Hout); try assumption.
  { exact (dchain_chain _ _ _ _ Hd). }
  fold c shift in Hupd, Hin, Hout. fold new_t in Hupd.
  rewrite decide_False in Hupd by exact Ht.
  set (m1 := rebased shift l (mem s)) in *.
  set (s1 := mk_state (this s) (<[t := set_time new_t rt]> m1) (hw s)
               (fired s)) in *.
  assert (Hupd' : sw_timer_update_relative_time fuel (Some t)
                    (wrap32 (time rh - c + period rt)) s = Done tt s1)
    by exact Hupd.
  assert (Hs1_in : forall x rx, x ∈ l -> mem s !! x = Some rx ->
            mem s1 !! x = Some (set_time (wrap32 (time rx - shift)) rx)).
  { intros x rx Hx Hmx. simpl. rewrite lookup_insert_ne.
    - apply Hin; assumption.
    - intros ->. exact (Ht Hx). }
  assert (Hs1_t : mem s1 !! t = Some (set_time new_t rt)).
  { simpl. apply lookup_insert_eq. }
  assert (Hd1 : dchain (mem s1) None (Some h) l).
  { apply (dchain_links (mem s)); [|exact Hd].
    intros x rx Hx Hmx. eexists. split; [apply Hs1_in; eassumption|].
    split; reflexivity. }
  assert (Hfuel' : (length (l1 ++ l2) <= fuel)%nat).
  { unfold l in Hfuel. simpl in Hfuel. lia. }
  destruct (insert_into_chain t (set_time new_t rt) l1 l2 s1 fuel h None)
    as (s' & Hrun & Hthis & Hhw & Hfired & Hd' & Hpay & Hframe);
    try assumption.
  { apply Forall_forall. intros x Hx.
    pose proof (proj1 (Forall_forall _ _) Hl1 x Hx) as (rx & Hmx & Hle).
    eexists. split; [apply Hs1_in; [|exact Hmx]|exact Hle].
    right. apply elem_of_app. left. exact Hx. }
  { destruct l2 as [|b l2]; [exact I|].
    destruct Hl2 as (rb & Hmb & Hlt).
    eexists. split; [apply Hs1_in; [|exact Hmb]|exact Hlt].
    right. apply elem_of_app. right. left. }
  pose proof (dchain_cons_inv _ _ _ _ _ Hd) as (_ & rh' & Hmh' & _ & Hdh).
  rewrite Hmh in Hmh'. injection Hmh' as <-.
  pose proof (dchain_head _ _ _ _ Hdh) as Hnext.
  exists s'. split.
  - unfold sw_timer_start. simpl.
    unfold bind at 1, get_head at 1. rewrite Hh. simpl.
    rewrite Harm, Hnow. simpl.
    unfold bind at 1. unfold bind at 1, get_head at 1. rewrite Hh.
    unfold bind at 1, rd at 1. rewrite Hmh.
    unfold bind at 1, call_get_physical_sw_timer_counter at 1. rewrite Hnow.
    unfold bind at 1, rd at 1. rewrite Hmt.
    unfold bind at 1. fold c. rewrite Hupd'.
    unfold bind at 1, rd at 1. rewrite Hs1_t. simpl time.
    unfold bind at 1, get_head at 1.
    replace (head (this s1)) with (Some h) by (symmetry; exact Hh).
    unfold bind at 1, rd at 1.
    rewrite (Hs1_in h rh) by (first [left | exact Hmh]).
    change (time (set_time (wrap32 (time rh - shift)) rh))
      with (wrap32 (time rh - shift)).
    apply Z.ltb_ge in Hhead. rewrite Hhead.
    unfold bind at 1, rd at 1.
    rewrite (Hs1_in h rh) by (first [left | exact Hmh]). simpl next.
    rewrite Hnext, Hrun. reflexivity.
  - split; [rewrite Hthis; reflexivity|].
    split; [rewrite Hhw; reflexivity|].
    split; [rewrite Hfired; reflexivity|].
    split; [exact Hd'|].
    split; [|split].
    + rewrite (payload_time _ _ (Hpay t)), Hs1_t. reflexivity.
    + intros x rx Hx Hmx.
      rewrite (payload_time _ _ (Hpay x)), (Hs1_in x rx Hx Hmx). reflexivity.
    + intros x Hx.
      apply not_elem_of_cons in Hx as [Hxt Hx].
      rewrite Hframe.
      * simpl. rewrite lookup_insert_ne by congruence. apply Hout. exact Hx.
      * intros Hy. apply elem_of_cons in Hy as [->|Hy].
        -- apply Hx. left.
        -- apply elem_of_cons in Hy as [->|Hy]; [congruence|].
           apply Hx. right. exact Hy.
Qed.

(** Start of a record that is not in the chain and whose computed time is
    below the head's: it becomes the head. *)
Lemma start_new_head s fuel h rh l t rt (arm : Z -> H -> H) (now : H -> Z) :
  head (this s) = Some h ->
  set_physical_timer (this s) = Some arm ->
  get_physical_sw_timer_counter (this s) = Some now ->
  dchain (mem s) None (Some h) (h :: l) ->
  NoDup (h :: l) ->
  t ∉ h :: l ->
  mem s !! h = Some rh ->
  mem s !! t = Some rt ->
  prev rt = None ->
  let c := wrap32 (now (hw s)) in
  let shift := wrap32 (time rh - c) in
  let new_t := wrap32 (time rt + wrap32 (time rh - c + period rt)) in
  new_t <> 0 ->
  new_t < wrap32 (time rh - shift) ->
  (length (h :: l) <= fuel)%nat ->
  exists s',
    sw_timer_start fuel (Some t) s = Done SW_TIMER_STATUS_OK s'
    /\ this s' = mk_private (Some t) (Some arm) (Some now)
    /\ hw s' = arm (wrap32 (new_t - wrap32 (wrap32 (time rh - shift) - c)))
                  (hw s)
    /\ fired s' = fired s
    /\ dchain (mem s') None (Some t) (t :: h :: l)
    /\ (time <$> mem s' !! t) = Some new_t
    /\ (forall x rx, x ∈ h :: l -> mem s !! x = Some rx ->
          (time <$> mem s' !! x) = Some (wrap32 (time rx - shift)))
    /\ (forall x, x ∉ t :: h :: l -> mem s' !! x = mem s !! x).
Proof.
  intros Hh Harm Hnow Hd Hnd Ht Hmh Hmt Hpt c shift new_t Hnz Hlt Hfuel.
  set (l' := h :: l) in *.
  destruct (update_relative_time_on_chain s fuel l' h rh t rt
              (wrap32 (time rh - c + period rt)) now)
    as (Hupd & Hin & Hout); try assumption.
  { exact (dchain_chain _ _ _ _ Hd). }
  fold c shift in Hupd, Hin, Hout.
  rewrite decide_False in Hupd by exact Ht.
  set (m1 := rebased shift l' (mem s)) in *.
  set (s1 := mk_state (this s) (<[t := set_time new_t rt]> m1) (hw s)
               (fired s)) in *.
  assert (Hupd' : sw_timer_update_relative_time fuel (Some t)
                    (wrap32 (time rh - c + period rt)) s = Done tt s1)
    by exact Hupd.
  assert (Hth : t <> h) by (intros ->; apply Ht; left).
  assert (Hs1_in : forall x rx, x ∈ l' -> mem s !! x = Some rx ->
            mem s1 !! x = Some (set_time (wrap32 (time rx - shift)) rx)).
  { intros x rx Hx Hmx. simpl. rewrite lookup_insert_ne.
    - apply Hin; assumption.
    - intros ->. exact (Ht Hx). }
  assert (Hs1_t : mem s1 !! t = Some (set_time new_t rt)).
  { simpl. apply lookup_insert_eq. }
  pose proof (Hs1_in h rh (list_elem_of_here h l) Hmh) as Hs1_h.
  set (rh1 := set_time (wrap32 (time rh - shift)) rh) in *.
  eexists. split.
  - unfold sw_timer_start. simpl.
    unfold bind at 1, get_head at 1. rewrite Hh. simpl.
    rewrite Harm, Hnow. simpl.
    unfold bind at 1. unfold bind at 1, get_head at 1. rewrite Hh.
    unfold bind at 1, rd at 1. rewrite Hmh.
    unfold bind at 1, call_get_physical_sw_timer_counter at 1. rewrite Hnow.
    unfold bind at 1, rd at 1. rewrite Hmt.
    unfold bind at 1. fold c. rewrite Hupd'.
    unfold bind at 1, rd at 1. rewrite Hs1_t.
    unfold bind at 1, get_head at 1.
    replace (head (this s1)) with (Some h) by (symmetry; exact Hh).
    unfold bind at 1, rd at 1. rewrite Hs1_h.
    change (time (set_time new_t rt)) with new_t.
    change (time rh1) with (wrap32 (time rh - shift)).
    apply Z.ltb_lt in Hlt. rewrite Hlt.
    assert (Hm1_h : m1 !! h = Some rh1)
      by (apply Hin; [left | exact Hmh]).
    unfold s1. unfold_monad. simpl. rewrite ?Hnow. simpl.
    rewrite ?Harm. simpl.
    rewrite lookup_insert_eq. simpl. rewrite Hh.
    rewrite !lookup_insert_ne by congruence. rewrite Hm1_h.
    rewrite insert_insert_eq. simpl. rewrite ?Harm, ?Hnow. reflexivity.
  - simpl.
    split; [reflexivity|]. split; [reflexivity|]. split; [reflexivity|].
    pose proof (dchain_cons_inv _ _ _ _ _ Hd) as (_ & rh' & Hmh' & Hph & Hdh).
    rewrite Hmh in Hmh'. injection Hmh' as <-.
    apply NoDup_cons in Hnd as [Hhl Hnd].
    split; [|split; [|split]].
    + apply (dchain_cons _ _ t (set_next (Some h) (set_time new_t rt)));
        [by rewrite lookup_insert_ne, lookup_insert_eq by congruence
        | exact Hpt |].
      simpl.
      apply (dchain_cons _ _ h (set_prev (Some t) rh1));
        [by rewrite lookup_insert_eq | reflexivity |].
      simpl. apply (dchain_links (mem s)); [|exact Hdh].
      intros x rx Hx Hmx.
      assert (x <> h) by (intros ->; exact (Hhl Hx)).
      assert (x <> t) by (intros ->; apply Ht; right; exact Hx).
      eexists. split.
      * rewrite !lookup_insert_ne by congruence.
        apply Hin; [right; exact Hx | exact Hmx].
      * split; reflexivity.
    + rewrite lookup_insert_ne, lookup_insert_eq by congruence. reflexivity.
    + intros x rx Hx Hmx.
      apply elem_of_cons in Hx as [->|Hx].
      * rewrite lookup_insert_eq. rewrite Hmh in Hmx. injection Hmx as <-.
        reflexivity.
      * assert (x <> h) by (intros ->; exact (Hhl Hx)).
        assert (x <> t) by (intros ->; apply Ht; right; exact Hx).
        rewrite !lookup_insert_ne by congruence.
        rewrite (Hin x rx) by (first [right; exact Hx | exact Hmx]).
        reflexivity.
    + intros x Hx.
      apply not_elem_of_cons in Hx as [Hxt Hx].
      pose proof Hx as Hx0.
      apply not_elem_of_cons in Hx0 as [Hxh _].
      rewrite !lookup_insert_ne by congruence. apply Hout. exact Hx.
Qed.

(** ** Order of the relative times *)

Lemma nondecreasing_insert v : forall xs ys,
  xs <> [] ->
  nondecreasing (xs ++ ys) = true ->
  Forall (fun x => x <= v) xs ->
  match ys with [] => True | y :: _ => v < y end ->
  nondecreasing (xs ++ v :: ys) = true.
Proof.
  induction xs as [|x xs IH]; intros ys Hne Hs Hle Hgt; [congruence|].
  apply Forall_cons in Hle as [Hx Hle].
  destruct xs as [|x' xs].
  - simpl in *. apply andb_true_iff. split; [apply Z.leb_le; exact Hx|].
    destruct ys as [|y ys]; [reflexivity|].
    apply andb_true_iff in Hs as [_ Hs].
    apply andb_true_iff. split; [apply Z.leb_le; lia | exact Hs].
  - change (nondecreasing ((x :: x' :: xs) ++ ys))
      with ((x <=? x') && nondecreasing ((x' :: xs) ++ ys)) in Hs.
    apply andb_true_iff in Hs as [Hxx Hs].
    change (nondecreasing ((x :: x' :: xs) ++ v :: ys))
      with ((x <=? x') && nondecreasing ((x' :: xs) ++ v :: ys)).
    apply andb_true_iff. split; [exact Hxx|].
    apply IH; [discriminate | exact Hs | exact Hle | exact Hgt].
Qed.

Lemma times_payload m m' l :
  (forall x, payload <$> m' !! x = payload <$> m !! x) ->
  times m' l = times m l.
Proof.
  intros Hp. unfold times. apply map_ext. intros x.
  pose proof (payload_time _ _ (Hp x)) as Ht.
  destruct (m' !! x), (m !! x); simpl in Ht; congruence.
Qed.

Lemma times_app m l1 l2 : times m (l1 ++ l2) = times m l1 ++ times m l2.
Proof. unfold times. apply map_app. Qed.

Lemma times_le m v l :
  Forall (fun x => exists rx, m !! x = Some rx /\ time rx <= v) l ->
  Forall (fun x => x <= v) (times m l).
Proof.
  intros Hl. unfold times. apply Forall_map.
  eapply Forall_impl; [exact Hl|]. intros x (rx & Hm & Hle). simpl.
  rewrite Hm. exact Hle.
Qed.

(** * Properties of the remaining code paths *)

(** ** The relative-time update and the ordered insertion *)

(** X1.  The relative-time update on a chain of distinct records, with the
    counter adapter registered and a non-zero 32-bit sum: every record of
    the chain has the same amount [head.time - now()] subtracted from its
    relative time (modulo 2^32), no link and no record outside the chain is
    touched, and then the target - shifted as well if it is in the chain -
    is advanced by [delta].  Fuel for one pass per record is enough. *)
Theorem sw_timer_update_relative_time_chain s fuel l h rh t r delta
    (now : H -> Z) :
  head (this s) = Some h ->
  chain (mem s) (Some h) l ->
  NoDup l ->
  mem s !! h = Some rh ->
  mem s !! t = Some r ->
  get_physical_sw_timer_counter (this s) = Some now ->
  wrap32 (time r + delta) <> 0 ->
  (length l <= fuel)%nat ->
  let shift := wrap32 (time rh - wrap32 (now (hw s))) in
  let r1 := if decide (t ∈ l) then set_time (wrap32 (time r - shift)) r
            else r in
  sw_timer_update_relative_time fuel (Some t) delta s =
    Done tt
      (mk_state (this s)
         (<[t := set_time (wrap32 (time r1 + delta)) r1]>
            (rebased shift l (mem s)))
         (hw s) (fired s))
  /\ (forall x rx, x ∈ l -> mem s !! x = Some rx ->
        rebased shift l (mem s) !! x =
          Some (set_time (wrap32 (time rx - shift)) rx))
  /\ (forall x, x ∉ l -> rebased shift l (mem s) !! x = mem s !! x).
Proof. apply update_relative_time_on_chain. Qed.

(** X2.  Ordered insertion into a well-formed chain.  [q] is a record of
    the chain, the insertion is entered at its successor, and the new record
    [t] is not in the chain.  [l1] are the records from the entry on whose
    time is not above the new record's, [l2] is what follows, empty or
    beginning with a record of greater time.  With fuel for every record the
    call returns, [t] sits between [l1] and [l2] - so behind every record
    of equal time - the chain is again well formed in both directions, no
    record's time or other payload has changed, and nothing outside the
    chain and [t] is touched; registry and hardware are left alone. *)
Theorem sw_timer_insert_ordered s fuel q qq l1 l2 t rt :
  dchain (mem s) qq (Some q) (q :: l1 ++ l2) ->
  l1 ++ l2 <> [] ->
  NoDup (q :: l1 ++ l2) ->
  t ∉ q :: l1 ++ l2 ->
  mem s !! t = Some rt ->
  Forall (fun x => exists rx, mem s !! x = Some rx /\ time rx <= time rt) l1 ->
  match l2 with
  | [] => True
  | b :: _ => exists rb, mem s !! b = Some rb /\ time rt < time rb
  end ->
  (length (l1 ++ l2) <= fuel)%nat ->
  exists s',
    sw_timer_insert fuel (hd_error (l1 ++ l2)) (Some t) s = Done tt s'
    /\ this s' = this s /\ hw s' = hw s /\ fired s' = fired s
    /\ dchain (mem s') qq (Some q) (q :: l1 ++ t :: l2)
    /\ (forall x, payload <$> mem s' !! x = payload <$> mem s !! x)
    /\ (forall x, x ∉ q :: t :: l1 ++ l2 -> mem s' !! x = mem s !! x).
Proof. apply insert_into_chain. Qed.

(** X3.  Ordered insertion keeps the order.  If moreover the relative times
    along the chain are non-decreasing and the new record's time is not
    below that of [q], then in the store the call leaves the chain from [q]
    is [q :: l1 ++ t :: l2] - [t] has been linked - and the relative times
    along it are non-decreasing again. *)
Theorem sw_timer_insert_keeps_order s fuel q qq rq l1 l2 t rt :
  dchain (mem s) qq (Some q) (q :: l1 ++ l2) ->
  l1 ++ l2 <> [] ->
  NoDup (q :: l1 ++ l2) ->
  t ∉ q :: l1 ++ l2 ->
  mem s !! t = Some rt ->
  mem s !! q = Some rq ->
  time rq <= time rt ->
  Forall (fun x => exists rx, mem s !! x = Some rx /\ time rx <= time rt) l1 ->
  match l2 with
  | [] => True
  | b :: _ => exists rb, mem s !! b = Some rb /\ time rt < time rb
  end ->
  nondecreasing (times (mem s) (q :: l1 ++ l2)) = true ->
  (length (l1 ++ l2) <= fuel)%nat ->
  exists s',
    sw_timer_insert fuel (hd_error (l1 ++ l2)) (Some t) s = Done tt s'
    /\ dchain (mem s') qq (Some q) (q :: l1 ++ t :: l2)
    /\ nondecreasing (times (mem s') (q :: l1 ++ t :: l2)) = true.
Proof.
  intros Hd Hne Hnd Ht Hmt Hmq Hq Hl1 Hl2 Hs Hfuel.
  destruct (insert_into_chain t rt l1 l2 s fuel q qq)
    as (s' & Hrun & _ & _ & _ & Hd' & Hpay & _); try assumption.
  exists s'. split; [exact Hrun|]. split; [exact Hd'|].
  rewrite (times_payload (mem s) (mem s')) by exact Hpay.
  change (q :: l1 ++ t :: l2) with ((q :: l1) ++ [t] ++ l2).
  rewrite times_app, times_app.
  change (q :: l1 ++ l2) with ((q :: l1) ++ l2) in Hs.
  rewrite times_app in Hs.
  replace (times (mem s) [t]) with [time rt]
    by (unfold times; simpl; rewrite Hmt; reflexivity).
  apply nondecreasing_insert.
  - discriminate.
  - exact Hs.
  - apply times_le. apply Forall_cons. split; [eauto|exact Hl1].
  - destruct l2 as [|b l2]; [exact I|].
    destruct Hl2 as (rb & Hmb & Hlt). unfold times; simpl. rewrite Hmb.
    exact Hlt.
Qed.

(** ** Start *)

(** X4.  Start behind the head.  The chain is well formed, its head has a
    successor, both adapters are registered, and the record [t] is not in
    the chain.  All times are first rebased by [shift = head.time - now()];
    the time computed for [t] is not below the head's rebased time, [l1] are
    the records behind the head whose rebased time is not above it and [l2]
    the rest.  Then Start returns Ok with [t] linked between [l1] and [l2],
    the chain well formed again, and the hardware not re-armed. *)
Theorem sw_timer_start_behind_head s fuel h rh l1 l2 t rt (arm : Z -> H -> H)
    (now : H -> Z) :
  head (this s) = Some h ->
  set_physical_timer (this s) = Some arm ->
  get_physical_sw_timer_counter (this s) = Some now ->
  dchain (mem s) None (Some h) (h :: l1 ++ l2) ->
  l1 ++ l2 <> [] ->
  NoDup (h :: l1 ++ l2) ->
  t ∉ h :: l1 ++ l2 ->
  mem s !! h = Some rh ->
  mem s !! t = Some rt ->
  let c := wrap32 (now (hw s)) in
  let shift := wrap32 (time rh - c) in
  let new_t := wrap32 (time rt + wrap32 (time rh - c + period rt)) in
  new_t <> 0 ->
  wrap32 (time rh - shift) <= new_t ->
  Forall (fun x => exists rx, mem s !! x = Some rx
                             /\ wrap32 (time rx - shift) <= new_t) l1 ->
  match l2 with
  | [] => True
  | b :: _ => exists rb, mem s !! b = Some rb
                        /\ new_t < wrap32 (time rb - shift)
  end ->
  (length (h :: l1 ++ l2) <= fuel)%nat ->
  exists s',
    sw_timer_start fuel (Some t) s = Done SW_TIMER_STATUS_OK s'
    /\ this s' = this s /\ hw s' = hw s /\ fired s' = fired s
    /\ dchain (mem s') None (Some h) (h :: l1 ++ t :: l2)
    /\ (time <$> mem s' !! t) = Some new_t
    /\ (forall x rx, x ∈ h :: l1 ++ l2 -> mem s !! x = Some rx ->
          (time <$> mem s' !! x) = Some (wrap32 (time rx - shift)))
    /\ (forall x, x ∉ t :: h :: l1 ++ l2 -> mem s' !! x = mem s !! x).
Proof. apply start_behind_head. Qed.

(** X5.  Start in front of the head.  If the time computed for [t] is below
    the head's rebased time, [t] becomes the head, the old chain hangs
    behind it well formed, and the hardware is armed once, for the new
    time minus [head.time - now()] taken after the rebase. *)
Theorem sw_timer_start_becomes_head s fuel h rh l t rt (arm : Z -> H -> H) (now : H -> Z) :
  head (this s) = Some h ->
  set_physical_timer (this s) = Some arm ->
  get_physical_sw_timer_counter (this s) = Some now ->
  dchain (mem s) None (Some h) (h :: l) ->
  NoDup (h :: l) ->
  t ∉ h :: l ->
  mem s !! h = Some rh ->
  mem s !! t = Some rt ->
  prev rt = None ->
  let c := wrap32 (now (hw s)) in
  let shift := wrap32 (time rh - c) in
  let new_t := wrap32 (time rt + wrap32 (time rh - c + period rt)) in
  new_t <> 0 ->
  new_t < wrap32 (time rh - shift) ->
  (length (h :: l) <= fuel)%nat ->
  exists s',
    sw_timer_start fuel (Some t) s = Done SW_TIMER_STATUS_OK s'
    /\ this s' = mk_private (Some t) (Some arm) (Some now)
    /\ hw s' = arm (wrap32 (new_t - wrap32 (wrap32 (time rh - shift) - c)))
                  (hw s)
    /\ fired s' = fired s
    /\ dchain (mem s') None (Some t) (t :: h :: l)
    /\ (time <$> mem s' !! t) = Some new_t
    /\ (forall x rx, x ∈ h :: l -> mem s !! x = Some rx ->
          (time <$> mem s' !! x) = Some (wrap32 (time rx - shift)))
    /\ (forall x, x ∉ t :: h :: l -> mem s' !! x = mem s !! x).
Proof. apply start_new_head. Qed.

(** X6.  Start on an empty chain needs the arm adapter only: whatever the
    counter adapter is, registered or not, the record becomes the head with
    its period as relative time, the hardware is armed once for the period,
    and a record whose links were clear is a well-formed one-record
    chain. *)
Theorem sw_timer_start_first s fuel t r (arm : Z -> H -> H) :
  head (this s) = None ->
  set_physical_timer (this s) = Some arm ->
  mem s !! t = Some r ->
  prev r = None ->
  next r = None ->
  exists s',
    sw_timer_start fuel (Some t) s = Done SW_TIMER_STATUS_OK s'
    /\ this s' = mk_private (Some t) (Some arm)
                   (get_physical_sw_timer_counter (this s))
    /\ mem s' = <[t := set_time (period r) r]> (mem s)
    /\ hw s' = arm (period r) (hw s)
    /\ fired s' = fired s
    /\ dchain (mem s') None (Some t) [t].
Proof.
  intros Hh Harm Hm Hp Hn.
  eexists. split; [apply sw_timer_start_empty_chain; eassumption|].
  simpl. repeat (split; [reflexivity|]).
  apply (dchain_cons _ _ t (set_time (period r) r));
    [apply lookup_insert_eq | exact Hp |].
  simpl. rewrite Hn. constructor.
Qed.

(** X7.  On a non-empty chain Start checks both adapters before it reads or
    writes anything: with one of them missing it reports the error and the
    state is the one before the call, whatever the handle points to. *)
Theorem sw_timer_start_needs_both_adapters s fuel t h :
  head (this s) = Some h ->
  set_physical_timer (this s) = None
    \/ get_physical_sw_timer_counter (this s) = None ->
  sw_timer_start fuel (Some t) s =
    Done SW_TIMER_STATUS_ERROR_PHYSICAL_TIMER_CALLBACKS_NOT_REGISTERED s.
Proof. apply sw_timer_start_unregistered_nonempty. Qed.

(** X13.  Start of the record that is pending alone (a restart).  With the
    counter reading [c] not above the record's time: the record stays the
    head, its relative time grows by its period, and the hardware is not
    re-armed - it keeps counting down the [c] ticks of the old arm. *)
Theorem sw_timer_start_restart_sole s fuel t r (arm : Z -> H -> H)
    (now : H -> Z) :
  head (this s) = Some t ->
  mem s !! t = Some r ->
  next r = None ->
  set_physical_timer (this s) = Some arm ->
  get_physical_sw_timer_counter (this s) = Some now ->
  0 < time r ->
  0 <= period r ->
  wrap32 (now (hw s)) <= time r ->
  2 * time r + period r < 2 ^ 32 ->
  sw_timer_start (S fuel) (Some t) s =
    Done SW_TIMER_STATUS_OK
      (mk_state (this s)
         (<[t := set_time (time r + period r) r]> (mem s))
         (hw s) (fired s)).
Proof.
  intros Hh Hm Hn Harm Hnow Ht Hp Hc Hlt.
  pose proof (wrap32_range (now (hw s))) as Hc0.
  set (c := wrap32 (now (hw s))) in *.
  assert (Hdelta : wrap32 (time r - c + period r) = time r - c + period r)
    by (apply wrap32_small; lia).
  assert (Hsum : (wrap32 (time r + (time r - c + period r)) =? 0) = false).
  { apply Z.eqb_neq. rewrite wrap32_small; lia. }
  assert (Hshift : wrap32 (time r - c) = time r - c)
    by (apply wrap32_small; lia).
  assert (Hreb : wrap32 (time r - (time r - c)) = c).
  { replace (time r - (time r - c)) with c by lia. apply wrap32_small. lia. }
  assert (Hnew : wrap32 (c + (time r - c + period r)) = time r + period r).
  { replace (c + (time r - c + period r)) with (time r + period r) by lia.
    apply wrap32_small. lia. }
  unfold sw_timer_start, sw_timer_update_relative_time; simpl.
  sym_exec. fold c. rewrite Hdelta, rebase_guard, Hsum. sym_exec.
  fold c. rewrite Hshift.
  destruct fuel; sym_exec; rewrite Hreb, Hnew; sym_exec;
    rewrite Z.ltb_irrefl; sym_exec; rewrite !insert_insert_eq; reflexivity.
Qed.

(** ** Stop *)

Lemma stop_head_successor s t rt b rb (arm : Z -> H -> H) (now : H -> Z) :
  head (this s) = Some t ->
  mem s !! t = Some rt ->
  next rt = Some b ->
  t <> b ->
  mem s !! b = Some rb ->
  set_physical_timer (this s) = Some arm ->
  get_physical_sw_timer_counter (this s) = Some now ->
  sw_timer_stop (Some t) s =
    Done SW_TIMER_STATUS_OK
      (mk_state (mk_private (Some b) (Some arm) (Some now))
         (<[t := set_next None (set_time 0 rt)]>
            (<[b := set_prev None rb]> (mem s)))
         (arm (wrap32 (time rb - wrap32 (time rt - wrap32 (now (hw s)))))
            (hw s))
         (fired s)).
Proof.
  intros Hh Hmt Hn Hne Hmb Harm Hnow.
  unfold sw_timer_stop; unfold_monad; simpl. rewrite Hh; simpl.
  rewrite bool_decide_eq_true_2 by reflexivity.
  feed. rewrite insert_insert_eq. reflexivity.
Qed.

(** X8.  Stop of the head when it has a successor, on a well-formed chain
    with both adapters registered: the successor becomes the head of the
    well-formed rest, the hardware is armed once for the successor's time
    minus [head.time - now()], and the removed record is left stopped with
    both links clear and its parameters as they were. *)
Theorem sw_timer_stop_head s t b l rt rb (arm : Z -> H -> H) (now : H -> Z) :
  head (this s) = Some t ->
  dchain (mem s) None (Some t) (t :: b :: l) ->
  NoDup (t :: b :: l) ->
  mem s !! t = Some rt ->
  mem s !! b = Some rb ->
  set_physical_timer (this s) = Some arm ->
  get_physical_sw_timer_counter (this s) = Some now ->
  exists s',
    sw_timer_stop (Some t) s = Done SW_TIMER_STATUS_OK s'
    /\ this s' = mk_private (Some b) (Some arm) (Some now)
    /\ hw s' = arm (wrap32 (time rb - wrap32 (time rt - wrap32 (now (hw s)))))
                  (hw s)
    /\ fired s' = fired s
    /\ dchain (mem s') None (Some b) (b :: l)
    /\ mem s' !! t =
         Some (mk_timer 0 (period rt) (mode rt) (callback rt) (arg rt)
                 None None)
    /\ (forall x, x <> t -> payload <$> mem s' !! x = payload <$> mem s !! x)
    /\ (forall x, x <> t -> x <> b -> mem s' !! x = mem s !! x).
Proof.
  intros Hh Hd Hnd Hmt Hmb Harm Hnow.
  apply dchain_cons_inv in Hd as (_ & rt' & Hmt' & Hpt & Hd).
  rewrite Hmt in Hmt'. injection Hmt' as <-.
  pose proof (dchain_head _ _ _ _ Hd) as Hn. simpl in Hn.
  rewrite Hn in Hd.
  apply dchain_cons_inv in Hd as (_ & rb' & Hmb' & Hpb & Hd).
  rewrite Hmb in Hmb'. injection Hmb' as <-.
  apply NoDup_cons in Hnd as [Ht Hnd].
  apply NoDup_cons in Hnd as [Hb Hnd].
  apply not_elem_of_cons in Ht as [Htb Ht].
  eexists. split;
    [apply (stop_head_successor s t rt b rb arm now); assumption|].
  simpl. split; [reflexivity|]. split; [reflexivity|]. split; [reflexivity|].
  split; [|split; [|split]].
  - apply (dchain_cons _ _ b (set_prev None rb));
      [by rewrite lookup_insert_ne, lookup_insert_eq by congruence
      | reflexivity |].
    simpl. apply (dchain_agree (mem s)); [|exact Hd].
    intros x Hx. rewrite !lookup_insert_ne; [reflexivity| |];
      intros ->; tauto.
  - rewrite lookup_insert_eq. destruct rt; simpl in *. subst. reflexivity.
  - intros x Hxt. rewrite lookup_insert_ne by congruence.
    destruct (decide (x = b)) as [->|Hxb];
      [rewrite lookup_insert_eq, Hmb; reflexivity|].
    rewrite lookup_insert_ne by congruence. reflexivity.
  - intros x Hxt Hxb. rewrite !lookup_insert_ne by congruence. reflexivity.
Qed.

(** X9.  Stop of a record that is in a well-formed chain behind the head:
    exactly that record is unlinked, the chain without it is well formed in
    both directions, the record is left stopped with both links clear, no
    other record's time or payload changes, and neither the registry nor
    the hardware is touched - no adapter needs to be registered. *)
Theorem sw_timer_stop_unlinks s h l0 z t l2 :
  head (this s) = Some h ->
  dchain (mem s) None (Some h) ((l0 ++ [z]) ++ t :: l2) ->
  NoDup ((l0 ++ [z]) ++ t :: l2) ->
  exists s' rt,
    mem s !! t = Some rt
    /\ sw_timer_stop (Some t) s = Done SW_TIMER_STATUS_OK s'
    /\ this s' = this s /\ hw s' = hw s /\ fired s' = fired s
    /\ dchain (mem s') None (Some h) ((l0 ++ [z]) ++ l2)
    /\ mem s' !! t =
         Some (mk_timer 0 (period rt) (mode rt) (callback rt) (arg rt)
                 None None)
    /\ (forall x, x <> t -> payload <$> mem s' !! x = payload <$> mem s !! x)
    /\ (forall x, x ∉ (l0 ++ [z]) ++ t :: l2 -> mem s' !! x = mem s !! x).
Proof. apply sw_timer_stop_member. Qed.

(** X10.  With an empty chain Stop is a no-op that reports Ok for every
    non-NULL handle, also one that holds no record: nothing is read through
    the handle and the hardware is not called. *)
Theorem sw_timer_stop_nothing_pending s (timer : ptr) :
  head (this s) = None ->
  timer <> None ->
  sw_timer_stop timer s = Done SW_TIMER_STATUS_OK s.
Proof. apply sw_timer_stop_empty_chain. Qed.

(** X11.  Stop and the interrupt handler call the arm adapter without
    testing it.  On a sole SingleShot head with the arm adapter
    unregistered both end in a call through the NULL function pointer. *)
Theorem arm_adapter_called_unchecked s fuel t r :
  head (this s) = Some t ->
  mem s !! t = Some r ->
  next r = None ->
  mode r = mode_value SW_TIMER_MODE_SINGLE_SHOT ->
  set_physical_timer (this s) = None ->
  sw_timer_stop (Some t) s = Fault NullCall
  /\ sw_timer_interrupt_handler (S fuel) s = Fault NullCall.
Proof.
  intros Hh Hm Hn Hmode Harm. split.
  - unfold sw_timer_stop; unfold_monad; simpl. rewrite Hh; simpl.
    rewrite bool_decide_eq_true_2 by reflexivity. feed. reflexivity.
  - rewrite sw_timer_interrupt_handler_entry, Hh, Hm.
    rewrite (handler_loop_pass s (S fuel) fuel (time r) t r) by auto.
    unfold bind at 1.
    replace (handler_body (S fuel) (time r) s) with (@Fault H unit NullCall);
      [reflexivity|].
    unfold handler_body; sym_exec. rewrite Hmode; sym_exec. reflexivity.
Qed.

(** X12.  Start followed by Stop is a round trip.  On an empty chain with
    the arm adapter registered, starting a stopped record and stopping it
    again gives back the registry and the whole store as they were; the
    hardware has been armed for the period and then disarmed. *)
Theorem sw_timer_start_stop_round_trip s fuel t r (arm : Z -> H -> H) :
  head (this s) = None ->
  set_physical_timer (this s) = Some arm ->
  mem s !! t = Some r ->
  time r = 0 ->
  next r = None ->
  (sw_timer_start fuel (Some t);;; sw_timer_stop (Some t)) s =
    Done SW_TIMER_STATUS_OK
      (mk_state (this s) (mem s) (arm 0 (arm (period r) (hw s))) (fired s)).
Proof.
  intros Hh Harm Hm Ht Hn.
  unfold bind at 1.
  rewrite (sw_timer_start_empty_chain s fuel t r arm Hh Harm Hm).
  unfold sw_timer_stop; unfold_monad; simpl.
  rewrite bool_decide_eq_true_2 by reflexivity.
  feed. rewrite insert_insert_eq.
  replace (set_time 0 (set_time (period r) r)) with r
    by (destruct r; simpl in *; subst; reflexivity).
  rewrite (insert_id _ _ _ Hm).
  destruct s as [[hd sf gf] m hws f]; simpl in *. subst. reflexivity.
Qed.

(** ** Update and Create *)

(** X14.  Update of the record that is pending alone, with the arm adapter
    registered: the record stays the head, carries the new parameters and
    the new period as relative time, and the hardware has been disarmed and
    then armed for the new period - the old schedule is dropped.  The
    counter adapter is not consulted. *)
Theorem sw_timer_update_sole_pending s fuel t r p
    (md : sw_timer_mode_t) cb a (arm : Z -> H -> H) :
  head (this s) = Some t ->
  mem s !! t = Some r ->
  time r <> 0 ->
  next r = None ->
  set_physical_timer (this s) = Some arm ->
  sw_timer_update fuel (Some t) p md cb a s =
    Done SW_TIMER_STATUS_OK
      (mk_state
         (mk_private (Some t) (Some arm)
            (get_physical_sw_timer_counter (this s)))
         (<[t := mk_timer p p (mode_value md) cb a None (prev r)]> (mem s))
         (arm p (arm 0 (hw s)))
         (fired s)).
Proof.
  intros Hh Hm Ht Hn Harm.
  unfold sw_timer_update; simpl.
  unfold bind at 1, rd at 1. rewrite Hm.
  apply Z.eqb_neq in Ht. rewrite Ht.
  unfold sw_timer_stop, replace_fields, sw_timer_start; unfold_monad; simpl.
  rewrite Hh; simpl.
  rewrite bool_decide_eq_true_2 by reflexivity.
  feed. rewrite !insert_insert_eq.
  unfold set_time, set_arg, set_callback, set_mode, set_period; simpl.
  rewrite Hn. reflexivity.
Qed.

(** X15.  Create followed by Update is Create with the new parameters: on a
    freshly created record Update replaces the four parameters in place and
    reports Ok, whatever the state and the buffer address. *)
Theorem sw_timer_create_then_update s fuel (b : addr) p
    (md : sw_timer_mode_t) cb a p' (md' : sw_timer_mode_t) cb' a' :
  (sw_timer_create p md cb a (Some b);;;
   sw_timer_update fuel (Some b) p' md' cb' a') s =
  (sw_timer_create p' md' cb' a' (Some b);;; ret SW_TIMER_STATUS_OK) s.
Proof.
  unfold sw_timer_create, sw_timer_update, replace_fields; unfold_monad;
    simpl.
  rewrite lookup_insert_eq; simpl.
  repeat (rewrite lookup_insert_eq; simpl).
  rewrite !insert_insert_eq. reflexivity.
Qed.

(** ** The interrupt handler *)

(** X16.  Timers sharing a deadline.  On a chain of distinct records that
    begins with a run [due] of SingleShot records whose relative time is
    the head's, followed by [rest] due later, and with the arm adapter
    registered, the handler returns once it has fuel for one pass per due
    record.  It has then run exactly the callbacks of [due], in chain
    order, made the first record of [rest] the head, and called the
    hardware once: armed for the new head's distance to the deadline, or
    disarmed when nothing is left. *)
Theorem sw_timer_interrupt_handler_shared_deadline s fuel
    (arm : Z -> H -> H) deadline due rest :
  set_physical_timer (this s) = Some arm ->
  due <> [] ->
  (length due <= fuel)%nat ->
  chain (mem s) (head (this s)) (due ++ rest) ->
  NoDup (due ++ rest) ->
  Forall (due_single_shot (mem s) deadline) due ->
  later (mem s) deadline rest ->
  exists s',
    sw_timer_interrupt_handler fuel s = Done tt s'
    /\ head (this s') = hd_error rest
    /\ fired s' = fired s ++ invocations (mem s) due
    /\ hw s' = rearmed arm (mem s) deadline rest (hw s).
Proof. apply sw_timer_interrupt_handler_single_shots. Qed.

(** X17.  A lone Repeating record whose time is not the counter reading
    plus its period.  The handler makes one pass and returns: the record,
    still the head, has the counter reading plus its period as relative
    time, the callback has run once, and the hardware is armed for that
    new time minus the deadline captured at entry, modulo 2^32 - which is
    the period only if the counter read the deadline itself. *)
Theorem sw_timer_interrupt_handler_lone_repeating s fuel h r
    (arm : Z -> H -> H) (now : H -> Z) :
  head (this s) = Some h ->
  mem s !! h = Some r ->
  mode r = mode_value SW_TIMER_MODE_REPEATING ->
  next r = None ->
  set_physical_timer (this s) = Some arm ->
  get_physical_sw_timer_counter (this s) = Some now ->
  0 < period r ->
  wrap32 (now (hw s)) <= time r ->
  time r + period r < 2 ^ 32 ->
  wrap32 (now (hw s)) + period r <> time r ->
  let new := wrap32 (now (hw s)) + period r in
  sw_timer_interrupt_handler (S fuel) s =
    Done tt
      (mk_state (this s)
         (<[h := set_time new r]> (mem s))
         (arm (wrap32 (new - time r)) (hw s))
         (fired s ++ invocation r)).
Proof.
  intros Hh Hm Hmode Hn Harm Hnow Hp Hc Hlt Hne new.
  pose proof (wrap32_range (now (hw s))) as Hc0.
  set (c := wrap32 (now (hw s))) in *.
  assert (Hsum : (wrap32 (time r + period r) =? 0) = false).
  { apply Z.eqb_neq. rewrite wrap32_small; lia. }
  assert (Hshift : wrap32 (time r - c) = time r - c)
    by (apply wrap32_small; lia).
  assert (Hreb : wrap32 (time r - (time r - c)) = c).
  { replace (time r - (time r - c)) with c by lia. apply wrap32_small. lia. }
  assert (Hnew : wrap32 (c + period r) = new)
    by (apply wrap32_small; unfold new; lia).
  assert (Hneq : (new =? time r) = false) by (apply Z.eqb_neq; exact Hne).
  rewrite sw_timer_interrupt_handler_entry, Hh, Hm.
  rewrite (handler_loop_pass s (S fuel) fuel (time r) h r) by auto.
  unfold bind at 1.
  assert (Hbody : handler_body (S fuel) (time r) s =
    Done tt
      (mk_state (this s)
         (<[h := set_time new r]> (mem s))
         (arm (wrap32 (new - time r)) (hw s))
         (fired s ++ invocation r))).
  { unfold handler_body, sw_timer_update_relative_time; sym_exec.
    rewrite Hmode; sym_exec. rewrite rebase_guard, Hsum; sym_exec.
    fold c. rewrite Hshift.
    destruct fuel; sym_exec; rewrite Hreb, Hnew, Hneq; sym_exec;
      rewrite !insert_insert_eq;
      unfold invocation; destruct (callback r); sym_exec;
      rewrite ?app_nil_r; reflexivity. }
  rewrite Hbody.
  apply (handler_loop_exit_differs _ (S fuel) fuel (time r) h
           (set_time new r)); simpl;
    [exact Hh | apply lookup_insert_eq | exact Hne].
Qed.

End Chains.

Section Handler.

Context {H : Type}.
Implicit Types (s : state H) (t h : addr) (r : sw_timer_t).

Local Opaque sw_timer_update_relative_time sw_timer_insert.

(** ** The interrupt handler on a Repeating head *)

(** One pass of the loop on a Repeating head that is not overtaken by its
    successor. *)
Lemma handler_body_repeating_stays s fuel h rh l (arm : Z -> H -> H)
    (now : H -> Z) time0 :
  head (this s) = Some h ->
  set_physical_timer (this s) = Some arm ->
  get_physical_sw_timer_counter (this s) = Some now ->
  chain (mem s) (Some h) (h :: l) ->
  NoDup (h :: l) ->
  mem s !! h = Some rh ->
  mode rh = mode_value SW_TIMER_MODE_REPEATING ->
  let shift := wrap32 (time rh - wrap32 (now (hw s))) in
  let new_h := wrap32 (wrap32 (time rh - shift) + period rh) in
  wrap32 (time rh + period rh) <> 0 ->
  match l with
  | [] => True
  | b :: _ => exists rb, mem s !! b = Some rb
                        /\ new_h <= wrap32 (time rb - shift)
  end ->
  new_h <> time0 ->
  (length (h :: l) <= fuel)%nat ->
  handler_body fuel time0 s =
    Done tt
      (mk_state (this s)
         (<[h := set_time new_h rh]> (rebased shift (h :: l) (mem s)))
         (arm (wrap32 (new_h - time0)) (hw s))
         (fired s ++ invocation rh)).
Proof.
  intros Hh Harm Hnow Hc Hnd Hmh Hmode shift new_h Hsum Hsucc Hne Hfuel.
  destruct (update_relative_time_on_chain s fuel (h :: l) h rh h rh
              (period rh) now) as (Hupd & Hin & Hout); try assumption.
  fold shift in Hupd, Hin, Hout.
  rewrite decide_True in Hupd by left.
  change (time (set_time (wrap32 (time rh - shift)) rh))
    with (wrap32 (time rh - shift)) in Hupd.
  fold new_h in Hupd.
  set (m1 := rebased shift (h :: l) (mem s)) in *.
  pose proof (chain_head_next _ _ _ _ Hc Hmh) as Hnext.
  unfold handler_body.
  unfold bind at 1, get_head at 1. rewrite Hh.
  unfold bind at 1, rd at 1. rewrite Hmh.
  unfold bind at 1, rd at 1. rewrite Hmh.
  unfold bind at 1, rd at 1. rewrite Hmh.
  rewrite Hmode. simpl Z.eqb. cbv iota.
  unfold bind at 1. unfold bind at 1. unfold bind at 1, rd at 1. rewrite Hmh.
  unfold bind at 1. rewrite Hupd.
  apply Z.eqb_neq in Hne.
  destruct l as [|b l]; simpl in Hnext.
  - unfold_monad; feed. rewrite Hne. feed.
    unfold invocation. destruct (callback rh); simpl;
      rewrite ?app_nil_r, ?insert_insert_eq; reflexivity.
  - destruct Hsucc as (rb & Hmb & Hle).
    apply NoDup_cons in Hnd as [Hhb _].
    apply not_elem_of_cons in Hhb as [Hhb _].
    assert (Hm1b : m1 !! b = Some (set_time (wrap32 (time rb - shift)) rb))
      by (apply Hin; [right; left | exact Hmb]).
    apply Z.ltb_ge in Hle.
    unfold_monad; feed. rewrite Hle. feed. rewrite Hne. feed.
    unfold invocation. destruct (callback rh); simpl;
      rewrite ?app_nil_r, ?insert_insert_eq; reflexivity.
Qed.

(** One pass on a Repeating head that its successor overtakes: the successor
    becomes the head and the old head is re-inserted behind it, in order. *)
Lemma handler_body_repeating_demoted s fuel h rh b rb l1 l2
    (arm : Z -> H -> H) (now : H -> Z) time0 :
  head (this s) = Some h ->
  set_physical_timer (this s) = Some arm ->
  get_physical_sw_timer_counter (this s) = Some now ->
  dchain (mem s) None (Some h) (h :: b :: l1 ++ l2) ->
  NoDup (h :: b :: l1 ++ l2) ->
  mem s !! h = Some rh ->
  mem s !! b = Some rb ->
  mode rh = mode_value SW_TIMER_MODE_REPEATING ->
  let shift := wrap32 (time rh - wrap32 (now (hw s))) in
  let new_h := wrap32 (wrap32 (time rh - shift) + period rh) in
  wrap32 (time rh + period rh) <> 0 ->
  wrap32 (time rb - shift) < new_h ->
  Forall (fun x => exists rx, mem s !! x = Some rx
                              /\ wrap32 (time rx - shift) <= new_h) l1 ->
  match l2 with
  | [] => True
  | c :: _ => exists rc, mem s !! c = Some rc
                        /\ new_h < wrap32 (time rc - shift)
  end ->
  wrap32 (time rb - shift) <> time0 ->
  (length (h :: b :: l1 ++ l2) <= fuel)%nat ->
  exists s',
    handler_body fuel time0 s = Done tt s'
    /\ this s' = mk_private (Some b) (Some arm) (Some now)
    /\ hw s' = arm (wrap32 (wrap32 (time rb - shift) - time0)) (hw s)
    /\ fired s' = fired s ++ invocation rh
    /\ dchain (mem s') None (Some b) (b :: l1 ++ h :: l2)
    /\ payload <$> mem s' !! h = Some (payload (set_time new_h rh))
    /\ (forall x rx, x ∈ b :: l1 ++ l2 -> mem s !! x = Some rx ->
          payload <$> mem s' !! x =
            Some (payload (set_time (wrap32 (time rx - shift)) rx)))
    /\ (forall x, x ∉ h :: b :: l1 ++ l2 -> mem s' !! x = mem s !! x).
Proof.
  intros Hh Harm Hnow Hd Hnd Hmh Hmb Hmode shift new_h Hsum Hlt Hl1 Hl2 Hne
    Hfuel.
  pose proof (dchain_chain _ _ _ _ Hd) as Hc.
  destruct (update_relative_time_on_chain s fuel (h :: b :: l1 ++ l2) h rh h rh
              (period rh) now) as (Hupd & Hin & Hout); try assumption.
  fold shift in Hupd, Hin, Hout.
  rewrite decide_True in Hupd by left.
  change (time (set_time (wrap32 (time rh - shift)) rh))
    with (wrap32 (time rh - shift)) in Hupd.
  fold new_h in Hupd.
  set (m1 := rebased shift (h :: b :: l1 ++ l2) (mem s)) in *.
  pose proof (chain_head_next _ _ _ _ Hc Hmh) as Hnext. simpl in Hnext.
  pose proof Hd as Hd0.
  apply dchain_cons_inv in Hd0 as (_ & rh' & Hmh' & _ & Hd1).
  rewrite Hmh in Hmh'. injection Hmh' as <-. rewrite Hnext in Hd1.
  pose proof Hd1 as Hd10.
  apply dchain_cons_inv in Hd10 as (_ & rb' & Hmb' & Hpb & _).
  rewrite Hmb in Hmb'. injection Hmb' as <-.
  pose proof Hnd as Hnd0.
  apply NoDup_cons in Hnd0 as [Hhn Hnd1].
  pose proof Hhn as Hhb. apply not_elem_of_cons in Hhb as [Hhb Hhl].
  assert (Hm1b : m1 !! b = Some (set_time (wrap32 (time rb - shift)) rb))
    by (apply Hin; [right; left | exact Hmb]).
  assert (Hm2h : forall m2,
            m2 = <[h := set_time new_h
                          (set_time (wrap32 (time rh - shift)) rh)]> m1 ->
            m2 !! h = Some (set_time new_h rh)).
  { intros m2 ->. apply lookup_insert_eq. }
  assert (Hm2in : forall m2 x rx,
            m2 = <[h := set_time new_h
                          (set_time (wrap32 (time rh - shift)) rh)]> m1 ->
            x ∈ b :: l1 ++ l2 -> mem s !! x = Some rx ->
            m2 !! x = Some (set_time (wrap32 (time rx - shift)) rx)).
  { intros m2 x rx -> Hx Hmx.
    rewrite lookup_insert_ne by (intros <-; exact (Hhn Hx)).
    apply Hin; [right; exact Hx | exact Hmx]. }
  remember (<[h := set_time new_h
                     (set_time (wrap32 (time rh - shift)) rh)]> m1)
    as m2 eqn:Hm2.
  specialize (Hm2h m2 eq_refl).
  specialize (fun x rx => Hm2in m2 x rx eq_refl).
  assert (Hm2b : m2 !! b = Some (set_time (wrap32 (time rb - shift)) rb))
    by (apply Hm2in; [left | exact Hmb]).
  assert (Hm2out : forall x, x ∉ h :: b :: l1 ++ l2 -> m2 !! x = mem s !! x).
  { intros x Hx. rewrite Hm2.
    rewrite lookup_insert_ne
      by (intros <-; apply Hx; left).
    apply Hout. exact Hx. }
  clear Hm2 Hm1b Hin Hout. clearbody m1.
  apply Z.ltb_lt in Hlt.
  unfold handler_body.
  unfold bind at 1, get_head at 1. rewrite Hh.
  unfold bind at 1, rd at 1. rewrite Hmh.
  unfold bind at 1, rd at 1. rewrite Hmh.
  unfold bind at 1, rd at 1. rewrite Hmh.
  rewrite Hmode. simpl Z.eqb. cbv iota.
  unfold bind at 1. unfold bind at 1. unfold bind at 1, rd at 1. rewrite Hmh.
  unfold bind at 1. rewrite Hupd.
  unfold_monad; feed. rewrite Hlt. feed.
  match goal with
  | |- context [sw_timer_insert fuel (Some b) (Some h) ?st] =>
      destruct (insert_from h (set_time new_h rh) st fuel b (Some h)
                  (set_time (wrap32 (time rb - shift)) rb) l1 l2)
        as (s3 & Hrun & Hthis & Hhw & Hfired & Hd3 & Hpay & Hframe)
  end.
  { simpl. apply (dchain_links (mem s)); [|exact Hd1].
    intros x rx Hx Hmx. exists (set_time (wrap32 (time rx - shift)) rx).
    split; [|split; reflexivity]. apply Hm2in; assumption. }
  { exact Hnd1. }
  { exact Hhn. }
  { exact Hm2h. }
  { exact Hm2b. }
  { simpl. apply Z.ltb_lt in Hlt. lia. }
  { simpl. apply Forall_forall. intros x Hx.
    pose proof (proj1 (Forall_forall _ _) Hl1 x Hx) as (rx & Hmx & Hle).
    exists (set_time (wrap32 (time rx - shift)) rx). split; [|exact Hle].
    apply Hm2in; [|exact Hmx].
    right. apply elem_of_app. left. exact Hx. }
  { destruct l2 as [|c l2]; [exact I|].
    destruct Hl2 as (rc & Hmc & Hltc).
    exists (set_time (wrap32 (time rc - shift)) rc). split; [|exact Hltc].
    simpl. apply Hm2in; [|exact Hmc].
    right. apply elem_of_app. right. left. }
  { simpl in Hfuel |- *. lia. }
  simpl in Hthis, Hhw, Hfired, Hd3, Hpay, Hframe.
  rewrite Hrun. clear Hrun.
  pose proof Hd3 as Hd30.
  apply dchain_cons_inv in Hd30 as (_ & rb3 & Hmb3 & _ & _).
  assert (Ht3 : time rb3 = wrap32 (time rb - shift)).
  { pose proof (payload_time _ _ (Hpay b)) as Ht.
    rewrite Hmb3, Hm2b in Ht. simpl in Ht. congruence. }
  assert (Hnd3 : NoDup (b :: l1 ++ h :: l2)).
  { apply NoDup_cons in Hnd1 as [Hbn Hnd2].
    apply NoDup_app in Hnd2 as (Hn1 & Hdisj & Hn2).
    apply not_elem_of_app in Hbn as [Hb1 Hb2].
    apply not_elem_of_app in Hhl as [Hh1 Hh2].
    apply NoDup_cons. split.
    - intros Hx. apply elem_of_app in Hx as [Hx|Hx]; [tauto|].
      apply elem_of_cons in Hx as [->|Hx]; tauto.
    - apply NoDup_app. split; [exact Hn1|]. split.
      + intros x Hx1 Hx2. apply elem_of_cons in Hx2 as [->|Hx2];
          [tauto | exact (Hdisj x Hx1 Hx2)].
      + apply NoDup_cons. tauto. }
  apply Z.eqb_neq in Hne.
  unfold_monad.
  repeat (progress (simpl;
    rewrite ?Hthis, ?Hmb3, ?lookup_insert_eq, ?Ht3, ?Hne)).
  assert (Hfin : forall s',
            this s' = mk_private (Some b) (Some arm) (Some now) ->
            mem s' = <[b := set_prev None rb3]> (mem s3) ->
            hw s' = arm (wrap32 (wrap32 (time rb - shift) - time0)) (hw s) ->
            fired s' = fired s ++ invocation rh ->
            this s' = mk_private (Some b) (Some arm) (Some now)
            /\ hw s' = arm (wrap32 (wrap32 (time rb - shift) - time0)) (hw s)
            /\ fired s' = fired s ++ invocation rh
            /\ dchain (mem s') None (Some b) (b :: l1 ++ h :: l2)
            /\ payload <$> mem s' !! h = Some (payload (set_time new_h rh))
            /\ (forall x rx, x ∈ b :: l1 ++ l2 -> mem s !! x = Some rx ->
                  payload <$> mem s' !! x =
                    Some (payload (set_time (wrap32 (time rx - shift)) rx)))
            /\ (forall x, x ∉ h :: b :: l1 ++ l2 ->
                  mem s' !! x = mem s !! x)).
  { intros s' Hth4 -> Hhw4 Hfd4.
    split; [exact Hth4|]. split; [exact Hhw4|]. split; [exact Hfd4|].
    split; [exact (dchain_set_prev _ _ None _ _ _ Hd3 Hnd3 Hmb3)|].
    split; [|split].
    - rewrite lookup_insert_ne by congruence.
      rewrite Hpay, Hm2h. reflexivity.
    - intros x rx Hx Hmx.
      destruct (decide (x = b)) as [->|Hxb].
      + rewrite lookup_insert_eq. simpl.
        pose proof (Hpay b) as Hpb3. rewrite Hmb3, Hm2b in Hpb3.
        rewrite Hmb in Hmx. injection Hmx as <-. exact Hpb3.
      + rewrite lookup_insert_ne by congruence.
        rewrite Hpay, (Hm2in x rx Hx Hmx). reflexivity.
    - intros x Hx. pose proof Hx as Hx0.
      apply not_elem_of_cons in Hx0 as [Hxh Hx0].
      apply not_elem_of_cons in Hx0 as [Hxb Hx0].
      rewrite lookup_insert_ne by congruence.
      rewrite Hframe, Hm2out; [reflexivity | exact Hx |].
      intros Hy. apply elem_of_cons in Hy as [->|Hy]; [tauto|].
      apply elem_of_cons in Hy as [->|Hy]; tauto. }
  unfold invocation in *.
  destruct (callback rh) as [f|]; eexists; (split; [reflexivity|]);
    apply Hfin; simpl; rewrite ?Hhw, ?Hfired, ?app_nil_r; reflexivity.
Qed.

(** X18.  A Repeating head that stays the head.  The chain has distinct
    records, both adapters are registered and the 32-bit sum of the head's
    time and period is not 0.  The pass rebases every record by
    [shift = head.time - now()] and then advances the head by its period;
    if the head's new time is not above its successor's rebased time and is
    not the deadline captured at entry, the handler returns after this one
    pass: the links are as before, the callback has run once, and the
    hardware is armed for the head's new time minus the captured deadline,
    modulo 2^32. *)
Theorem sw_timer_interrupt_handler_repeating_stays s fuel h rh l
    (arm : Z -> H -> H) (now : H -> Z) :
  head (this s) = Some h ->
  set_physical_timer (this s) = Some arm ->
  get_physical_sw_timer_counter (this s) = Some now ->
  chain (mem s) (Some h) (h :: l) ->
  NoDup (h :: l) ->
  mem s !! h = Some rh ->
  mode rh = mode_value SW_TIMER_MODE_REPEATING ->
  let shift := wrap32 (time rh - wrap32 (now (hw s))) in
  let new_h := wrap32 (wrap32 (time rh - shift) + period rh) in
  wrap32 (time rh + period rh) <> 0 ->
  match l with
  | [] => True
  | b :: _ => exists rb, mem s !! b = Some rb
                        /\ new_h <= wrap32 (time rb - shift)
  end ->
  new_h <> time rh ->
  (length (h :: l) <= fuel)%nat ->
  sw_timer_interrupt_handler fuel s =
    Done tt
      (mk_state (this s)
         (<[h := set_time new_h rh]> (rebased shift (h :: l) (mem s)))
         (arm (wrap32 (new_h - time rh)) (hw s))
         (fired s ++ invocation rh)).
Proof.
  intros Hh Harm Hnow Hc Hnd Hmh Hmode shift new_h Hsum Hsucc Hne Hfuel.
  rewrite sw_timer_interrupt_handler_entry, Hh, Hmh.
  destruct fuel as [|fuel']; [simpl in Hfuel; lia|].
  rewrite (handler_loop_pass s (S fuel') fuel' (time rh) h rh) by auto.
  unfold bind at 1.
  rewrite (handler_body_repeating_stays s (S fuel') h rh l arm now (time rh))
    by assumption.
  apply (handler_loop_exit_differs _ (S fuel') fuel' (time rh) h
           (set_time new_h rh)); simpl;
    [exact Hh | apply lookup_insert_eq | exact Hne].
Qed.

(** X19.  A Repeating head that its successor overtakes.  On a well-formed
    chain [h :: b :: l1 ++ l2] with both adapters registered, where after
    the pass's rebase and the head's advance by its period the successor
    [b] is strictly earlier than [h], the records of [l1] are not later
    than [h] and the first record of [l2] is strictly later: [b] becomes
    the head with [prev = NULL], [h] is re-linked between [l1] and [l2],
    the chain is well formed again, every record keeps its rebased time and
    its other fields, and nothing outside the chain is touched.  If the new
    head's time differs from the deadline captured at entry the handler
    returns after this pass, having run [h]'s callback once and armed the
    hardware for the new head's time minus the captured deadline. *)
Theorem sw_timer_interrupt_handler_repeating_demoted s fuel h rh b rb l1 l2
    (arm : Z -> H -> H) (now : H -> Z) :
  head (this s) = Some h ->
  set_physical_timer (this s) = Some arm ->
  get_physical_sw_timer_counter (this s) = Some now ->
  dchain (mem s) None (Some h) (h :: b :: l1 ++ l2) ->
  NoDup (h :: b :: l1 ++ l2) ->
  mem s !! h = Some rh ->
  mem s !! b = Some rb ->
  mode rh = mode_value SW_TIMER_MODE_REPEATING ->
  let shift := wrap32 (time rh - wrap32 (now (hw s))) in
  let new_h := wrap32 (wrap32 (time rh - shift) + period rh) in
  wrap32 (time rh + period rh) <> 0 ->
  wrap32 (time rb - shift) < new_h ->
  Forall (fun x => exists rx, mem s !! x = Some rx
                              /\ wrap32 (time rx - shift) <= new_h) l1 ->
  match l2 with
  | [] => True
  | c :: _ => exists rc, mem s !! c = Some rc
                        /\ new_h < wrap32 (time rc - shift)
  end ->
  wrap32 (time rb - shift) <> time rh ->
  (length (h :: b :: l1 ++ l2) <= fuel)%nat ->
  exists s',
    sw_timer_interrupt_handler fuel s = Done tt s'
    /\ this s' = mk_private (Some b) (Some arm) (Some now)
    /\ hw s' = arm (wrap32 (wrap32 (time rb - shift) - time rh)) (hw s)
    /\ fired s' = fired s ++ invocation rh
    /\ dchain (mem s') None (Some b) (b :: l1 ++ h :: l2)
    /\ payload <$> mem s' !! h = Some (payload (set_time new_h rh))
    /\ (forall x rx, x ∈ b :: l1 ++ l2 -> mem s !! x = Some rx ->
          payload <$> mem s' !! x =
            Some (payload (set_time (wrap32 (time rx - shift)) rx)))
    /\ (forall x, x ∉ h :: b :: l1 ++ l2 -> mem s' !! x = mem s !! x).
Proof.
  intros Hh Harm Hnow Hd Hnd Hmh Hmb Hmode shift new_h Hsum Hlt Hl1 Hl2 Hne
    Hfuel.
  destruct (handler_body_repeating_demoted s fuel h rh b rb l1 l2 arm now
              (time rh))
    as (s' & Hbody & Hthis & Hrest); try assumption.
  exists s'. split; [|split; [exact Hthis | exact Hrest]].
  rewrite sw_timer_interrupt_handler_entry, Hh, Hmh.
  destruct fuel as [|fuel']; [simpl in Hfuel; lia|].
  rewrite (handler_loop_pass s (S fuel') fuel' (time rh) h rh) by auto.
  unfold bind at 1. rewrite Hbody.
  destruct Hrest as (_ & _ & _ & _ & Hpay & _).
  assert (Hbin : b ∈ b :: l1 ++ l2) by left.
  specialize (Hpay b rb Hbin Hmb).
  destruct (mem s' !! b) as [rb'|] eqn:Hmb'; [|discriminate].
  apply (handler_loop_exit_differs _ (S fuel') fuel' (time rh) b rb');
    [rewrite Hthis; reflexivity | exact Hmb' |].
  simpl in Hpay. unfold payload in Hpay. simpl in Hpay.
  injection Hpay as -> _ _ _ _. exact Hne.
Qed.

Local Transparent sw_timer_update_relative_time sw_timer_insert.

End Handler.

(** ** The further test inputs are reachable from the initial state *)

Lemma four_pending_reached :
  exec (run 10 (four_pending_script 29)) initial = Some (four_pending 0 29).
Proof. vm_compute. reflexivity. Qed.

Lemma pending_pair_reached_50_30 :
  exec (run 10 (pending_pair_script 50 30 0)) initial =
    Some (pending_pair 50 30 0).
Proof. vm_compute. reflexivity. Qed.

Lemma pending_pair_reached_50_10 :
  exec (run 10 (pending_pair_script 50 10 3)) initial =
    Some (pending_pair 50 10 3).
Proof. vm_compute. reflexivity. Qed.

Lemma created_registered_reached :
  exec (run 10 [Register;
                Create 1%positive 30 SW_TIMER_MODE_REPEATING
                  (Some 11%positive)]) initial =
    Some created_registered.
Proof. vm_compute. reflexivity. Qed.

Lemma started_unregistered_reached :
  exec (run 10 [Create 1%positive 50 SW_TIMER_MODE_SINGLE_SHOT None;
                Start 1%positive]) initial =
    Some started_unregistered.
Proof. vm_compute. reflexivity. Qed.

(** ** Witnesses on the further registries *)

(** The four pending records with one tick of the arm elapsed (the counter
    reads 29), and the stopped record 5 advanced by 46: all four pending
    times drop by 1. *)
Lemma sw_timer_update_relative_time_chain_witness :
  let s := four_pending 0 29 in
  let l := [2; 4; 3; 1]%positive in
  sw_timer_update_relative_time 10 (Some 5%positive) 46 s =
    Done tt
      (mk_state (this s)
         (<[5%positive :=
              mk_timer 46 45 1 (Some 15%positive) None None None]>
            (rebased 1 l (mem s)))
         (hw s) (fired s))
  /\ times (rebased 1 l (mem s)) l = [29; 29; 39; 49].
Proof.
  intros s l.
  destruct (sw_timer_update_relative_time_chain s 10 l 2%positive
              (mk_timer 30 30 0 (Some 12%positive) None (Some 4%positive) None)
              5%positive
              (mk_timer 0 45 1 (Some 15%positive) None None None)
              46 dc_now) as (Hrun & _ & _).
  - reflexivity.
  - repeat (eapply chain_cons; [reflexivity|]). apply chain_nil.
  - apply (bool_decide_eq_true_1 (NoDup l)). reflexivity.
  - reflexivity.
  - reflexivity.
  - reflexivity.
  - vm_compute. discriminate.
  - simpl. lia.
  - split; [exact Hrun | reflexivity].
Defined.

(** Record 5 with relative time 45 goes between record 3 (40) and record 1
    (50) when the insertion is entered behind the head. *)
Lemma sw_timer_insert_ordered_witness :
  exists s',
    sw_timer_insert 10 (Some 4%positive) (Some 5%positive)
      (four_pending 45 30) = Done tt s'
    /\ dchain (mem s') None (Some 2%positive) [2; 4; 3; 5; 1]%positive.
Proof.
  destruct (sw_timer_insert_ordered (four_pending 45 30) 10 2%positive None
              [4; 3]%positive [1%positive] 5%positive
              (mk_timer 45 45 1 (Some 15%positive) None None None))
    as (s' & Hrun & _ & _ & _ & Hd & _).
  - repeat (eapply dchain_cons; [reflexivity | reflexivity |]).
    apply dchain_nil.
  - discriminate.
  - apply (bool_decide_eq_true_1 (NoDup [2; 4; 3; 1]%positive)). reflexivity.
  - apply (bool_decide_eq_true_1 (5%positive ∉ [2; 4; 3; 1]%positive)).
    reflexivity.
  - reflexivity.
  - repeat (apply Forall_cons; split;
              [eexists; split; [reflexivity | vm_compute; discriminate]|]).
    apply Forall_nil. exact I.
  - eexists. split; reflexivity.
  - simpl. lia.
  - exists s'. split; [exact Hrun | exact Hd].
Defined.

(** The same insertion: the chain read from record 2 was 2, 4, 3, 1 with
    times 30, 30, 40, 50 and is 2, 4, 3, 5, 1 afterwards, in order. *)
Lemma sw_timer_insert_keeps_order_witness :
  nondecreasing (times (mem (four_pending 45 30)) [2; 4; 3; 1]%positive) = true
  /\ exists s',
      sw_timer_insert 10 (Some 4%positive) (Some 5%positive)
        (four_pending 45 30) = Done tt s'
      /\ dchain (mem s') None (Some 2%positive) [2; 4; 3; 5; 1]%positive
      /\ nondecreasing (times (mem s') [2; 4; 3; 5; 1]%positive) = true.
Proof.
  split; [reflexivity|].
  apply (sw_timer_insert_keeps_order (four_pending 45 30) 10 2%positive None
           (mk_timer 30 30 0 (Some 12%positive) None (Some 4%positive) None)
           [4; 3]%positive [1%positive] 5%positive
           (mk_timer 45 45 1 (Some 15%positive) None None None)).
  - repeat (eapply dchain_cons; [reflexivity | reflexivity |]).
    apply dchain_nil.
  - discriminate.
  - apply (bool_decide_eq_true_1 (NoDup [2; 4; 3; 1]%positive)). reflexivity.
  - apply (bool_decide_eq_true_1 (5%positive ∉ [2; 4; 3; 1]%positive)).
    reflexivity.
  - reflexivity.
  - reflexivity.
  - vm_compute. discriminate.
  - repeat (apply Forall_cons; split;
              [eexists; split; [reflexivity | vm_compute; discriminate]|]).
    apply Forall_nil. exact I.
  - eexists. split; reflexivity.
  - reflexivity.
  - simpl. lia.
Defined.

(** Start of the stopped record 5 (period 45) one tick into the arm: the
    pending times are rebased to 29, 29, 39, 49, record 5 gets 46 and is
    linked between record 3 and record 1. *)
Lemma sw_timer_start_behind_head_witness :
  exists s',
    sw_timer_start 10 (Some 5%positive) (four_pending 0 29) =
      Done SW_TIMER_STATUS_OK s'
    /\ hw s' = mk_hw 29 [30; 50]
    /\ dchain (mem s') None (Some 2%positive) [2; 4; 3; 5; 1]%positive
    /\ (time <$> mem s' !! 5%positive) = Some 46.
Proof.
  destruct (sw_timer_start_behind_head (four_pending 0 29) 10 2%positive
              (mk_timer 30 30 0 (Some 12%positive) None (Some 4%positive) None)
              [4; 3]%positive [1%positive] 5%positive
              (mk_timer 0 45 1 (Some 15%positive) None None None)
              dc_arm dc_now)
    as (s' & Hrun & _ & Hhw & _ & Hd & Ht & _).
  - reflexivity.
  - reflexivity.
  - reflexivity.
  - repeat (eapply dchain_cons; [reflexivity | reflexivity |]).
    apply dchain_nil.
  - discriminate.
  - apply (bool_decide_eq_true_1 (NoDup [2; 4; 3; 1]%positive)). reflexivity.
  - apply (bool_decide_eq_true_1 (5%positive ∉ [2; 4; 3; 1]%positive)).
    reflexivity.
  - reflexivity.
  - reflexivity.
  - vm_compute. discriminate.
  - vm_compute. discriminate.
  - repeat (apply Forall_cons; split;
              [eexists; split; [reflexivity | vm_compute; discriminate]|]).
    apply Forall_nil. exact I.
  - eexists. split; reflexivity.
  - simpl. lia.
  - exists s'. split; [exact Hrun|]. split; [exact Hhw|].
    split; [exact Hd | exact Ht].
Defined.

(** Start of the stopped record 6 (period 10) one tick into the arm: it
    gets the time 11, below the head's 29, becomes the head, and the
    hardware is armed for 10. *)
Lemma sw_timer_start_becomes_head_witness :
  exists s',
    sw_timer_start 10 (Some 6%positive) (four_pending 0 29) =
      Done SW_TIMER_STATUS_OK s'
    /\ head (this s') = Some 6%positive
    /\ hw s' = mk_hw 11 [11; 30; 50]
    /\ dchain (mem s') None (Some 6%positive) [6; 2; 4; 3; 1]%positive
    /\ (time <$> mem s' !! 6%positive) = Some 11.
Proof.
  destruct (sw_timer_start_becomes_head (four_pending 0 29) 10 2%positive
              (mk_timer 30 30 0 (Some 12%positive) None (Some 4%positive) None)
              [4; 3; 1]%positive 6%positive
              (mk_timer 0 10 0 (Some 16%positive) None None None)
              dc_arm dc_now)
    as (s' & Hrun & Hthis & Hhw & _ & Hd & Ht & _).
  - reflexivity.
  - reflexivity.
  - reflexivity.
  - repeat (eapply dchain_cons; [reflexivity | reflexivity |]).
    apply dchain_nil.
  - apply (bool_decide_eq_true_1 (NoDup [2; 4; 3; 1]%positive)). reflexivity.
  - apply (bool_decide_eq_true_1 (6%positive ∉ [2; 4; 3; 1]%positive)).
    reflexivity.
  - reflexivity.
  - reflexivity.
  - reflexivity.
  - vm_compute. discriminate.
  - reflexivity.
  - simpl. lia.
  - exists s'. split; [exact Hrun|]. split; [rewrite Hthis; reflexivity|].
    split; [exact Hhw|]. split; [exact Hd | exact Ht].
Defined.

(** The first Start after registration: record 1 is the head with time 30
    and the counter is loaded with 30. *)
Lemma sw_timer_start_first_witness :
  exists s',
    sw_timer_start 10 (Some 1%positive) created_registered =
      Done SW_TIMER_STATUS_OK s'
    /\ head (this s') = Some 1%positive
    /\ hw s' = mk_hw 30 [30]
    /\ dchain (mem s') None (Some 1%positive) [1%positive].
Proof.
  destruct (sw_timer_start_first created_registered 10 1%positive
              (repeating 0 30 (Some 11%positive)) dc_arm)
    as (s' & Hrun & Hthis & _ & Hhw & _ & Hd); try reflexivity.
  exists s'. split; [exact Hrun|]. split; [rewrite Hthis; reflexivity|].
  split; [exact Hhw | exact Hd].
Defined.

(** With record 1 pending and nothing registered, a second Start - of a
    handle that holds no record - reports the error and changes nothing. *)
Lemma sw_timer_start_needs_both_adapters_witness :
  sw_timer_start 10 (Some 7%positive) started_unregistered =
    Done SW_TIMER_STATUS_ERROR_PHYSICAL_TIMER_CALLBACKS_NOT_REGISTERED
      started_unregistered.
Proof.
  apply (sw_timer_start_needs_both_adapters started_unregistered 10
           7%positive 1%positive); [reflexivity | left; reflexivity].
Defined.

(** Record 1 pending alone with time 30 and the counter at 30, started
    again: its time becomes 60 and the counter keeps its 30. *)
Lemma sw_timer_start_restart_sole_witness :
  let s := one_pending_one_stopped 30 50 30 in
  sw_timer_start 10 (Some 1%positive) s =
    Done SW_TIMER_STATUS_OK
      (mk_state (this s)
         (<[1%positive := repeating 60 30 (Some 11%positive)]> (mem s))
         (mk_hw 30 [30]) []).
Proof.
  intros s.
  apply (sw_timer_start_restart_sole s 9 1%positive
           (repeating 30 30 (Some 11%positive)) dc_arm dc_now);
    first [reflexivity | vm_compute; discriminate].
Defined.

(** Stop of the head, record 2, ten ticks into the arm: record 4 becomes
    the head and the counter is loaded with 30 - (30 - 20) = 20. *)
Lemma sw_timer_stop_head_witness :
  exists s',
    sw_timer_stop (Some 2%positive) (four_pending 0 20) =
      Done SW_TIMER_STATUS_OK s'
    /\ head (this s') = Some 4%positive
    /\ hw s' = mk_hw 20 [20; 30; 50]
    /\ dchain (mem s') None (Some 4%positive) [4; 3; 1]%positive
    /\ mem s' !! 2%positive =
         Some (mk_timer 0 30 0 (Some 12%positive) None None None).
Proof.
  destruct (sw_timer_stop_head (four_pending 0 20) 2%positive 4%positive
              [3; 1]%positive
              (mk_timer 30 30 0 (Some 12%positive) None (Some 4%positive) None)
              (mk_timer 30 30 0 (Some 14%positive) None (Some 3%positive)
                 (Some 2%positive))
              dc_arm dc_now)
    as (s' & Hrun & Hthis & Hhw & _ & Hd & Ht & _).
  - reflexivity.
  - repeat (eapply dchain_cons; [reflexivity | reflexivity |]).
    apply dchain_nil.
  - apply (bool_decide_eq_true_1 (NoDup [2; 4; 3; 1]%positive)). reflexivity.
  - reflexivity.
  - reflexivity.
  - reflexivity.
  - reflexivity.
  - exists s'. split; [exact Hrun|]. split; [rewrite Hthis; reflexivity|].
    split; [exact Hhw|]. split; [exact Hd | exact Ht].
Defined.

(** Stop of record 3, in the middle of the chain: records 4 and 1 are
    linked to each other and the counter is left alone. *)
Lemma sw_timer_stop_unlinks_witness :
  exists s',
    sw_timer_stop (Some 3%positive) (four_pending 0 20) =
      Done SW_TIMER_STATUS_OK s'
    /\ hw s' = mk_hw 20 [30; 50]
    /\ dchain (mem s') None (Some 2%positive) [2; 4; 1]%positive
    /\ mem s' !! 3%positive =
         Some (mk_timer 0 40 1 (Some 13%positive) None None None).
Proof.
  destruct (sw_timer_stop_unlinks (four_pending 0 20) 2%positive
              [2%positive] 4%positive 3%positive [1%positive])
    as (s' & rt & Hmt & Hrun & _ & Hhw & _ & Hd & Ht & _).
  - reflexivity.
  - repeat (eapply dchain_cons; [reflexivity | reflexivity |]).
    apply dchain_nil.
  - apply (bool_decide_eq_true_1 (NoDup [2; 4; 3; 1]%positive)). reflexivity.
  - exists s'. split; [exact Hrun|]. split; [exact Hhw|].
    split; [exact Hd|]. refine (eq_trans Ht _).
    assert (Hrt : rt = mk_timer 40 40 1 (Some 13%positive) None
                         (Some 1%positive) (Some 4%positive))
      by (apply (inj Some); rewrite <- Hmt; reflexivity).
    rewrite Hrt. reflexivity.
Defined.

(** Before anything is created, Stop of an arbitrary address reports Ok. *)
Lemma sw_timer_stop_nothing_pending_witness :
  sw_timer_stop (Some 7%positive) initial = Done SW_TIMER_STATUS_OK initial.
Proof.
  apply (sw_timer_stop_nothing_pending initial (Some 7%positive));
    [reflexivity | discriminate].
Defined.

(** Record 1 started with nothing registered: Stop and the interrupt
    handler both call through the NULL arm pointer. *)
Lemma arm_adapter_called_unchecked_witness :
  sw_timer_stop (Some 1%positive) started_unregistered = Fault NullCall
  /\ sw_timer_interrupt_handler 10 started_unregistered = Fault NullCall.
Proof.
  apply (arm_adapter_called_unchecked started_unregistered 9 1%positive
           (mk_timer 50 50 0 None None None None)); reflexivity.
Defined.

(** Start and Stop of record 1 after registration: the registry and the
    store are as before, the counter has been loaded with 30 and then 0. *)
Lemma sw_timer_start_stop_round_trip_witness :
  (sw_timer_start 10 (Some 1%positive);;; sw_timer_stop (Some 1%positive))
    created_registered =
  Done SW_TIMER_STATUS_OK
    (mk_state (this created_registered) (mem created_registered)
       (mk_hw 0 [0; 30]) []).
Proof.
  apply (sw_timer_start_stop_round_trip created_registered 10 1%positive
           (repeating 0 30 (Some 11%positive)) dc_arm); reflexivity.
Defined.

(** Record 1 pending alone (period 30, counter at 20) updated to a
    SingleShot of period 70: the counter is loaded with 0 and then 70. *)
Lemma sw_timer_update_sole_pending_witness :
  let s := one_pending_one_stopped 30 50 20 in
  sw_timer_update 10 (Some 1%positive) 70 SW_TIMER_MODE_SINGLE_SHOT
      (Some 21%positive) None s =
    Done SW_TIMER_STATUS_OK
      (mk_state (this s)
         (<[1%positive := mk_timer 70 70 0 (Some 21%positive) None None None]>
            (mem s))
         (mk_hw 70 [70; 0; 30]) []).
Proof.
  intros s.
  apply (sw_timer_update_sole_pending s 10 1%positive
           (repeating 30 30 (Some 11%positive)) 70 SW_TIMER_MODE_SINGLE_SHOT
           (Some 21%positive) None dc_arm);
    first [reflexivity | discriminate].
Defined.

(** Records 2 and 4 fire in chain order within one call, record 3 becomes
    the head and the hardware is armed for the 10 ticks left to it. *)
Lemma sw_timer_interrupt_handler_shared_deadline_witness :
  exists s',
    sw_timer_interrupt_handler 10 shared_deadline = Done tt s'
    /\ head (this s') = Some 3%positive
    /\ fired s' = [(12%positive, None); (14%positive, None)]
    /\ armed (hw s') = [10; 30; 50].
Proof.
  destruct (sw_timer_interrupt_handler_shared_deadline shared_deadline 10
              dc_arm 30 [2%positive; 4%positive] [3%positive; 1%positive])
    as (s' & Hrun & Hhead & Hfired & Hhw).
  - reflexivity.
  - discriminate.
  - simpl. lia.
  - repeat (eapply chain_cons; [reflexivity|]). apply chain_nil.
  - apply (bool_decide_eq_true_1
             (NoDup ([2%positive; 4%positive] ++ [3%positive; 1%positive]))).
    reflexivity.
  - repeat (apply Forall_cons; split;
              [eexists; split; [reflexivity|]; split; reflexivity|]).
    apply Forall_nil. exact I.
  - eexists. split; [reflexivity|]. discriminate.
  - exists s'. split; [exact Hrun|]. split; [exact Hhead|].
    split; [exact Hfired|]. rewrite Hhw. reflexivity.
Defined.

(** Record 1 (Repeating, period 30, time 30) served while the counter
    still reads 20: its time becomes 50 and the hardware is armed for 20. *)
Lemma sw_timer_interrupt_handler_lone_repeating_witness :
  let s := one_pending_one_stopped 30 50 20 in
  sw_timer_interrupt_handler 10 s =
    Done tt
      (mk_state (this s)
         (<[1%positive := repeating 50 30 (Some 11%positive)]> (mem s))
         (mk_hw 20 [20; 30]) [(11%positive, None)]).
Proof.
  intros s.
  apply (sw_timer_interrupt_handler_lone_repeating s 9 1%positive
           (repeating 30 30 (Some 11%positive)) dc_arm dc_now);
    first [reflexivity | discriminate | vm_compute; discriminate].
Defined.

(** Periods 10 and 50, the handler entered with the counter at 3: the
    times are rebased to 3 and 43, the head advances to 13, stays in front,
    and the hardware is armed for 13 - 10 = 3. *)
Lemma sw_timer_interrupt_handler_repeating_stays_witness :
  let s := pending_pair 50 10 3 in
  sw_timer_interrupt_handler 10 s =
    Done tt
      (mk_state (this s)
         (<[2%positive :=
              mk_timer 13 10 1 (Some 12%positive) None (Some 1%positive) None]>
            (<[1%positive :=
                 mk_timer 43 50 1 (Some 11%positive) None None
                   (Some 2%positive)]> ∅))
         (mk_hw 3 [3; 10; 50]) [(12%positive, None)]).
Proof.
  intros s.
  rewrite (sw_timer_interrupt_handler_repeating_stays s 10 2%positive
             (mk_timer 10 10 1 (Some 12%positive) None (Some 1%positive) None)
             [1%positive] dc_arm dc_now).
  - vm_compute. reflexivity.
  - reflexivity.
  - reflexivity.
  - reflexivity.
  - repeat (eapply chain_cons; [reflexivity|]). apply chain_nil.
  - apply (bool_decide_eq_true_1 (NoDup [2; 1]%positive)). reflexivity.
  - reflexivity.
  - reflexivity.
  - vm_compute. discriminate.
  - eexists. split; [reflexivity | vm_compute; discriminate].
  - vm_compute. discriminate.
  - simpl. lia.
Defined.

(** Scenario 2 at its first deadline (periods 50 and 30, the counter at
    0): the times are rebased to 0 and 20, the head advances to 30, and
    record 1 overtakes it: the chain is 1, 2, the callback of record 2 has
    run, and the hardware is armed for 20 - 30 modulo 2^32. *)
Lemma sw_timer_interrupt_handler_repeating_demoted_witness :
  exists s',
    sw_timer_interrupt_handler 10 (pending_pair 50 30 0) = Done tt s'
    /\ head (this s') = Some 1%positive
    /\ hw s' = mk_hw 4294967286 [4294967286; 30; 50]
    /\ fired s' = [(12%positive, None)]
    /\ dchain (mem s') None (Some 1%positive) [1; 2]%positive
    /\ (payload <$> mem s' !! 2%positive) =
         Some (30, 30, 1, Some 12%positive, None).
Proof.
  destruct (sw_timer_interrupt_handler_repeating_demoted
              (pending_pair 50 30 0) 10 2%positive
              (mk_timer 30 30 1 (Some 12%positive) None (Some 1%positive) None)
              1%positive
              (mk_timer 50 50 1 (Some 11%positive) None None (Some 2%positive))
              [] [] dc_arm dc_now)
    as (s' & Hrun & Hthis & Hhw & Hfired & Hd & Hpay & _).
  - reflexivity.
  - reflexivity.
  - reflexivity.
  - repeat (eapply dchain_cons; [reflexivity | reflexivity |]).
    apply dchain_nil.
  - apply (bool_decide_eq_true_1 (NoDup [2; 1]%positive)). reflexivity.
  - reflexivity.
  - reflexivity.
  - reflexivity.
  - vm_compute. discriminate.
  - reflexivity.
  - apply Forall_nil. exact I.
  - exact I.
  - vm_compute. discriminate.
  - simpl. lia.
  - exists s'. split; [exact Hrun|]. split; [rewrite Hthis; reflexivity|].
    split; [exact Hhw|]. split; [exact Hfired|].
    split; [exact Hd | exact Hpay].
Defined.
